(** * Telegram-bot: session lifecycle and automated distribution

    A shallow embedding of the parts of the repository that carry the QR
    authentication state machine, the quota ledger, the distribution
    engine and the supervisor:

    - [src/app/database.py]        -> [Module Database]
    - [src/app/admin_manager.py]   -> [Module AdminManager]
    - [src/app/auto_add.py]        -> [Module AutoAdd]
    - [src/app/session_manager.py] -> [Module SessionManager]

    Python dicts whose iteration order is observable are association
    lists in insertion order; the others are [gmap]s.  Python integers
    are [Z].  Coroutines are computations in a state-and-exception
    monad over the store and the manager's registries; tasks that the
    code gathers run one after the other, in the order they are
    listed.  The statements of the store itself do not fail.  Calls
    into the Telethon client library are answered by an oracle record
    that gives each call, by its arguments, one answer for the length
    of a run -- a value or an exception -- so every theorem quantifies
    over the behaviour of the network. *)

From Stdlib Require Import ZArith Lia Bool Ascii.
From stdpp Require Import base option list gmap strings pretty.

Open Scope Z_scope.

(** ** Python values shared by the modules *)

(** [datetime] objects: [wall] is the wall-clock reading in microseconds
    since the epoch, [tz] the UTC offset in microseconds of an aware
    datetime and [None] for a naive one. *)
Record datetime := DateTime { wall : Z; tz : option Z }.

#[global] Instance datetime_eq_dec : EqDecision datetime.
Proof. solve_decision. Defined.

(** Exceptions: the classes the code tells apart, and [str(e)]. *)
Inductive exn_class :=
| TimeoutError
| ValueError
| TypeError
| AttributeError
| UserAlreadyParticipantError
| UserPrivacyRestrictedError
| UserNotMutualContactError
| FloodWaitError (seconds : Z)
| OtherError (name : string).

Record exn := Exn { exn_class_of : exn_class; str_exn : string }.

(** The [results] dict of one distribution run and the dicts returned by
    [add_users_to_group]. *)
Record results := Results {
  r_added : Z;
  r_failed : Z;
  r_invited : Z;
  r_total : Z;
  r_errors : list string;
  r_skipped : Z
}.

Inductive run_result :=
| RunFailure (message : string)      (* {"success": False, "message": m} *)
| RunSuccess (res : results).        (* {"success": True, "results": r}  *)

Definition success (r : run_result) : bool :=
  match r with RunFailure _ => false | RunSuccess _ => true end.

(** JSON values kept in the [admin_settings] table.  [VIso d] is the
    ISO-8601 text of [d], as written by [datetime.isoformat] and read
    back by [datetime.fromisoformat]. *)
Inductive value :=
| VNone
| VBool (b : bool)
| VInt (n : Z)
| VStr (s : string)
| VIso (d : datetime)
| VRun (r : run_result)
| VCrash (error : string).           (* {"success": False, "error": e} *)

(** Python truthiness. *)
Definition truthy (v : value) : bool :=
  match v with
  | VNone => false
  | VBool b => b
  | VInt n => negb (n =? 0)
  | VStr s => negb (String.eqb s "")
  | VIso _ | VRun _ | VCrash _ => true
  end.


(** ** Results, exceptions and state: the monad of the embedding *)

Inductive res (A : Type) := Ok (a : A) | Raise (e : exn).
Arguments Ok {A} a.
Arguments Raise {A} e.

(** A computation over a state [S] that returns or raises; the state at
    the point of the [raise] is kept, as in Python. *)
Definition M (S A : Type) : Type := S → res A * S.

Definition ret {S A} (a : A) : M S A := λ s, (Ok a, s).

Definition raise {S A} (e : exn) : M S A := λ s, (Raise e, s).

Definition bind {S A B} (m : M S A) (k : A → M S B) : M S B :=
  λ s, match m s with
       | (Ok a, s') => k a s'
       | (Raise e, s') => (Raise e, s')
       end.

Notation "'let!' x ':=' m 'in' k" := (bind m (λ x, k))
  (at level 10, x name, m at level 100, k at level 200).
Notation "m ';;;' k" := (bind m (λ _, k))
  (at level 100, k at level 200, right associativity).

Definition get {S} : M S S := λ s, (Ok s, s).
Definition gets {S A} (f : S → A) : M S A := λ s, (Ok (f s), s).
Definition modify {S} (f : S → S) : M S unit := λ s, (Ok tt, f s).

(** [try: body except Exception as e: handler e] *)
Definition try_except {S A} (body : M S A) (handler : exn → M S A) : M S A :=
  λ s, match body s with
       | (Ok a, s') => (Ok a, s')
       | (Raise e, s') => handler e s'
       end.

(** [try: body finally: final]: [final] runs on both exits; an
    exception raised by [final] replaces the outcome of [body]. *)
Definition try_finally {S A} (body : M S A) (final : M S unit) : M S A :=
  λ s, match body s with
       | (r, s') =>
           match final s' with
           | (Ok _, s'') => (r, s'')
           | (Raise e, s'') => (Raise e, s'')
           end
       end.

(** Answer of an external call, as fixed by an oracle. *)
Definition answer {S A} (r : res A) : M S A := λ s, (r, s).

(** ** Python built-ins used by the code *)

Definition py_or (a b : value) : value := if truthy a then a else b.

Definition is_space (c : ascii) : bool :=
  bool_decide (c ∈ [" "; "009"; "010"; "011"; "012"; "013"]%char).

Fixpoint lstrip (s : string) : string :=
  match s with
  | String c s' => if is_space c then lstrip s' else s
  | EmptyString => EmptyString
  end.

Definition strip (s : string) : string :=
  String.rev (lstrip (String.rev (lstrip s))).

Definition digit_of (c : ascii) : option Z :=
  let n := Z.of_nat (nat_of_ascii c) in
  if (48 <=? n) && (n <=? 57) then Some (n - 48) else None.

(** Decimal digits, single underscores allowed between digits. *)
Fixpoint parse_digits (acc : Z) (after_digit : bool) (s : string) : option Z :=
  match s with
  | EmptyString => if after_digit then Some acc else None
  | String c s' =>
      if bool_decide (c = "_"%char) then
        if after_digit then parse_digits acc false s' else None
      else match digit_of c with
           | Some d => parse_digits (acc * 10 + d) true s'
           | None => None
           end
  end.

(** [int(s)] on an ASCII string; [None] is ValueError. *)
Definition int_of_string (s : string) : option Z :=
  match strip s with
  | String "-" s' => Z.opp <$> parse_digits 0 false s'
  | String "+" s' => parse_digits 0 false s'
  | s' => parse_digits 0 false s'
  end.

(** [s.split(sep, 1)] when [sep] occurs: the text before and after its
    first occurrence; [None] when the result has a single part. *)
Fixpoint split_once (sep : ascii) (s : string) : option (string * string) :=
  match s with
  | EmptyString => None
  | String c s' =>
      if bool_decide (c = sep) then Some (EmptyString, s')
      else match split_once sep s' with
           | Some (a, b) => Some (String c a, b)
           | None => None
           end
  end.

(** ** datetime arithmetic (microseconds) *)

Definition usec_per_second : Z := 1000000.
Definition usec_per_minute : Z := 60 * usec_per_second.
Definition usec_per_hour : Z := 60 * usec_per_minute.
Definition usec_per_day : Z := 24 * usec_per_hour.

(** [timedelta(days=d, minutes=m)] *)
Definition timedelta (days minutes : Z) : Z :=
  days * usec_per_day + minutes * usec_per_minute.

(** [datetime.now(timezone.utc)] at the instant [now]. *)
Definition utc (now : Z) : datetime := DateTime now (Some 0).

(** [d.date()], as a day number. *)
Definition date (d : datetime) : Z := wall d `div` usec_per_day.

(** The instant an aware datetime denotes. *)
Definition instant (d : datetime) : Z := wall d - default 0 (tz d).

Definition dt_add (d : datetime) (delta : Z) : datetime :=
  DateTime (wall d + delta) (tz d).

(** [d.replace(tzinfo=timezone.utc)] *)
Definition replace_tzinfo_utc (d : datetime) : datetime :=
  DateTime (wall d) (Some 0).

(** Comparisons of aware datetimes. *)
Definition dt_ge (a b : datetime) : bool := instant b <=? instant a.
Definition dt_gt (a b : datetime) : bool := instant b <? instant a.
Definition dt_lt (a b : datetime) : bool := instant a <? instant b.

(** [time(hour, minute, tzinfo=timezone.utc)]; [None] is ValueError. *)
Definition time (hour minute : Z) : option Z :=
  if (0 <=? hour) && (hour <? 24) && (0 <=? minute) && (minute <? 60)
  then Some (hour * usec_per_hour + minute * usec_per_minute)
  else None.

(** [datetime.combine(day, t)] for a UTC time of day [t]. *)
Definition combine (day : Z) (t : Z) : datetime :=
  DateTime (day * usec_per_day + t) (Some 0).

(** * Durable store *)
Module Database.

Inductive phone_status := Pending | Added | Invited | Failed.

#[global] Instance phone_status_eq_dec : EqDecision phone_status.
Proof. solve_decision. Defined.

(** A row of [phone_numbers].  Rows are kept in [added_at] order; the
    [processed_at] column records whether a mark has been written. *)
Record phone_row := PhoneRow {
  phone : string;
  status : phone_status;
  processed_at : bool
}.

(** A row of [sessions] ([name] is UNIQUE). *)
Record session_row := SessionRow {
  name : string;
  session_status : string;
  api_id : Z;
  api_hash : string
}.

(** A row of [admin_session] ([session_name] is UNIQUE; the credential
    columns are left out). *)
Record admin_row := AdminRow {
  session_name : string;
  user_id : Z;
  username : string;
  first_name : string;
  admin_status : string
}.

(** A row of [operations]; the generated id is the row's position.
    [op_data] stands for the JSON text of the [data] column: the
    message or error text it carries, for a description (an f-string
    in the callers) the session name or the fixed text of it, and the
    word [results] for the result counters of a finished run. *)
Record operation := Operation {
  op_type : string;
  op_status : string;
  op_data : option string
}.

Record db := Db {
  phone_numbers : list phone_row;
  sessions : list session_row;
  admin_session : list admin_row;
  session_limits : gmap (string * string) Z;
  admin_settings : gmap string value;
  blacklist : list string;
  operations : list operation
}.

Definition empty : db := Db [] [] [] ∅ ∅ [] [].

Definition with_phone_numbers (d : db) (l : list phone_row) : db :=
  Db l (sessions d) (admin_session d) (session_limits d) (admin_settings d)
     (blacklist d) (operations d).
Definition with_sessions (d : db) (l : list session_row) : db :=
  Db (phone_numbers d) l (admin_session d) (session_limits d)
     (admin_settings d) (blacklist d) (operations d).
Definition with_admin_session (d : db) (l : list admin_row) : db :=
  Db (phone_numbers d) (sessions d) l (session_limits d) (admin_settings d)
     (blacklist d) (operations d).
Definition with_session_limits (d : db) (m : gmap (string * string) Z) : db :=
  Db (phone_numbers d) (sessions d) (admin_session d) m (admin_settings d)
     (blacklist d) (operations d).
Definition with_admin_settings (d : db) (m : gmap string value) : db :=
  Db (phone_numbers d) (sessions d) (admin_session d) (session_limits d) m
     (blacklist d) (operations d).
Definition with_blacklist (d : db) (l : list string) : db :=
  Db (phone_numbers d) (sessions d) (admin_session d) (session_limits d)
     (admin_settings d) l (operations d).
Definition with_operations (d : db) (l : list operation) : db :=
  Db (phone_numbers d) (sessions d) (admin_session d) (session_limits d)
     (admin_settings d) (blacklist d) l.

(** *** sessions *)

(** INSERT OR REPLACE: a row of the same name is deleted, the new row
    is appended. *)
Definition create_session (nm : string) (id : Z) (hash st : string) (d : db) : db :=
  with_sessions d
    (filter (λ r, name r ≠ nm) (sessions d) ++ [SessionRow nm st id hash]).

Definition get_sessions (d : db) : list session_row := sessions d.

Definition delete_session (nm : string) (d : db) : db :=
  with_sessions d (filter (λ r, name r ≠ nm) (sessions d)).

Definition save_admin_session (nm : string) (uid : Z) (uname fname : string) (d : db) : db :=
  with_admin_session d
    (filter (λ r, session_name r ≠ nm) (admin_session d)
       ++ [AdminRow nm uid uname fname "active"]).

Definition get_admin_session (d : db) : option admin_row :=
  head (filter (λ r, admin_status r = "active") (admin_session d)).

(** *** phone_numbers *)

Definition has_phone (p : string) (d : db) : bool :=
  bool_decide (p ∈ phone <$> phone_numbers d).

(** INSERT fails with IntegrityError on a phone already stored. *)
Definition add_phone_number (p : string) (d : db) : bool * db :=
  if has_phone p d then (false, d)
  else (true, with_phone_numbers d (phone_numbers d ++ [PhoneRow p Pending false])).

Definition remove_phone_number (p : string) (d : db) : bool * db :=
  (has_phone p d,
   with_phone_numbers d (filter (λ r, phone r ≠ p) (phone_numbers d))).

Definition get_pending_phone_numbers (d : db) : list phone_row :=
  filter (λ r, status r = Pending) (phone_numbers d).

(** UPDATE phone_numbers SET status = st, processed_at = now WHERE phone = p *)
Definition mark_phone (st : phone_status) (p : string) (d : db) : db :=
  with_phone_numbers d
    ((λ r, if decide (phone r = p) then PhoneRow (phone r) st true else r)
       <$> phone_numbers d).

Definition mark_phone_added := mark_phone Added.
Definition mark_phone_invited := mark_phone Invited.
Definition mark_phone_failed := mark_phone Failed.

Definition add_to_blacklist (u : string) (d : db) : db :=
  if bool_decide (u ∈ blacklist d) then d
  else with_blacklist d (blacklist d ++ [u]).

(** *** admin_settings *)

Definition set_setting (key : string) (v : value) (d : db) : db :=
  with_admin_settings d (<[key := v]> (admin_settings d)).

Definition get_setting (key : string) (default : value) (d : db) : value :=
  match admin_settings d !! key with
  | Some v => v
  | None => default
  end.

Definition get_all_settings (d : db) : gmap string value := admin_settings d.

Definition set_invite_message (message : value) : db → db :=
  set_setting "invite_message" message.

(** *** operations *)

Definition add_operation (ty description st : string) (d : db) : nat * db :=
  (length (operations d),
   with_operations d (operations d ++ [Operation ty st (Some description)])).

Definition update_operation_status (id : nat) (st : string) (data : option string) (d : db) : db :=
  with_operations d
    (match operations d !! id with
     | Some o =>
         <[id := Operation (op_type o) st
                   (match data with Some x => Some x | None => op_data o end)]>
           (operations d)
     | None => operations d
     end).

(** *** session_limits: the quota ledger

    [today] is [date.today().isoformat()]. *)

Definition users_added (d : db) (session : string) (day : string) : Z :=
  default 0 (session_limits d !! (session, day)).

Definition get_session_daily_limit (session : string) (max_daily : Z)
    (today : string) (d : db) : Z :=
  let added_today :=
    match session_limits d !! (session, today) with
    | Some n => n
    | None => 0
    end in
  max_daily - added_today.

(** INSERT OR IGNORE a zero row, then UPDATE users_added + 1. *)
Definition increment_session_limit (session : string) (today : string) (d : db) : db :=
  let inserted :=
    match session_limits d !! (session, today) with
    | Some _ => session_limits d
    | None => <[(session, today) := 0]> (session_limits d)
    end in
  with_session_limits d (alter (λ n, n + 1) (session, today) inserted).

(** *** statistics used by the supervisor *)

Definition pending_phones (d : db) : Z :=
  Z.of_nat (length (filter (λ r, status r = Pending) (phone_numbers d))).

(** *** The administrative surface of the tables *)



Definition get_phone_numbers_count (d : db) : Z :=
  Z.of_nat (length (phone_numbers d)).

(** [delete_all_phone_numbers()] returns the row count of the DELETE. *)
Definition delete_all_phone_numbers (d : db) : Z * db :=
  (Z.of_nat (length (phone_numbers d)), with_phone_numbers d []).


Definition get_sessions_count (d : db) : Z :=
  Z.of_nat (length (sessions d)).

(** UPDATE sessions SET status = ?, last_used = now WHERE name = ? *)
Definition update_session_status (nm st : string) (d : db) : db :=
  with_sessions d
    ((λ r, if decide (name r = nm) then SessionRow (name r) st (api_id r) (api_hash r)
           else r) <$> sessions d).

Definition delete_all_sessions (d : db) : db := with_sessions d [].

Definition delete_admin_session (d : db) : db := with_admin_session d [].

(** [remove_from_blacklist(username)] returns whether a row was deleted. *)
Definition remove_from_blacklist (u : string) (d : db) : bool * db :=
  (bool_decide (u ∈ blacklist d),
   with_blacklist d (filter (λ x, x ≠ u) (blacklist d))).

Definition get_blacklist (d : db) : list string := blacklist d.

(** [get_operation(operation_id)]: the row, with an empty [data] read
    as [{}] (here [None]). *)
Definition get_operation (id : nat) (d : db) : option operation :=
  operations d !! id.

End Database.


(** * Administrative settings (src/app/admin_manager.py) *)
Module AdminManager.

Definition _get_default_settings : gmap string value :=
  <["session_creation_enabled" := VBool false]>
  (<["auto_add_enabled" := VBool false]>
  (<["target_group_id" := VNone]>
  (<["daily_start_time" := VNone]>
  (<["max_users_per_session" := VInt 50]>
  (<["delay_between_adds" := VInt 10]>
  (<["batch_size" := VInt 3]> ∅)))))).

(** The defaults, updated with every stored setting. *)
Definition get_settings (d : Database.db) : gmap string value :=
  Database.get_all_settings d ∪ _get_default_settings.

Definition update_settings (key : string) (v : value) : Database.db → Database.db :=
  Database.set_setting key v.

Definition is_session_creation_enabled (d : Database.db) : value :=
  Database.get_setting "session_creation_enabled" (VBool false) d.

Definition is_auto_add_enabled (d : Database.db) : value :=
  Database.get_setting "auto_add_enabled" (VBool false) d.

(** One or two ASCII digits, as the directives [%H] and [%M] take them. *)
Definition two_digits (s : string) : option Z :=
  match s with
  | String a EmptyString => digit_of a
  | String a (String b EmptyString) =>
      match digit_of a, digit_of b with
      | Some x, Some y => Some (10 * x + y)
      | _, _ => None
      end
  | _ => None
  end.

(** [datetime.strptime(s, "%H:%M").time()] on ASCII text, as
    microseconds since midnight; [None] is ValueError. *)
Definition strptime_HM (s : string) : option Z :=
  match split_once ":" s with
  | Some (h, m) =>
      match two_digits h, two_digits m with
      | Some hour, Some minute =>
          if (hour <? 24) && (minute <? 60)
          then Some (hour * usec_per_hour + minute * usec_per_minute)
          else None
      | _, _ => None
      end
  | None => None
  end.

(** [get_next_run_time()] at the local wall-clock reading [now]; the
    datetimes are naive. *)
Definition get_next_run_time (now : Z) (d : Database.db) : res (option datetime) :=
  let daily_start_time := Database.get_setting "daily_start_time" VNone d in
  if negb (truthy daily_start_time) then Ok None
  else
    let parsed : res Z :=
      match daily_start_time with
      | VStr s =>
          match strptime_HM s with
          | Some t => Ok t
          | None => Raise (Exn ValueError "time data does not match format '%H:%M'")
          end
      | VIso _ => Raise (Exn ValueError "time data does not match format '%H:%M'")
      | _ => Raise (Exn TypeError "strptime() argument 1 must be str")
      end in
    match parsed with
    | Raise e => Raise e
    | Ok start_time =>
        let next_run := DateTime (now `div` usec_per_day * usec_per_day + start_time) None in
        Ok (Some (if wall next_run <=? now then dt_add next_run (timedelta 1 0)
                  else next_run))
    end.

(** [should_run_auto_add()]; the clock is read once inside
    [get_next_run_time], at [now], and once after it, at [later]. *)
Definition should_run_auto_add (now later : Z) (d : Database.db) : res bool :=
  if negb (truthy (is_auto_add_enabled d)) then Ok false
  else
    match get_next_run_time now d with
    | Raise e => Raise e
    | Ok None => Ok false
    | Ok (Some next_run) =>
        Ok (Z.abs (later - wall next_run) <? 30 * usec_per_second)
    end.

End AdminManager.

(** [settings.get(key)] and [settings.get(key, default)] on a dict. *)
Definition dict_get (settings : gmap string value) (key : string) (default : value) : value :=
  match settings !! key with
  | Some v => v
  | None => default
  end.

(** * Supervisor (src/app/auto_add.py) *)
Module AutoAdd.

(** The session manager as the supervisor sees it: the three coroutines
    it awaits, acting on the store and on the manager's own state [W]. *)
Record session_manager (W : Type) := SessionManagerApi {
  refresh_active_sessions : M (Database.db * W) unit;
  add_users_to_group :
    value → value → value → value → value → M (Database.db * W) run_result;
  refresh_target_group_member_count : value → M (Database.db * W) unit
}.
Arguments refresh_active_sessions {W} _.
Arguments add_users_to_group {W} _.
Arguments refresh_target_group_member_count {W} _.

(** [AutoAddSupervisor]: the fields the loop reads and writes. *)
Record supervisor := Supervisor {
  poll_interval : Z;
  status_running : bool;             (* self._status['running']  *)
  status_next_run : option datetime; (* self._status['next_run'] *)
  stop_event : bool;
  wake_event : bool
}.

(** [__init__]; [_min_run_interval] is the constant below. *)
Definition init (poll : Z) : supervisor :=
  Supervisor (Z.max 30 poll) false None false false.

Definition _min_run_interval : Z := timedelta 0 5.

Record world (W : Type) := World {
  sup : supervisor;
  db : Database.db;
  manager : W
}.
Arguments World {W}.
Arguments sup {W}.
Arguments db {W}.
Arguments manager {W}.

Definition set_running {W} (b : bool) : M (world W) unit :=
  modify (λ w, World (Supervisor (poll_interval (sup w)) b (status_next_run (sup w))
                        (stop_event (sup w)) (wake_event (sup w)))
                     (db w) (manager w)).

Definition set_next_run {W} (n : option datetime) : M (world W) unit :=
  modify (λ w, World (Supervisor (poll_interval (sup w)) (status_running (sup w)) n
                        (stop_event (sup w)) (wake_event (sup w)))
                     (db w) (manager w)).

Definition set_wake_event {W} (b : bool) : M (world W) unit :=
  modify (λ w, World (Supervisor (poll_interval (sup w)) (status_running (sup w))
                        (status_next_run (sup w)) (stop_event (sup w)) b)
                     (db w) (manager w)).

Definition set_stop_event {W} (b : bool) : M (world W) unit :=
  modify (λ w, World (Supervisor (poll_interval (sup w)) (status_running (sup w))
                        (status_next_run (sup w)) b (wake_event (sup w)))
                     (db w) (manager w)).

(** [self.db.<method>(...)] *)
Definition on_db {W} (f : Database.db → Database.db) : M (world W) unit :=
  modify (λ w, World (sup w) (f (db w)) (manager w)).

(** [await self.session_manager.<method>(...)] *)
Definition await_manager {W A} (m : M (Database.db * W) A) : M (world W) A :=
  λ w, match m (db w, manager w) with
       | (r, (d, k)) => (r, World (sup w) d k)
       end.

(** [status()]: the [running] entry of the snapshot. *)
Definition status_reports_running {W} (w : world W) : bool :=
  status_running (sup w).

(** [int(target_group_id)] inside [try ... except (TypeError, ValueError)]:
    the integer when the conversion succeeds, the value itself otherwise. *)
Definition group_id_of (target_group_id : value) : value :=
  match target_group_id with
  | VInt n => VInt n
  | VBool b => VInt (if b then 1 else 0)
  | VStr s => match int_of_string s with
              | Some n => VInt n
              | None => target_group_id
              end
  | _ => target_group_id
  end.

(** [_calculate_next_run(settings, now_utc)].  The forced wake-up flag
    is consumed when set.  A stored [auto_add_last_run] that is not text
    makes [fromisoformat] raise TypeError, a [daily_start_time] that is
    truthy and not text has no [split]; neither is caught. *)
Definition _calculate_next_run (settings : gmap string value) (now : Z)
    (d : Database.db) : res datetime * Database.db :=
  let now_utc := utc now in
  let forced_wakeup := Database.get_setting "auto_add_forced_wakeup" VNone d in
  if truthy forced_wakeup then
    (Ok now_utc, Database.set_setting "auto_add_forced_wakeup" VNone d)
  else
    let last_run_iso := Database.get_setting "auto_add_last_run" VNone d in
    let parsed : res (option datetime) :=
      if truthy last_run_iso then
        match last_run_iso with
        | VIso t => Ok (Some t)
        | VStr _ => Ok None
        | _ => Raise (Exn TypeError "fromisoformat: argument must be str")
        end
      else Ok None in
    match parsed with
    | Raise e => (Raise e, d)
    | Ok last_run =>
        let daily_start := dict_get settings "daily_start_time" VNone in
        if truthy daily_start then
          let parts : res (option (Z * Z)) :=
            match daily_start with
            | VStr s =>
                Ok (match split_once ":" s with
                    | Some (h, m) =>
                        match int_of_string h, int_of_string m with
                        | Some hour, Some minute => Some (hour, minute)
                        | _, _ => None
                        end
                    | None => None
                    end)
            | VIso _ => Ok None
            | _ => Raise (Exn AttributeError "object has no attribute 'split'")
            end in
          match parts with
          | Raise e => (Raise e, d)
          | Ok hm =>
              let start_today :=
                match hm with
                | Some (hour, minute) =>
                    match time hour minute with
                    | Some t => combine (date now_utc) t
                    | None => now_utc
                    end
                | None => now_utc
                end in
              let ran_today :=
                match last_run with
                | Some lr =>
                    let lr := match tz lr with
                              | None => replace_tzinfo_utc lr
                              | Some _ => lr
                              end in
                    bool_decide (date lr = date now_utc) && dt_ge lr start_today
                | None => false
                end in
              if ran_today then (Ok (dt_add start_today (timedelta 1 0)), d)
              else if dt_ge now_utc start_today then (Ok now_utc, d)
              else (Ok start_today, d)
          end
        else
          match last_run with
          | None => (Ok now_utc, d)
          | Some lr =>
              let lr := match tz lr with
                        | None => replace_tzinfo_utc lr
                        | Some _ => lr
                        end in
              let earliest_next := dt_add lr _min_run_interval in
              (Ok (if dt_gt earliest_next now_utc then earliest_next else now_utc), d)
          end
    end.

Section Supervisor.
Context {W : Type} (session_manager_ : session_manager W).

(** [_execute_cycle(target_group_id, settings)]; [finished] is the clock
    read when the run has returned. *)
Definition _execute_cycle (target_group_id : value) (settings : gmap string value)
    (finished : Z) : M (world W) unit :=
  set_running true ;;;
  on_db (Database.set_setting "auto_add_running" (VBool true)) ;;;
  try_finally
    (try_except
       (await_manager (refresh_active_sessions session_manager_) ;;;
        let delay := py_or (dict_get settings "delay_between_adds" VNone) (VInt 30) in
        let batch_size := py_or (dict_get settings "batch_size" VNone) (VInt 5) in
        let max_daily := py_or (dict_get settings "max_users_per_session" VNone) (VInt 80) in
        let invite_message := dict_get settings "invite_message" VNone in
        let group_id := group_id_of target_group_id in
        let! result :=
          await_manager
            (add_users_to_group session_manager_ group_id delay batch_size max_daily
               invite_message) in
        try_except
          (await_manager (refresh_target_group_member_count session_manager_ group_id))
          (λ _, ret tt) ;;;
        on_db (Database.set_setting "auto_add_last_result" (VRun result)) ;;;
        on_db (Database.set_setting "auto_add_last_run" (VIso (utc finished))))
       (λ exc,
          on_db (Database.set_setting "auto_add_last_result" (VCrash (str_exn exc)))))
    (set_running false ;;;
     on_db (Database.set_setting "auto_add_running" (VBool false)) ;;;
     set_wake_event false).

(** What one pass of the loop body did. *)
Inductive pass :=
| Waited (timeout_usec : Z)
| Launched (at_ : Z).

(** [_wait(timeout_seconds)]: the timeout handed to [asyncio.wait], in
    microseconds. *)
Definition _wait_timeout (timeout_usec : Z) : Z :=
  Z.max (5 * usec_per_second) timeout_usec.

(** One pass of the [while] body of [_run_loop], at clock reading [now]. *)
Definition loop_body (now finished : Z) : M (world W) pass :=
  let! w := get in
  (if wake_event (sup w) then set_wake_event false else ret tt) ;;;
  let! settings := gets (λ w, AdminManager.get_settings (db w)) in
  let enabled := dict_get settings "auto_add_enabled" (VBool false) in
  let target_group := dict_get settings "target_group_id" VNone in
  let! pending_count := gets (λ w, Database.pending_phones (db w)) in
  let now_utc := utc now in
  let! next_run :=
    (λ w, match _calculate_next_run settings now (db w) with
          | (r, d) => (r, World (sup w) d (manager w))
          end) in
  set_next_run (Some next_run) ;;;
  let! poll := gets (λ w, poll_interval (sup w) * usec_per_second) in
  if negb (truthy enabled) then ret (Waited (_wait_timeout poll))
  else if negb (truthy target_group) then ret (Waited (_wait_timeout poll))
  else if pending_count =? 0 then ret (Waited (_wait_timeout poll))
  else if dt_lt now_utc next_run then
    let wait_usec := Z.max (30 * usec_per_second) (instant next_run - instant now_utc) in
    ret (Waited (_wait_timeout (Z.min wait_usec poll)))
  else
    _execute_cycle target_group settings finished ;;;
    ret (Launched now).

End Supervisor.

(** What the rest of the program does while the loop is suspended in
    [_wait]: the methods of the supervisor and of the store that the
    administrative surface calls. *)
Inductive event :=
| UpdateSettings (key : string) (v : value)
| ImportPhone (phone : string)
| WakeUp (immediate : bool) (at_ : Z)
| Shutdown.

(** [wake_up(immediate)] *)
Definition wake_up {W} (immediate : bool) (at_ : Z) : M (world W) unit :=
  set_wake_event true ;;;
  if immediate
  then on_db (Database.set_setting "auto_add_forced_wakeup" (VIso (utc at_)))
  else ret tt.

Definition occur {W} (e : event) : M (world W) unit :=
  match e with
  | UpdateSettings key v => on_db (AdminManager.update_settings key v)
  | ImportPhone p => on_db (λ d, snd (Database.add_phone_number p d))
  | WakeUp immediate at_ => wake_up immediate at_
  | Shutdown => set_stop_event true ;;; set_wake_event true
  end.

Fixpoint occur_all {W} (es : list event) : M (world W) unit :=
  match es with
  | [] => ret tt
  | e :: es' => occur e ;;; occur_all es'
  end.

(** One turn of the loop: the clock it reads, the clock when a launched
    cycle returns, and what happened while it was suspended afterwards. *)
Record turn := Turn {
  turn_now : Z;
  turn_finished : Z;
  turn_events : list event
}.

(** The [while not self._stop_event.is_set()] loop over the given turns:
    the passes made, in order, and how the loop stands after the last
    turn.  An exception that leaves the loop body ends the task. *)
Fixpoint run_turns {W} (sm : session_manager W) (turns : list turn) (w : world W)
    : list pass * (res unit * world W) :=
  match turns with
  | [] => ([], (Ok tt, w))
  | t :: turns' =>
      if stop_event (sup w) then ([], (Ok tt, w))
      else
        match loop_body sm (turn_now t) (turn_finished t) w with
        | (Raise e, w') => ([], (Raise e, w'))
        | (Ok p, w') =>
            match occur_all (turn_events t) w' with
            | (Raise e, w'') => ([p], (Raise e, w''))
            | (Ok _, w'') =>
                let rest := run_turns sm turns' w'' in
                (p :: fst rest, snd rest)
            end
        end
  end.

(** [_run_loop]: the last-run timestamp is first set to the current
    time [started], then the loop runs. *)
Definition _run_loop {W} (sm : session_manager W) (started : Z) (turns : list turn)
    (w : world W) : list pass * (res unit * world W) :=
  run_turns sm turns
    (World (sup w)
       (Database.set_setting "auto_add_last_run" (VIso (utc started)) (db w))
       (manager w)).

(** The clock reading of the first pass that launched a cycle. *)
Fixpoint first_launch (passes : list pass) : option Z :=
  match passes with
  | [] => None
  | Launched at_ :: _ => Some at_
  | Waited _ :: rest => first_launch rest
  end.

(** [shutdown()]; [task] is what awaiting the loop task gives -- its
    return, or the exception that ended the loop -- and [None] stands
    for a supervisor that has no task. *)
Definition shutdown {W} (task : option (res unit)) : M (world W) unit :=
  match task with
  | None => ret tt
  | Some outcome =>
      set_stop_event true ;;;
      set_wake_event true ;;;
      try_finally (answer outcome)
        (on_db (Database.set_setting "auto_add_running" (VBool false)) ;;;
         on_db (Database.set_setting "auto_add_enabled" (VBool false)))
  end.

(** An event that neither forces a wake-up nor rewrites the schedule
    settings or the last-run timestamp. *)
Definition quiet (e : event) : Prop :=
  match e with
  | WakeUp immediate _ => immediate = false
  | UpdateSettings key _ =>
      key ≠ "auto_add_forced_wakeup" ∧ key ≠ "auto_add_last_run"
      ∧ key ≠ "daily_start_time"
  | ImportPhone _ | Shutdown => True
  end.

End AutoAdd.


(** * Session manager (src/app/session_manager.py) *)
Module SessionManager.

(** ** Client handles and the network *)

(** A [TelegramClient] object: the in-memory client opened for a QR
    attempt, or the client bound to a session file in [users/] or
    [admins/]. *)
Inductive client :=
| MemoryClient (attempt : string)
| FileClient (is_admin : bool) (name : string).

#[global] Instance client_eq_dec : EqDecision client.
Proof. solve_decision. Defined.

#[global] Instance client_countable : Countable client.
Proof.
  refine (inj_countable'
    (λ c, match c with
          | MemoryClient a => inl a
          | FileClient b n => inr (b, n)
          end)
    (λ x, match x with
          | inl a => MemoryClient a
          | inr (b, n) => FileClient b n
          end) _).
  by intros [].
Defined.

(** The [User] returned by [get_me()]. *)
Record user := User {
  id : Z;
  me_username : option string;
  me_first_name : option string
}.

Inductive entity_kind := IsChat | IsChannel | IsUser.

(** An entity as [get_entity] returns it. *)
Record entity := Entity {
  ent_id : Z;
  ent_kind : entity_kind;
  megagroup : bool;
  ent_username : option string
}.

(** What [get_input_entity] and [get_entity] are asked to resolve. *)
Inductive target :=
| ById (group_id : value)
| ByPhone (phone : string)
| ByPeer (peer : Z).

(** The network and the clock as one run sees them: the answer of each
    call of the client library, given its arguments.  Logging is silent
    throughout, with one exception: the call of the logger that passes
    a positional argument after the event, which the logging library
    interpolates into the event; its answer is [log_positional]. *)
Record network := Network {
  api_id : Z;                                   (* telegram_config.api_id   *)
  api_hash : string;                            (* telegram_config.api_hash *)
  today : string;                               (* date.today().isoformat() *)
  connect : client → res unit;
  is_user_authorized : client → res bool;
  get_me : client → res (option user);
  disconnect : client → res unit;
  auth_key : client → bool;                     (* client.session.auth_key  *)
  qr_login : client → list Z → res string;      (* the login URL of the challenge *)
  qr_wait : client → res unit;                  (* wait_for(qr_login.wait(), 300) *)
  sign_in : client → string → res unit;
  get_input_entity : client → target → res Z;
  get_entity : client → target → res entity;
  import_contacts : client → string → res unit;
  delete_contacts : client → Z → res unit;
  invite_request : client → entity → Z → res unit;
  export_chat_invite : client → Z → res string;
  send_message : client → Z → string → res unit;
  iter_dialogs_phones : client → res (list string);
  str_format : string → string → res string;    (* template.format(invite_link=link) *)
  log_positional : string → string → res unit   (* logger.error(event, arg, ...) *)
}.

(** ** State of the manager, of the session directory and of the
    connections *)

Inductive qr_status :=
| generating | waiting | scanned | duplicate | password_required | expired | error.

#[global] Instance qr_status_eq_dec : EqDecision qr_status.
Proof. solve_decision. Defined.

(** The dict kept in [qr_sessions] for one attempt. *)
Record qr_session := QrSession {
  status : qr_status;
  message : option string;
  held_client : option client;                  (* the "client" entry *)
  operation_id : option nat;
  is_admin_attempt : bool;
  qr_image : option string
}.

Record state := State {
  sessions : list (string * client);            (* insertion-ordered dict *)
  admin_sessions : gmap string client;
  qr_sessions : gmap string qr_session;
  user_sessions : gmap Z string;                (* user_id -> session_name *)
  files : gset (bool * string);                 (* session files: (admins?, name) *)
  connected : gset client;
  contacts : gmap client (gset string);         (* contact list of each account *)
  journal : list (string * string)              (* "Processing pending phone"
                                                   log records: phone, session *)
}.

(** [__init__]: empty registries; nothing of the session directory or
    of the network is known to be there. *)
Definition fresh : state := State [] ∅ ∅ ∅ ∅ ∅ ∅ [].

Definition with_sessions (s : state) (x : list (string * client)) : state :=
  State x (admin_sessions s) (qr_sessions s) (user_sessions s) (files s)
        (connected s) (contacts s) (journal s).
Definition with_admin_sessions (s : state) (x : gmap string client) : state :=
  State (sessions s) x (qr_sessions s) (user_sessions s) (files s)
        (connected s) (contacts s) (journal s).
Definition with_qr_sessions (s : state) (x : gmap string qr_session) : state :=
  State (sessions s) (admin_sessions s) x (user_sessions s) (files s)
        (connected s) (contacts s) (journal s).
Definition with_user_sessions (s : state) (x : gmap Z string) : state :=
  State (sessions s) (admin_sessions s) (qr_sessions s) x (files s)
        (connected s) (contacts s) (journal s).
Definition with_files (s : state) (x : gset (bool * string)) : state :=
  State (sessions s) (admin_sessions s) (qr_sessions s) (user_sessions s) x
        (connected s) (contacts s) (journal s).
Definition with_connected (s : state) (x : gset client) : state :=
  State (sessions s) (admin_sessions s) (qr_sessions s) (user_sessions s) (files s)
        x (contacts s) (journal s).
Definition with_contacts (s : state) (x : gmap client (gset string)) : state :=
  State (sessions s) (admin_sessions s) (qr_sessions s) (user_sessions s) (files s)
        (connected s) x (journal s).
Definition with_journal (s : state) (x : list (string * string)) : state :=
  State (sessions s) (admin_sessions s) (qr_sessions s) (user_sessions s) (files s)
        (connected s) (contacts s) x.

(** Computations of the manager act on the store and on [state]. *)
Definition SM (A : Type) : Type := M (Database.db * state) A.

Definition on_db (f : Database.db → Database.db) : SM unit :=
  modify (λ w, (f (fst w), snd w)).
Definition from_db {A} (f : Database.db → A) : SM A := gets (λ w, f (fst w)).
Definition on_state (f : state → state) : SM unit :=
  modify (λ w, (fst w, f (snd w))).
Definition from_state {A} (f : state → A) : SM A := gets (λ w, f (snd w)).

(** [self.db.add_operation(...)] *)
Definition add_operation (ty description st : string) : SM nat :=
  λ w, match Database.add_operation ty description st (fst w) with
       | (i, d) => (Ok i, (d, snd w))
       end.

(** *** Insertion-ordered dicts *)

Fixpoint dict_lookup {A} (k : string) (l : list (string * A)) : option A :=
  match l with
  | [] => None
  | (k', v) :: l' => if decide (k' = k) then Some v else dict_lookup k l'
  end.

(** [d[k] = v]: an existing key keeps its place. *)
Fixpoint dict_set {A} (k : string) (v : A) (l : list (string * A)) : list (string * A) :=
  match l with
  | [] => [(k, v)]
  | (k', v') :: l' =>
      if decide (k' = k) then (k, v) :: l' else (k', v') :: dict_set k v l'
  end.

(** [needle in s] on strings. *)
Fixpoint contains (needle s : string) : bool :=
  String.prefix needle s ||
  match s with
  | EmptyString => false
  | String _ s' => contains needle s'
  end.

(** ** Effects of client calls on the modelled state *)

Section Network.
Context (net : network).

(** [await client.disconnect()] *)
Definition client_disconnect (c : client) : SM unit :=
  answer (disconnect net c) ;;;
  on_state (λ s, with_connected s (connected s ∖ {[c]})).

(** [await client.connect()] *)
Definition client_connect (c : client) : SM unit :=
  answer (connect net c) ;;;
  on_state (λ s, with_connected s ({[c]} ∪ connected s)).

Definition is_connected (c : client) : SM bool :=
  from_state (λ s, bool_decide (c ∈ connected s)).

(** [self.qr_sessions[name]["status"] = st] under [if name in self.qr_sessions] *)
Definition set_qr_status (nm : string) (st : qr_status) : SM unit :=
  on_state (λ s, with_qr_sessions s
    (alter (λ q, QrSession st (message q) (held_client q) (operation_id q)
                   (is_admin_attempt q) (qr_image q)) nm (qr_sessions s))).

(** ** QR authentication *)

(** The loops of [get_active_user_ids] over a registry. *)
Fixpoint active_ids (l : list client) : SM (list Z) :=
  match l with
  | [] => ret []
  | c :: l' =>
      let! mine :=
        try_except
          (let! up := is_connected c in
           if up then
             let! authorized := answer (is_user_authorized net c) in
             if authorized then
               let! me := answer (get_me net c) in
               ret (match me with Some u => [id u] | None => [] end)
             else ret []
           else ret [])
          (λ _, ret []) in
      let! rest := active_ids l' in
      ret (mine ++ rest)
  end.

(** [get_active_user_ids()] *)
Definition get_active_user_ids : SM (list Z) :=
  let! users := from_state (λ s, snd <$> sessions s) in
  let! admins := from_state (λ s, snd <$> map_to_list (admin_sessions s)) in
  let! a := active_ids users in
  let! b := active_ids admins in
  ret (a ++ b).

(** [_cleanup_invalid_session(session_name, client, status)] *)
Definition _cleanup_invalid_session (session_name : string) (c : client)
    (st : qr_status) : SM unit :=
  try_except
    (client_disconnect c ;;;
     on_state (λ s, with_files s
       (files s ∖ {[ (false, session_name) ]} ∖ {[ (true, session_name) ]})) ;;;
     let! q := from_state (λ s, qr_sessions s !! session_name) in
     match q with
     | Some q =>
         match operation_id q with
         | Some op =>
             on_db (Database.update_operation_status op "failed" (Some "reason"))
         | None => ret tt
         end ;;;
         set_qr_status session_name st
     | None => ret tt
     end)
    (λ _, ret tt).

(** [_get_user_api_credentials(user_id)]: the rows of [sessions] have no
    [user_id] column, so the loop never matches and the configured
    defaults are returned. *)
Definition _get_user_api_credentials (user_id : Z) : Z * string :=
  (api_id net, api_hash net).

(** [_persist_authorized_session(session_name, client, me, is_admin=...)] *)
Definition _persist_authorized_session (session_name : string) (c : client)
    (me : user) (is_admin : bool) : SM client :=
  let (user_api_id, user_api_hash) := _get_user_api_credentials (id me) in
  let file_client := FileClient is_admin session_name in
  on_state (λ s, with_files s ({[ (is_admin, session_name) ]} ∪ files s)) ;;;
  if negb (auth_key net c) then
    raise (Exn (OtherError "Exception") "Failed to copy session data properly")
  else
    try_finally
      ((if is_admin then
          on_db (Database.save_admin_session session_name (id me)
                   (default "" (me_username me)) (default "" (me_first_name me))) ;;;
          on_state (λ s, with_admin_sessions s
                           (<[session_name := file_client]> (admin_sessions s))) ;;;
          set_qr_status session_name scanned ;;;
          let! _ := add_operation "admin_session_created" session_name "completed" in
          ret tt
        else
          on_db (Database.create_session session_name user_api_id user_api_hash "active") ;;;
          on_state (λ s, with_sessions s (dict_set session_name file_client (sessions s))) ;;;
          on_state (λ s, with_user_sessions s
                           (<[id me := session_name]> (user_sessions s))) ;;;
          set_qr_status session_name scanned ;;;
          let! _ := add_operation "user_session_created" session_name "completed" in
          ret tt) ;;;
       ret file_client)
      (try_except (client_disconnect c) (λ _, ret tt)).

(** The text shown for a duplicate (in the source it ends with an
    emoji). *)
Definition duplicate_message : string :=
  "You have already scanned the QR code and created a valid session. Thank you for your support!".

(** [_save_valid_session(session_name, client)] *)
Definition _save_valid_session (session_name : string) (c : client) : SM unit :=
  try_except
    (let! me := answer (get_me net c) in
     match me with
     | None => raise (Exn (OtherError "Exception") "Could not get user info")
     | Some me =>
         let! existing_session := from_state (λ s, user_sessions s !! id me) in
         let existing :=
           match existing_session with
           | Some n => negb (String.eqb n "")
           | None => false
           end in
         (if existing then
            on_state (λ s, with_qr_sessions s
              (alter (λ q, QrSession duplicate (Some duplicate_message) (held_client q)
                             (operation_id q) (is_admin_attempt q) (qr_image q))
                     session_name (qr_sessions s)))
          else ret tt) ;;;
         if existing then client_disconnect c
         else
           let! file_client := _persist_authorized_session session_name c me false in
           try_except (client_disconnect file_client) (λ _, ret tt) ;;;
           let! _ := add_operation "user_session_created" session_name "completed" in
           ret tt
     end)
    (λ e,
       answer (log_positional net "Failed to save valid session" session_name) ;;;
       _cleanup_invalid_session session_name c error).

(** [_wait_for_scan(session_name, client, qr_login)] *)
Definition _wait_for_scan (session_name : string) (c : client) : SM unit :=
  try_except
    (answer (qr_wait net c) ;;;
     let! authorized := answer (is_user_authorized net c) in
     if authorized then _save_valid_session session_name c
     else _cleanup_invalid_session session_name c error)
    (λ e,
       match exn_class_of e with
       | TimeoutError => _cleanup_invalid_session session_name c expired
       | _ =>
           if contains "Two-steps verification" (str_exn e)
              || contains "password is required" (str_exn e)
           then
             on_state (λ s, with_qr_sessions s
               (alter (λ q, QrSession password_required (message q) (Some c)
                              (operation_id q) (is_admin_attempt q) (qr_image q))
                      session_name (qr_sessions s)))
           else _cleanup_invalid_session session_name c error
       end).

(** The dictionary a password verification replies with. *)
Inductive reply :=
  | ReplySuccess
  | ReplyError (message : string).

(** [verify_2fa_password(session_name, password)] *)
Definition verify_2fa_password (session_name password : string) : SM reply :=
  let! q := from_state (λ s, qr_sessions s !! session_name) in
  match q with
  | None => ret (ReplyError "Session not found")
  | Some q =>
      match held_client q with
      | None => ret (ReplyError "Client not found")
      | Some c =>
          try_except
            (answer (sign_in net c password) ;;;
             let! authorized := answer (is_user_authorized net c) in
             if authorized then
               _save_valid_session session_name c ;;;
               on_state (λ s, with_qr_sessions s (delete session_name (qr_sessions s))) ;;;
               ret ReplySuccess
             else
               _cleanup_invalid_session session_name c error ;;;
               ret (ReplyError "Authorization failed"))
            (λ _,
               _cleanup_invalid_session session_name c error ;;;
               ret (ReplyError "Invalid password"))
      end
  end.

(** [_generate_qr_fast(session_name)]: the image is the rendering of
    the login URL; [Some true] stands for the image being returned,
    [Some false] for the branch of a client that is already authorized,
    [None] for the failure branch.  The scan waiter is the task to run
    next on the first outcome. *)
Definition _generate_qr_fast (session_name : string) : SM (option bool) :=
  let c := MemoryClient session_name in
  try_except
    (let! ignored_ids := get_active_user_ids in
     client_connect c ;;;
     let! authorized := answer (is_user_authorized net c) in
     if negb authorized then
       let! url := answer (qr_login net c ignored_ids) in
       let! q := from_state (λ s, qr_sessions s !! session_name) in
       match q with
       | None => raise (Exn (OtherError "KeyError") ("'" ++ session_name ++ "'")%string)
       | Some q =>
           on_state (λ s, with_qr_sessions s
             (<[session_name :=
                  QrSession waiting (message q) (held_client q) (operation_id q)
                            (is_admin_attempt q) (Some url)]> (qr_sessions s))) ;;;
           ret (Some true)
       end
     else _save_valid_session session_name c ;;; ret (Some false))
    (λ _,
       set_qr_status session_name error ;;;
       client_disconnect c ;;;
       ret None).

(** [create_auto_qr_session()] for the generated name [session_name];
    the result is the ["status"] entry of the dict returned. *)
Definition create_auto_qr_session (session_name : string) : SM (option string) :=
  let! op := add_operation "qr_scanning" session_name "running" in
  on_state (λ s, with_qr_sessions s
    (<[session_name := QrSession generating None None (Some op) false None]>
       (qr_sessions s))) ;;;
  try_except
    (let! r := _generate_qr_fast session_name in
     ret (match r with
          | Some true => Some "waiting"
          | Some false => Some "success"
          | None => Some "success"
          end))
    (λ _,
       on_state (λ s, with_qr_sessions s (delete session_name (qr_sessions s))) ;;;
       ret None).

(** ** Loading sessions and finding the admin handle *)

(** One [load_session(session)] of [_load_all_sessions]. *)
Definition load_session (row : Database.session_row) : SM unit :=
  let nm := Database.name row in
  let! loaded := from_state (λ s, dict_lookup nm (sessions s)) in
  let! on_disk := from_state (λ s, bool_decide ((false, nm) ∈ files s)) in
  if bool_decide (Database.session_status row = "active")
     && negb (bool_decide (is_Some loaded)) && on_disk
  then
    let c := FileClient false nm in
    try_except
      (client_connect c ;;;
       let! authorized := answer (is_user_authorized net c) in
       if authorized then on_state (λ s, with_sessions s (dict_set nm c (sessions s)))
       else client_disconnect c)
      (λ _, ret tt)
  else ret tt.

Fixpoint load_sessions (rows : list Database.session_row) : SM unit :=
  match rows with
  | [] => ret tt
  | r :: rows' => load_session r ;;; load_sessions rows'
  end.

(** [_load_all_sessions()]; the gathered loads are taken in row order. *)
Definition _load_all_sessions : SM unit :=
  let! rows := from_db Database.get_sessions in
  load_sessions rows.

(** The loop of [get_admin_session_client] over [self.sessions.items()]
    that returns the first user handle that is connected and authorized. *)
Fixpoint first_usable (l : list (string * client)) : SM (option client) :=
  match l with
  | [] => ret None
  | (_, c) :: l' =>
      let! found :=
        try_except
          (let! up := is_connected c in
           (if up then ret tt else client_connect c) ;;;
           let! up := is_connected c in
           if up then
             let! authorized := answer (is_user_authorized net c) in
             ret (if authorized then Some c else None)
           else ret None)
          (λ _, ret None) in
      match found with
      | Some c => ret (Some c)
      | None => first_usable l'
      end
  end.

(** [get_admin_session_client()] *)
Definition get_admin_session_client : SM (option client) :=
  try_except
    (let! admin_session := from_db Database.get_admin_session in
     match admin_session with
     | None =>
         let! use_user_as_admin :=
           from_db (Database.get_setting "use_user_as_admin" (VBool false)) in
         let! loaded := from_state sessions in
         if truthy use_user_as_admin then first_usable loaded else ret None
     | Some row =>
         let nm := Database.session_name row in
         let! cached_client := from_state (λ s, admin_sessions s !! nm) in
         let! cached :=
           match cached_client with
           | Some c =>
               try_except
                 (let! up := is_connected c in
                  if up then
                    let! authorized := answer (is_user_authorized net c) in
                    ret (if authorized then Some c else None)
                  else ret None)
                 (λ _,
                    on_state (λ s, with_admin_sessions s (delete nm (admin_sessions s))) ;;;
                    ret None)
           | None => ret None
           end in
         match cached with
         | Some c => ret (Some c)
         | None =>
             let! on_disk := from_state (λ s, bool_decide ((true, nm) ∈ files s)) in
             if negb on_disk then ret None
             else
               let c := FileClient true nm in
               try_except
                 (client_connect c ;;;
                  let! authorized := answer (is_user_authorized net c) in
                  if authorized then
                    on_state (λ s, with_admin_sessions s (<[nm := c]> (admin_sessions s))) ;;;
                    ret (Some c)
                  else client_disconnect c ;;; ret None)
                 (λ _, try_except (client_disconnect c) (λ _, ret tt) ;;; ret None)
         end
     end)
    (λ _, ret None).

(** ** Processing one phone number *)

(** [get_active_contact_lists(client)] *)
Definition get_active_contact_lists (c : client) : SM (gset string) :=
  try_except
    (let! phones := answer (iter_dialogs_phones net c) in
     ret (list_to_set (filter (λ p, p ≠ "") phones)))
    (λ _, ret ∅).

(** [check_user_in_contacts(client, active_contacts, phone)] *)
Definition check_user_in_contacts (c : client) (active_contacts : gset string)
    (phone : string) : bool :=
  bool_decide (phone ∈ active_contacts).

Definition contacts_of (s : state) (c : client) : gset string :=
  default ∅ (contacts s !! c).

(** [_add_temp_contact(client, phone)] *)
Definition _add_temp_contact (c : client) (phone : string) : SM bool :=
  try_except
    (answer (import_contacts net c phone) ;;;
     on_state (λ s, with_contacts s
                      (<[c := {[phone]} ∪ contacts_of s c]> (contacts s))) ;;;
     ret true)
    (λ _, ret false).

(** [_remove_temp_contact(client, phone)] *)
Definition _remove_temp_contact (c : client) (phone : string) : SM unit :=
  try_except
    (let! u := answer (get_input_entity net c (ByPhone phone)) in
     answer (delete_contacts net c u) ;;;
     on_state (λ s, with_contacts s
                      (<[c := contacts_of s c ∖ {[phone]}]> (contacts s))))
    (λ _, ret tt).

(** The dict returned by [_invite_entity_to_group]. *)
Record invite_result := InviteResult {
  inv_result : bool;
  inv_error : string;
  inv_type : string
}.

(** [type(e).__name__] *)
Definition class_name (k : exn_class) : string :=
  match k with
  | TimeoutError => "TimeoutError"
  | ValueError => "ValueError"
  | TypeError => "TypeError"
  | AttributeError => "AttributeError"
  | UserAlreadyParticipantError => "UserAlreadyParticipantError"
  | UserPrivacyRestrictedError => "UserPrivacyRestrictedError"
  | UserNotMutualContactError => "UserNotMutualContactError"
  | FloodWaitError _ => "FloodWaitError"
  | OtherError nm => nm
  end.

(** [_invite_entity_to_group(client, group, group_input, user_input)] *)
Definition _invite_entity_to_group (c : client) (group : entity) (group_input : Z)
    (user_input : Z) : SM invite_result :=
  try_except
    (match ent_kind group with
     | IsChannel =>
         if negb (megagroup group)
         then ret (InviteResult false "Cannot add users to broadcast channels" "ValueError")
         else answer (invite_request net c group user_input) ;;;
              ret (InviteResult true "" "")
     | IsChat =>
         answer (invite_request net c group user_input) ;;;
         ret (InviteResult true "" "")
     | IsUser => ret (InviteResult false "Invalid group type" "ValueError")
     end)
    (λ e,
       match exn_class_of e with
       | UserAlreadyParticipantError => ret (InviteResult true "" "")
       | k => ret (InviteResult false (str_exn e) (class_name k))
       end).

(** [invite_message.format(invite_link=invite_link)]: a stored message
    that is not text has no usable [format]. *)
Definition format_invite (template : value) (invite_link : string) : res string :=
  match template with
  | VStr t => str_format net t invite_link
  | _ => Raise (Exn AttributeError "object has no attribute 'format'")
  end.

Definition default_invite_message : string :=
  "You're invited to join our Telegram group! Click the link below to join: {invite_link} Welcome aboard!".

(** [_send_invite_link(client, phone, invite_link)] *)
Definition _send_invite_link (c : client) (phone : string) (invite_link : string)
    : SM bool :=
  try_except
    (let! invite_message :=
       from_db (Database.get_setting "invite_message" (VStr default_invite_message)) in
     let! message := answer (format_invite invite_message invite_link) in
     let! u := answer (get_input_entity net c (ByPhone phone)) in
     answer (send_message net c u message) ;;;
     ret true)
    (λ _, ret false).

Definition lower_ascii (a : ascii) : ascii :=
  let n := nat_of_ascii a in
  if (65 <=? n)%nat && (n <=? 90)%nat then ascii_of_nat (n + 32) else a.

(** [s.lower()] on ASCII text. *)
Fixpoint lower (s : string) : string :=
  match s with
  | EmptyString => EmptyString
  | String a s' => String (lower_ascii a) (lower s')
  end.

(** The invite-link fallback shared by the refusal branches:
    [if invite_link: if await self._send_invite_link(...): mark invited]. *)
Definition try_invite (c : client) (phone : string) (invite_link : option string)
    : SM bool :=
  match invite_link with
  | Some link =>
      if negb (String.eqb link "") then
        let! sent := _send_invite_link c phone link in
        if sent then on_db (Database.mark_phone_invited phone) ;;; ret true
        else ret false
      else ret false
  | None => ret false
  end.

(** [_process_phone_number(client, admin_client, phone, group,
    group_input, session_name, invite_link, active_contacts)] *)
Definition _process_phone_number (c admin_client : client) (phone : string)
    (group : entity) (group_input : Z) (session_name : string)
    (invite_link : option string) (active_contacts : gset string) : SM string :=
  try_except
    (let phone_in_contact_list := check_user_in_contacts c active_contacts phone in
     let! contact_added :=
       if phone_in_contact_list then ret None
       else let! b := _add_temp_contact c phone in ret (Some b) in
     let! group_input := answer (get_input_entity net c (ById (VInt (ent_id group)))) in
     let! group := answer (get_entity net c (ByPeer group_input)) in
     try_finally
       (try_except
          (let! user_entity := answer (get_entity net c (ByPhone phone)) in
           let! user_input :=
             answer (get_input_entity net c (ById (VInt (ent_id user_entity)))) in
           let! result := _invite_entity_to_group c group group_input user_input in
           if inv_result result then
             on_db (Database.mark_phone_added phone) ;;; ret "added"
           else if String.eqb (inv_type result) "UserPrivacyRestrictedError" then
             let! sent := try_invite c phone invite_link in
             if sent then ret "invited"
             else on_db (Database.mark_phone_failed phone) ;;;
                  ret "Privacy restricted - invite failed"
           else if String.eqb (inv_type result) "UserNotMutualContactError" then
             let! sent := try_invite c phone invite_link in
             if sent then ret "invited"
             else on_db (Database.add_to_blacklist phone) ;;;
                  on_db (Database.mark_phone_failed phone) ;;;
                  ret "Not mutual contact - invite failed"
           else raise (Exn (OtherError "Exception") (inv_error result)))
          (λ add_error,
             let! sent := try_invite c phone invite_link in
             if sent then ret "invited"
             else
               on_db (Database.mark_phone_failed phone) ;;;
               let error_msg := lower (str_exn add_error) in
               (if contains "no user" error_msg || contains "not found" error_msg
                   || contains "invalid" error_msg || contains "not mutual" error_msg
                then on_db (Database.add_to_blacklist phone)
                else ret tt) ;;;
               ret (str_exn add_error)))
       (match contact_added with
        | Some true =>
            if negb phone_in_contact_list then _remove_temp_contact c phone else ret tt
        | _ => ret tt
        end))
    (λ e, on_db (Database.mark_phone_failed phone) ;;; ret (str_exn e)).

(** ** The distribution run *)

(** [_create_invite_link(admin_client, group, group_input)] *)
Definition _create_invite_link (admin_client : client) (group : entity)
    (group_input : Z) : SM (option string) :=
  try_except
    (match ent_kind group with
     | IsChannel =>
         if negb (megagroup group) then ret None
         else let! link := answer (export_chat_invite net admin_client group_input) in
              ret (Some link)
     | _ =>
         let! link := answer (export_chat_invite net admin_client group_input) in
         ret (Some link)
     end)
    (λ _, ret None).

(** [_ensure_sessions_in_group(...)]: every exception is caught inside,
    and what it does is done to the group on the network; the store, the
    registries, the session directory and the contact lists are not
    touched. *)
Definition _ensure_sessions_in_group (admin_client : client) (group : entity)
    (group_input : Z) (available_sessions : list (string * Z)) : SM unit :=
  ret tt.

(** The local variables of the batch loop. *)
Record loop_state := LoopState {
  run_results : results;
  session_index : nat;
  available_sessions : list (string * Z)
}.

(** The [for j in range(len(available_sessions))] search: the index,
    name and remaining quota of the session chosen. *)
Fixpoint select_session (available : list (string * Z)) (session_index j : nat)
    (todo : nat) : option (nat * string * Z) :=
  match todo with
  | O => None
  | S todo' =>
      let session_idx := ((session_index + j) `mod` length available)%nat in
      match available !! session_idx with
      | Some (session_name, remaining) =>
          if 0 <? remaining then Some (session_idx, session_name, remaining)
          else select_session available session_index (S j) todo'
      | None => None
      end
  end.

Definition processed (r : results) : Z := r_added r + r_failed r + r_invited r.

(** The [if success == "added": ... elif ... else: ...] chain after
    [_process_phone_number] has returned [success]. *)
Definition record_outcome (success phone session_name : string) (session_idx : nat)
    (remaining : Z) (ls : loop_state) : SM loop_state :=
  let r := run_results ls in
  if String.eqb success "added" then
    on_db (Database.increment_session_limit session_name (today net)) ;;;
    on_db (Database.mark_phone_added phone) ;;;
    ret (LoopState
           (Results (r_added r + 1) (r_failed r) (r_invited r) (r_total r)
                    (r_errors r) (r_skipped r))
           (session_index ls)
           (<[session_idx := (session_name, remaining - 1)]> (available_sessions ls)))
  else if String.eqb success "already_member" then
    on_db (Database.mark_phone_added phone) ;;;
    ret (LoopState
           (Results (r_added r + 1) (r_failed r) (r_invited r) (r_total r)
                    (r_errors r) (r_skipped r))
           (session_index ls) (available_sessions ls))
  else if String.eqb success "invited" then
    on_db (Database.mark_phone_invited phone) ;;;
    ret (LoopState
           (Results (r_added r) (r_failed r) (r_invited r + 1) (r_total r)
                    (r_errors r) (r_skipped r))
           (session_index ls) (available_sessions ls))
  else
    ret (LoopState
           (Results (r_added r) (r_failed r + 1) (r_invited r) (r_total r)
                    (r_errors r ++ [(phone ++ ": " ++ success)%string]) (r_skipped r))
           (session_index ls) (available_sessions ls)).

(** The body of [for phone_data in batch]; [false] is [break]. *)
Definition process_phone_data (admin_client : client) (group : entity) (group_input : Z)
    (invite_link : option string) (total : Z) (phone_data : Database.phone_row)
    (ls : loop_state) : SM (bool * loop_state) :=
  let phone := Database.phone phone_data in
  let r := run_results ls in
  if String.eqb phone "" then
    ret (true,
         LoopState (Results (r_added r) (r_failed r + 1) (r_invited r) (r_total r)
                            (r_errors r) (r_skipped r))
                   (session_index ls) (available_sessions ls))
  else
    match select_session (available_sessions ls) (session_index ls) 0
                         (length (available_sessions ls)) with
    | None =>
        ret (false,
             LoopState (Results (r_added r) (r_failed r) (r_invited r) (r_total r)
                                (r_errors r) (total - processed r))
                       (session_index ls) (available_sessions ls))
    | Some (session_idx, session_name, remaining) =>
        let! loaded := from_state (λ s, dict_lookup session_name (sessions s)) in
        match loaded with
        | None => raise (Exn (OtherError "KeyError") ("'" ++ session_name ++ "'")%string)
        | Some c =>
            let ls := LoopState r (S session_idx) (available_sessions ls) in
            on_state (λ s, with_journal s (journal s ++ [(phone, session_name)])) ;;;
            let! phone_set := get_active_contact_lists c in
            let! success :=
              _process_phone_number c admin_client phone group group_input
                session_name invite_link phone_set in
            let! ls := record_outcome success phone session_name session_idx remaining ls in
            ret (true, ls)
        end
    end.

Fixpoint process_batch (admin_client : client) (group : entity) (group_input : Z)
    (invite_link : option string) (total : Z) (batch : list Database.phone_row)
    (ls : loop_state) : SM loop_state :=
  match batch with
  | [] => ret ls
  | phone_data :: rest =>
      let! step :=
        process_phone_data admin_client group group_input invite_link total
          phone_data ls in
      if fst step
      then process_batch admin_client group group_input invite_link total rest (snd step)
      else ret (snd step)
  end.

(** [for i in range(0, len(pending_phones), batch_size)] for a positive
    [batch_size]: [pending] is what is left from index [i] on. *)
Fixpoint process_batches (admin_client : client) (group : entity) (group_input : Z)
    (invite_link : option string) (total : Z) (batch_size : nat) (todo : nat)
    (pending : list Database.phone_row) (ls : loop_state) : SM loop_state :=
  match todo, pending with
  | O, _ | _, [] => ret ls
  | S todo', _ =>
      let! ls :=
        process_batch admin_client group group_input invite_link total
          (take batch_size pending) ls in
      process_batches admin_client group group_input invite_link total batch_size todo'
        (drop batch_size pending) ls
  end.

(** The loop over [self.sessions.items()] that collects the sessions
    with remaining quota. *)
Fixpoint collect_available (max_daily_per_session : Z) (l : list (string * client))
    : SM (list (string * Z)) :=
  match l with
  | [] => ret []
  | (nm, c) :: l' =>
      let! mine :=
        try_except
          (let! up := is_connected c in
           (if up then ret tt else client_connect c) ;;;
           let! up := is_connected c in
           if up then
             let! authorized := answer (is_user_authorized net c) in
             if authorized then
               let! remaining :=
                 from_db (Database.get_session_daily_limit nm max_daily_per_session
                            (today net)) in
               ret (if 0 <? remaining then [(nm, remaining)] else [])
             else ret []
           else ret [])
          (λ _, ret []) in
      let! rest := collect_available max_daily_per_session l' in
      ret (mine ++ rest)
  end.

(** The [if use_admin_as_user:] block: the admin session joins the
    candidates, and its handle the user registry. *)
Definition admin_as_user (max_daily_per_session : Z) : SM (list (string * Z)) :=
  let! use_admin_as_user :=
    from_db (Database.get_setting "use_admin_as_user" (VBool false)) in
  if truthy use_admin_as_user then
    let! admin_client := get_admin_session_client in
    match admin_client with
    | Some c =>
        let! admin_session := from_db Database.get_admin_session in
        match admin_session with
        | Some row =>
            let admin_name := Database.session_name row in
            let! remaining :=
              from_db (Database.get_session_daily_limit admin_name max_daily_per_session
                         (today net)) in
            if 0 <? remaining then
              on_state (λ s, with_sessions s (dict_set admin_name c (sessions s))) ;;;
              ret [(admin_name, remaining)]
            else ret []
        | None => ret []
        end
    | None => ret []
    end
  else ret [].

(** The message returned when no admin handle is found. *)
Definition no_admin_message : SM string :=
  let! admin_session := from_db Database.get_admin_session in
  let! use_user_as_admin :=
    from_db (Database.get_setting "use_user_as_admin" (VBool false)) in
  let! loaded := from_state sessions in
  ret (match admin_session, truthy use_user_as_admin with
       | None, false => "Admin session required. Please create an admin session first."
       | Some row, false =>
           ("Admin session exists but failed to connect. Session: "
              ++ Database.session_name row)%string
       | _, true =>
           match loaded with
           | [] => "User-as-admin enabled but no user sessions available."
           | _ => "Admin session connection failed. Please check session status."
           end
       end).

(** The first stage of the run: the operation record, the invite
    message and the pending queue. *)
Definition begin_run (group_id invite_message : value)
    : SM (nat * list Database.phone_row) :=
  let! operation_id := add_operation "user_adding" "Adding users to group" "running" in
  (if truthy invite_message
   then on_db (Database.set_invite_message invite_message)
   else ret tt) ;;;
  let! pending_phones := from_db Database.get_pending_phone_numbers in
  ret (operation_id, pending_phones).

(** The second stage: the candidate sessions. *)
Definition candidate_sessions (max_daily_per_session : Z) : SM (list (string * Z)) :=
  _load_all_sessions ;;;
  let! loaded := from_state sessions in
  let! users := collect_available max_daily_per_session loaded in
  let! admin := admin_as_user max_daily_per_session in
  ret (users ++ admin).

(** Group resolution through the admin handle. *)
Definition resolve_group (admin_client : client) (group_id : value) : SM (Z * entity) :=
  let! group_input := answer (get_input_entity net admin_client (ById group_id)) in
  let! group := answer (get_entity net admin_client (ByPeer group_input)) in
  ret (group_input, group).

(** [add_users_to_group(group_id, delay, batch_size,
    max_daily_per_session, invite_message)] *)
Definition add_users_to_group (group_id : value) (delay batch_size : Z)
    (max_daily_per_session : Z) (invite_message : value) : SM run_result :=
  let! begun := begin_run group_id invite_message in
  let operation_id := fst begun in
  let pending_phones := snd begun in
  match pending_phones with
  | [] =>
      on_db (Database.update_operation_status operation_id "completed"
               (Some "No pending phone numbers")) ;;;
      ret (RunFailure "No pending phone numbers")
  | _ =>
      let! available := candidate_sessions max_daily_per_session in
      match available with
      | [] =>
          let! total_sessions := from_state (λ s, length (sessions s)) in
          let error_msg :=
            match total_sessions with
            | O => "No user sessions available. Users need to scan QR codes first."
            | _ => ("All " ++ pretty total_sessions
                      ++ " sessions have reached their daily limit of "
                      ++ pretty max_daily_per_session ++ " users.")%string
            end in
          on_db (Database.update_operation_status operation_id "failed" (Some error_msg)) ;;;
          ret (RunFailure error_msg)
      | _ =>
          let! admin_client := get_admin_session_client in
          match admin_client with
          | None =>
              let! error_msg := no_admin_message in
              on_db (Database.update_operation_status operation_id "failed"
                       (Some error_msg)) ;;;
              ret (RunFailure error_msg)
          | Some admin_client =>
              let total := Z.of_nat (length pending_phones) in
              let ls := LoopState (Results 0 0 0 total [] 0) 0 available in
              let! outcome :=
                try_except
                  (let! resolved := resolve_group admin_client group_id in
                   let group_input := fst resolved in
                   let group := snd resolved in
                   _ensure_sessions_in_group admin_client group group_input available ;;;
                   let! invite_link := _create_invite_link admin_client group group_input in
                   let! ls :=
                     if batch_size =? 0 then
                       raise (Exn ValueError "range() arg 3 must not be zero")
                     else if batch_size <? 0 then ret ls
                     else
                       process_batches admin_client group group_input invite_link total
                         (Z.to_nat batch_size) (length pending_phones) pending_phones ls in
                   ret (RunSuccess (run_results ls)))
                  (λ e,
                     on_db (Database.update_operation_status operation_id "failed"
                              (Some (str_exn e))) ;;;
                     ret (RunFailure ("Group access failed: " ++ str_exn e)%string)) in
              match outcome with
              | RunFailure _ => ret outcome
              | RunSuccess _ =>
                  on_db (Database.update_operation_status operation_id "completed"
                           (Some "results")) ;;;
                  ret outcome
              end
          end
      end
  end.

(** ** Health of the loaded sessions *)

(** [del d[k]] *)
Definition dict_del {A} (k : string) (l : list (string * A)) : list (string * A) :=
  filter (λ kv, fst kv ≠ k) l.

(** [_remove_invalid_session(session_name)] *)
Definition _remove_invalid_session (session_name : string) : SM unit :=
  try_except
    (let! loaded := from_state (λ s, dict_lookup session_name (sessions s)) in
     (match loaded with
      | Some c =>
          on_state (λ s, with_sessions s (dict_del session_name (sessions s))) ;;;
          try_except (client_disconnect c) (λ _, ret tt)
      | None => ret tt
      end) ;;;
     on_db (Database.delete_session session_name) ;;;
     on_state (λ s, with_files s (files s ∖ {[ (false, session_name) ]})))
    (λ _, ret tt).

(** The first loop of [_health_check_sessions]: the names of the
    sessions that fail the check, in registry order. *)
Fixpoint invalid_sessions (l : list (string * client)) : SM (list string) :=
  match l with
  | [] => ret []
  | (name, c) :: l' =>
      let! mine :=
        try_except
          (let! up := is_connected c in
           (if up then ret tt else client_connect c) ;;;
           let! authorized := answer (is_user_authorized net c) in
           if negb authorized then ret [name]
           else answer (get_me net c) ;;; ret [])
          (λ _, ret [name]) in
      let! rest := invalid_sessions l' in
      ret (mine ++ rest)
  end.

(** The second loop: [for session_name in invalid_sessions]. *)
Fixpoint remove_invalid_sessions (names : list string) : SM unit :=
  match names with
  | [] => ret tt
  | session_name :: names' =>
      _remove_invalid_session session_name ;;; remove_invalid_sessions names'
  end.

(** [_health_check_sessions()] *)
Definition _health_check_sessions : SM unit :=
  let! loaded := from_state sessions in
  let! invalid := invalid_sessions loaded in
  remove_invalid_sessions invalid.

(** [refresh_active_sessions()] *)
Definition refresh_active_sessions : SM unit :=
  try_except (_load_all_sessions ;;; _health_check_sessions) (λ _, ret tt).

(** ** Polling an attempt *)

(** The value of the ["status"] entry as text. *)
Definition status_text (st : qr_status) : string :=
  match st with
  | generating => "generating"
  | waiting => "waiting"
  | scanned => "scanned"
  | duplicate => "duplicate"
  | password_required => "password_required"
  | expired => "expired"
  | error => "error"
  end.

(** [self.db.update_operation_status(operation_id, ...)] under
    [if operation_id:]. *)
Definition complete_operation (op : option nat) (st : string) (data : option string)
    : SM unit :=
  match op with
  | Some i => on_db (Database.update_operation_status i st data)
  | None => ret tt
  end.

Definition forget_attempt (session_name : string) : SM unit :=
  on_state (λ s, with_qr_sessions s (delete session_name (qr_sessions s))).

(** [check_qr_status(session_name)]: the ["status"] and ["message"]
    entries of the dict returned. *)
Definition check_qr_status (session_name : string) : SM (string * option string) :=
  let! attempt := from_state (λ s, qr_sessions s !! session_name) in
  match attempt with
  | None =>
      let! db_sessions := from_db Database.get_sessions in
      if bool_decide (Exists (λ r, Database.name r = session_name
                                   ∧ Database.session_status r = "active") db_sessions)
      then ret ("success", None)
      else ret ("not_found", None)
  | Some session_data =>
      match status session_data with
      | generating => ret ("waiting", None)
      | scanned =>
          complete_operation (operation_id session_data) "completed" None ;;;
          forget_attempt session_name ;;;
          ret ("success", None)
      | duplicate =>
          complete_operation (operation_id session_data) "completed" (Some "result") ;;;
          let message :=
            default "You already have an active session" (message session_data) in
          forget_attempt session_name ;;;
          ret ("duplicate", Some message)
      | password_required => ret ("password_required", None)
      | expired | error =>
          complete_operation (operation_id session_data) "failed" (Some "reason") ;;;
          forget_attempt session_name ;;;
          ret (status_text (status session_data), None)
      | waiting => ret ("waiting", None)
      end
  end.

(** ** The admin's QR login *)

(** [_save_admin_session(session_name, client)] *)
Definition _save_admin_session (session_name : string) (c : client) : SM unit :=
  try_except
    (let! me := answer (get_me net c) in
     match me with
     | None => raise (Exn (OtherError "Exception") "Could not get user info")
     | Some me =>
         let! file_client := _persist_authorized_session session_name c me true in
         try_except (client_disconnect file_client) (λ _, ret tt)
     end)
    (λ _, _cleanup_invalid_session session_name c error).

(** [_wait_for_admin_scan(session_name, client, qr_login)] *)
Definition _wait_for_admin_scan (session_name : string) (c : client) : SM unit :=
  try_except
    (answer (qr_wait net c) ;;;
     let! authorized := answer (is_user_authorized net c) in
     if authorized then _save_admin_session session_name c
     else _cleanup_invalid_session session_name c error)
    (λ e,
       match exn_class_of e with
       | TimeoutError => _cleanup_invalid_session session_name c expired
       | _ =>
           if contains "Two-steps verification" (str_exn e)
              || contains "password is required" (str_exn e)
           then
             on_state (λ s, with_qr_sessions s
               (alter (λ q, QrSession password_required (message q) (Some c)
                              (operation_id q) (is_admin_attempt q) (qr_image q))
                      session_name (qr_sessions s)))
           else _cleanup_invalid_session session_name c error
       end).

(** [verify_admin_2fa_password(session_name, password)] *)
Definition verify_admin_2fa_password (session_name password : string) : SM reply :=
  let! q := from_state (λ s, qr_sessions s !! session_name) in
  match q with
  | None => ret (ReplyError "Session not found")
  | Some q =>
      match held_client q with
      | None => ret (ReplyError "Client not found")
      | Some c =>
          try_except
            (answer (sign_in net c password) ;;;
             let! authorized := answer (is_user_authorized net c) in
             if authorized then
               _save_admin_session session_name c ;;;
               forget_attempt session_name ;;;
               ret ReplySuccess
             else
               _cleanup_invalid_session session_name c error ;;;
               ret (ReplyError "Authorization failed"))
            (λ _,
               _cleanup_invalid_session session_name c error ;;;
               ret (ReplyError "Invalid password"))
      end
  end.

End Network.

(** ** The janitor of abandoned attempts *)

Section Janitor.
Context (net : network).
(** The ["created_at"] entry of each attempt, as a wall-clock reading,
    and the clock the pass reads. *)
Context (created_at : string → option Z) (now : Z).

(** [(now - created_time).total_seconds() > 600] *)
Definition is_expired (session_name : string) : bool :=
  match created_at session_name with
  | Some created_time => 600 * usec_per_second <? now - created_time
  | None => false
  end.

(** The body of [for session_name in expired_sessions]. *)
Definition cleanup_expired (session_name : string) : SM unit :=
  let! attempt := from_state (λ s, qr_sessions s !! session_name) in
  (match attempt with
   | Some session_data =>
       (match held_client session_data with
        | Some c => try_except (client_disconnect net c) (λ _, ret tt)
        | None => ret tt
        end) ;;;
       forget_attempt session_name
   | None => ret tt
   end) ;;;
  let! in_users := from_state (λ s, bool_decide ((false, session_name) ∈ files s)) in
  let! in_admins := from_state (λ s, bool_decide ((true, session_name) ∈ files s)) in
  let session_path := if in_users then (false, session_name) else (true, session_name) in
  if in_users || in_admins then
    let! db_sessions := from_db Database.get_sessions in
    let! admin_session := from_db Database.get_admin_session in
    let is_in_db :=
      bool_decide (Exists (λ r, Database.name r = session_name) db_sessions) in
    let is_admin :=
      match admin_session with
      | Some row => bool_decide (Database.session_name row = session_name)
      | None => false
      end in
    if negb is_in_db && negb is_admin
    then on_state (λ s, with_files s (files s ∖ {[ session_path ]}))
    else ret tt
  else ret tt.

Fixpoint cleanup_all_expired (expired_sessions : list string) : SM unit :=
  match expired_sessions with
  | [] => ret tt
  | session_name :: rest => cleanup_expired session_name ;;; cleanup_all_expired rest
  end.

(** One pass of the [while True] loop of [_cleanup_expired_sessions],
    after its sleep. *)
Definition _cleanup_expired_sessions : SM unit :=
  let! attempts := from_state (λ s, fst <$> map_to_list (qr_sessions s)) in
  cleanup_all_expired (filter (λ n, is_expired n = true) attempts).

End Janitor.

(** ** Removing sessions *)

Section Removal.
Context (net : network).
(** The answer of [client.log_out()]: whether the server accepted the
    log-out, after which the library closes the connection. *)
Context (log_out : client → res bool).

(** [await client.log_out()] *)
Definition client_log_out (c : client) : SM unit :=
  let! done := answer (log_out c) in
  if done then on_state (λ s, with_connected s (connected s ∖ {[c]})) else ret tt.

(** [remove_session(session_name)]: the [success] flag it returns. *)
Definition remove_session (session_name : string) : SM bool :=
  let! success :=
    try_except
      (let! user_client := from_state (λ s, dict_lookup session_name (sessions s)) in
       let! admin_client := from_state (λ s, admin_sessions s !! session_name) in
       let! client :=
         match user_client, admin_client with
         | Some c, _ =>
             on_state (λ s, with_sessions s (dict_del session_name (sessions s))) ;;;
             ret (Some c)
         | None, Some c =>
             on_state (λ s, with_admin_sessions s (delete session_name (admin_sessions s))) ;;;
             ret (Some c)
         | None, None => ret None
         end in
       let! user_id_to_remove :=
         match client with
         | Some c =>
             let! got :=
               try_except
                 (let! me := answer (get_me net c) in ret (Some me))
                 (λ _, client_disconnect net c ;;; ret None) in
             match got with
             | Some me =>
                 try_except (client_log_out c) (λ _, client_disconnect net c) ;;;
                 ret (id <$> me)
             | None => ret None
             end
         | None => ret None
         end in
       (match user_id_to_remove with
        | Some uid =>
            if uid =? 0 then ret tt
            else on_state (λ s, with_user_sessions s (delete uid (user_sessions s)))
        | None => ret tt
        end) ;;;
       let! attempt := from_state (λ s, qr_sessions s !! session_name) in
       (match attempt with
        | Some session_data =>
            (match held_client session_data with
             | Some c => try_except (client_log_out c) (λ _, client_disconnect net c)
             | None => ret tt
             end) ;;;
            forget_attempt session_name
        | None => ret tt
        end) ;;;
       ret true)
      (λ _, ret false) in
  on_state (λ s, with_files s
    (files s ∖ {[ (false, session_name) ]} ∖ {[ (true, session_name) ]})) ;;;
  on_db (Database.delete_session session_name) ;;;
  ret success.

(** [remove_admin_session()] *)
Definition remove_admin_session : SM bool :=
  let! admin_session := from_db Database.get_admin_session in
  match admin_session with
  | Some row =>
      let session_name := Database.session_name row in
      let! cached := from_state (λ s, admin_sessions s !! session_name) in
      (match cached with
       | Some c =>
           try_except
             (client_disconnect net c ;;;
              on_state (λ s, with_admin_sessions s (delete session_name (admin_sessions s))))
             (λ _, ret tt)
       | None => ret tt
       end) ;;;
      remove_session session_name ;;;
      on_db Database.delete_admin_session ;;;
      ret true
  | None => ret false
  end.

Fixpoint remove_sessions (names : list string) : SM unit :=
  match names with
  | [] => ret tt
  | session_name :: rest =>
      (if String.prefix "Admin_" session_name then ret tt
       else remove_session session_name ;;; ret tt) ;;;
      remove_sessions rest
  end.

(** [remove_all_sessions()] *)
Definition remove_all_sessions : SM bool :=
  try_except
    (let! all_sessions :=
       from_state (λ s, (fst <$> sessions s) ++ (fst <$> map_to_list (qr_sessions s))) in
     remove_sessions all_sessions ;;;
     on_state (λ s, with_files s (filter (λ f, fst f = true) (files s))) ;;;
     on_db Database.delete_all_sessions ;;;
     ret true)
    (λ _, ret false).

End Removal.

(** ** The queue of phone numbers *)

(** Whitespace of ASCII text, as [str.strip] sees it. *)
Definition is_whitespace (c : ascii) : bool :=
  let n := nat_of_ascii c in
  ((9 <=? n) && (n <=? 13) || (28 <=? n) && (n <=? 32))%nat.

Fixpoint lstrip_whitespace (s : string) : string :=
  match s with
  | String c s' => if is_whitespace c then lstrip_whitespace s' else s
  | EmptyString => EmptyString
  end.

(** [s.strip()] on ASCII text. *)
Definition str_strip (s : string) : string :=
  String.rev (lstrip_whitespace (String.rev (lstrip_whitespace s))).

(** The loop of [import_phone_numbers]; [added] is the count so far. *)
Fixpoint import_loop (added : Z) (phone_numbers : list string) (d : Database.db)
    : Z * Database.db :=
  match phone_numbers with
  | [] => (added, d)
  | phone :: rest =>
      match Database.add_phone_number (str_strip phone) d with
      | (true, d') => import_loop (added + 1) rest d'
      | (false, d') => import_loop added rest d'
      end
  end.

(** [import_phone_numbers(phone_numbers)] *)
Definition import_phone_numbers (phone_numbers : list string) (d : Database.db)
    : Z * Database.db :=
  import_loop 0 phone_numbers d.

End SessionManager.


(** * Vocabulary of the properties *)

(** Every run of [m] leads to a state related by [R] to the state it
    started in. *)
Definition steps {S A} (R : relation S) (m : M S A) : Prop := ∀ s, R s (snd (m s)).

(** How one row of [phone_numbers] may differ after a step that marks
    only phones satisfying [P]: not at all, or by a mark that leaves
    the phone in place and writes a status other than pending. *)
Definition row_step (P : string → Prop) (r r' : Database.phone_row) : Prop :=
  r' = r ∨
  (Database.phone r' = Database.phone r ∧ P (Database.phone r)
   ∧ Database.status r' ≠ Database.Pending).

Definition marks_within (P : string → Prop)
    (w w' : Database.db * SessionManager.state) : Prop :=
  Forall2 (row_step P) (Database.phone_numbers (fst w)) (Database.phone_numbers (fst w')).

(** The journal and the ledger are what they were. *)
Definition same_journal (w w' : Database.db * SessionManager.state) : Prop :=
  SessionManager.journal (snd w') = SessionManager.journal (snd w).

Definition same_ledger (w w' : Database.db * SessionManager.state) : Prop :=
  Database.session_limits (fst w') = Database.session_limits (fst w).

(** The contact lists are what they were. *)
Definition same_contacts (w w' : Database.db * SessionManager.state) : Prop :=
  SessionManager.contacts (snd w') = SessionManager.contacts (snd w).

(** How a row of [phone_numbers] may differ after a run. *)
Definition moved_one_way (r r' : Database.phone_row) : Prop :=
  Database.phone r' = Database.phone r
  ∧ (r' = r
     ∨ (Database.status r = Database.Pending
        ∧ (Database.status r' = Database.Added
           ∨ Database.status r' = Database.Invited
           ∨ Database.status r' = Database.Failed))).

(** The phones of the rows that are pending in the store of [w]. *)
Definition pending_phone (w : Database.db * SessionManager.state) (p : string) : Prop :=
  p ∈ Database.phone <$> Database.get_pending_phone_numbers (fst w).

(** Every run of [m] appends to the journal records that satisfy [E]. *)
Definition journal_grows {A} (E : list (string * string) → Prop)
    (m : SessionManager.SM A) : Prop :=
  ∀ w, ∃ extra,
    SessionManager.journal (snd (snd (m w))) = SessionManager.journal (snd w) ++ extra
    ∧ E extra.

(** The phones of the records are picked, in order, from [phones]. *)
Definition picked_from (phones : list string) (extra : list (string * string)) : Prop :=
  sublist (fst <$> extra) phones.

(** The store as the loop sees it between its start at [started] and
    its first run: the last-run timestamp is the one written at the
    start, no forced wake-up is pending and no daily start time is
    configured. *)
Definition unscheduled (started : Z) (d : Database.db) : Prop :=
  Database.get_setting "auto_add_last_run" VNone d = VIso (utc started)
  ∧ truthy (Database.get_setting "auto_add_forced_wakeup" VNone d) = false
  ∧ truthy (dict_get (AdminManager.get_settings d) "daily_start_time" VNone) = false.

(** The four run-level failures of a distribution run started on [w]. *)
Section RunLevelFailures.
Import SessionManager.
Context (net : network) (group_id : value) (max_daily : Z) (invite_message : value).

Definition no_pending_targets (w : Database.db * state) : Prop :=
  Database.get_pending_phone_numbers (fst w) = [].

Definition no_candidate_sessions (w : Database.db * state) : Prop :=
  ∃ w', (begin_run group_id invite_message ;;;
         candidate_sessions net max_daily) w = (Ok [], w').

Definition no_admin_handle (w : Database.db * state) : Prop :=
  ∃ w', (begin_run group_id invite_message ;;;
         candidate_sessions net max_daily ;;;
         get_admin_session_client net) w = (Ok None, w').

Definition group_resolution_fails (w : Database.db * state) : Prop :=
  ∃ admin_client e w' w'',
    (begin_run group_id invite_message ;;;
     candidate_sessions net max_daily ;;;
     get_admin_session_client net) w = (Ok (Some admin_client), w')
    ∧ resolve_group net admin_client group_id w' = (Raise e, w'').

End RunLevelFailures.


(** * Scenarios

    Concrete networks and worlds on which the operations are run. *)
Module Scenario.
Import SessionManager.

Definition group_id : Z := 777.
Definition chat : entity := Entity group_id IsChat false None.
Definition invite_link : string := "https://t.me/+invite".

(** A network on which every call succeeds: every handle is authorized
    as the account 7, the target group is an ordinary chat, every phone
    resolves to an account that accepts the direct add. *)
Definition cooperative : network := {|
  api_id := 1;
  api_hash := "hash";
  today := "2024-05-01";
  connect := λ _, Ok tt;
  is_user_authorized := λ _, Ok true;
  get_me := λ _, Ok (Some (User 7 None None));
  disconnect := λ _, Ok tt;
  auth_key := λ _, true;
  qr_login := λ _ _, Ok "tg://login?token=abc";
  qr_wait := λ _, Ok tt;
  sign_in := λ _ _, Ok tt;
  get_input_entity := λ _ t,
    match t with
    | ById (VInt n) => Ok n
    | ByPeer n => Ok n
    | _ => Ok 42
    end;
  get_entity := λ _ t,
    match t with
    | ByPhone _ => Ok (Entity 42 IsUser false None)
    | _ => Ok chat
    end;
  import_contacts := λ _ _, Ok tt;
  delete_contacts := λ _ _, Ok tt;
  invite_request := λ _ _ _, Ok tt;
  export_chat_invite := λ _ _, Ok invite_link;
  send_message := λ _ _ _, Ok tt;
  iter_dialogs_phones := λ _, Ok [];
  str_format := λ template link, Ok (template ++ link)%string;
  log_positional := λ _ _,
    Raise (Exn TypeError "not all arguments converted during string formatting")
|}.

(** The same network with some answers replaced. *)
Definition with_is_user_authorized (net : network) (f : client → res bool) : network :=
  Network (api_id net) (api_hash net) (today net) (connect net) f (get_me net)
    (disconnect net) (auth_key net) (qr_login net) (qr_wait net) (sign_in net)
    (get_input_entity net) (get_entity net) (import_contacts net) (delete_contacts net)
    (invite_request net) (export_chat_invite net) (send_message net)
    (iter_dialogs_phones net) (str_format net) (log_positional net).

Definition with_qr_wait (net : network) (f : client → res unit) : network :=
  Network (api_id net) (api_hash net) (today net) (connect net) (is_user_authorized net)
    (get_me net) (disconnect net) (auth_key net) (qr_login net) f (sign_in net)
    (get_input_entity net) (get_entity net) (import_contacts net) (delete_contacts net)
    (invite_request net) (export_chat_invite net) (send_message net)
    (iter_dialogs_phones net) (str_format net) (log_positional net).

Definition with_disconnect (net : network) (f : client → res unit) : network :=
  Network (api_id net) (api_hash net) (today net) (connect net) (is_user_authorized net)
    (get_me net) f (auth_key net) (qr_login net) (qr_wait net) (sign_in net)
    (get_input_entity net) (get_entity net) (import_contacts net) (delete_contacts net)
    (invite_request net) (export_chat_invite net) (send_message net)
    (iter_dialogs_phones net) (str_format net) (log_positional net).

Definition with_get_input_entity (net : network) (f : client → target → res Z) : network :=
  Network (api_id net) (api_hash net) (today net) (connect net) (is_user_authorized net)
    (get_me net) (disconnect net) (auth_key net) (qr_login net) (qr_wait net) (sign_in net)
    f (get_entity net) (import_contacts net) (delete_contacts net)
    (invite_request net) (export_chat_invite net) (send_message net)
    (iter_dialogs_phones net) (str_format net) (log_positional net).

(** Before the scan the in-memory client of an attempt is not
    authorized yet. *)
Definition before_scan : network :=
  with_is_user_authorized cooperative
    (λ c, match c with MemoryClient _ => Ok false | FileClient _ _ => Ok true end).

(** The scan signal does not fire within the timeout. *)
Definition never_scanned : network :=
  with_qr_wait cooperative (λ _, Raise (Exn TimeoutError "")).

(** The same, on a network on which closing the connection of an
    in-memory client raises. *)
Definition never_scanned_stuck : network :=
  with_disconnect never_scanned
    (λ c, match c with
          | MemoryClient _ => Raise (Exn (OtherError "ConnectionError") "Connection lost")
          | FileClient _ _ => Ok tt
          end).

(** The session cannot resolve the target group. *)
Definition group_unknown : network :=
  with_get_input_entity cooperative
    (λ c t, match t with
            | ById _ => Raise (Exn ValueError "Could not find the input entity")
            | _ => get_input_entity cooperative c t
            end).

Definition S1 : client := FileClient false "S1".
Definition S2 : client := FileClient false "S2".
Definition S3 : client := FileClient false "S3".
Definition admin : client := FileClient true "Admin_1".

Definition four_pending : list Database.phone_row :=
  [Database.PhoneRow "+1001" Database.Pending false;
   Database.PhoneRow "+1002" Database.Pending false;
   Database.PhoneRow "+1003" Database.Pending false;
   Database.PhoneRow "+1004" Database.Pending false].

(** Three loaded sessions under a daily cap of 2, with 0, 2 and 1
    additions made today, an admin session, and four pending targets. *)
Definition round_robin_store : Database.db :=
  Database.Db four_pending
    [Database.SessionRow "S1" "active" 1 "hash";
     Database.SessionRow "S2" "active" 1 "hash";
     Database.SessionRow "S3" "active" 1 "hash"]
    [Database.AdminRow "Admin_1" 1 "" "" "active"]
    (<[("S2", "2024-05-01") := 2]> (<[("S3", "2024-05-01") := 1]> ∅))
    ∅ [] [].

Definition round_robin_state : state :=
  State [("S1", S1); ("S2", S2); ("S3", S3)]
        (<["Admin_1" := admin]> ∅) ∅ ∅
        ({[ (false, "S1"); (false, "S2"); (false, "S3"); (true, "Admin_1") ]})
        ({[ S1; S2; S3; admin ]}) ∅ [].

Definition round_robin_world : Database.db * state :=
  (round_robin_store, round_robin_state).

(** The process has been restarted: the store and the session directory
    hold Session_A, the manager is as [__init__] leaves it. *)
Definition restarted_world : Database.db * state :=
  (Database.with_sessions Database.empty
     [Database.SessionRow "Session_A" "active" 1 "hash"],
   with_files fresh {[ (false, "Session_A") ]}).

(** A QR login from issue to the end of the scan waiter, followed by a
    reload of the registry. *)
Definition qr_login_flow (issue scan : network) (session_name : string) : SM unit :=
  create_auto_qr_session issue session_name ;;;
  _wait_for_scan scan session_name (MemoryClient session_name) ;;;
  _load_all_sessions scan.

(** A store with one pending target, an empty manager. *)
Definition one_pending_world : Database.db * state :=
  (Database.with_phone_numbers Database.empty
     [Database.PhoneRow "+1001" Database.Pending false],
   fresh).

(** A session manager whose run reports a failure, for the supervisor. *)
Definition idle_manager : AutoAdd.session_manager unit :=
  AutoAdd.SessionManagerApi unit (ret tt)
    (λ _ _ _ _ _, ret (RunFailure "No user sessions available"))
    (λ _, ret tt).

Definition enabled_store : Database.db :=
  Database.set_setting "auto_add_enabled" (VBool true)
    (Database.set_setting "target_group_id" (VInt 777)
       (Database.with_phone_numbers Database.empty
          [Database.PhoneRow "+1001" Database.Pending false])).

Definition enabled_world : AutoAdd.world unit :=
  AutoAdd.World (AutoAdd.init 120) enabled_store tt.

End Scenario.


(** * Vocabulary of the further properties *)

(** ** The supervisor *)

(** The three conditions under which a pass of the loop only waits. *)
Inductive gate := Disabled | NoTargetGroup | NothingPending.

Definition closed (g : gate) (d : Database.db) : Prop :=
  match g with
  | Disabled =>
      truthy (dict_get (AdminManager.get_settings d) "auto_add_enabled" (VBool false))
      = false
  | NoTargetGroup =>
      truthy (dict_get (AdminManager.get_settings d) "target_group_id" VNone) = false
  | NothingPending => Database.pending_phones d = 0
  end.

(** An event that cannot lift the condition. *)
Definition keeps_closed (g : gate) (e : AutoAdd.event) : Prop :=
  match g, e with
  | Disabled, AutoAdd.UpdateSettings key _ => key ≠ "auto_add_enabled"
  | NoTargetGroup, AutoAdd.UpdateSettings key _ => key ≠ "target_group_id"
  | NothingPending, AutoAdd.ImportPhone _ => False
  | _, _ => True
  end.

(** The poll interval and the stop signal are what they were. *)
Definition same_timing {W} (w w' : AutoAdd.world W) : Prop :=
  AutoAdd.poll_interval (AutoAdd.sup w') = AutoAdd.poll_interval (AutoAdd.sup w)
  ∧ AutoAdd.stop_event (AutoAdd.sup w') = AutoAdd.stop_event (AutoAdd.sup w).



(** ** The manager *)

(** The computation never raises: from every state it returns a value. *)
Definition returns {S A} (m : M S A) : Prop := ∀ s, ∃ a s', m s = (Ok a, s').

(** The counters of a run over a queue of [total] entries, of which
    [left] are still to be visited: every entry visited is counted at
    most once, an error text is kept only for an entry counted as
    failed, and the number of skipped entries is within the queue. *)
Definition counted (total : Z) (left : nat) (r : results) : Prop :=
  r_total r = total
  ∧ 0 ≤ r_added r ∧ 0 ≤ r_failed r ∧ 0 ≤ r_invited r
  ∧ SessionManager.processed r + Z.of_nat left ≤ total
  ∧ Z.of_nat (length (r_errors r)) ≤ r_failed r
  ∧ 0 ≤ r_skipped r ≤ total.

(** The ledger of [d] against the ledger of [d0], on which a run was
    started: a count is what it was, or it is a count of [today] that
    has gone up and is within [cap]. *)
Definition within_cap (cap : Z) (today : string) (d0 d : Database.db) : Prop :=
  ∀ nm day,
    Database.users_added d nm day = Database.users_added d0 nm day
    ∨ (day = today
       ∧ Database.users_added d0 nm day < Database.users_added d nm day ≤ cap).

(** The candidate list agrees with the ledger: a name is listed once,
    and the quota tracked for it is at most what the ledger leaves. *)
Definition tracks_ledger (cap : Z) (today : string) (available : list (string * Z))
    (d : Database.db) : Prop :=
  NoDup (fst <$> available)
  ∧ Forall (λ e, snd e ≤ cap - Database.users_added d (fst e) today) available.

(** ** The registries and the session directory *)

(** Nothing but the set of open connections differs. *)
Definition only_connections (w w' : Database.db * SessionManager.state) : Prop :=
  fst w' = fst w
  ∧ snd w' = SessionManager.with_connected (snd w) (SessionManager.connected (snd w')).

(** The store, the registry of user sessions and the session directory
    are what they were. *)
Definition same_traces (w w' : Database.db * SessionManager.state) : Prop :=
  fst w' = fst w
  ∧ SessionManager.sessions (snd w') = SessionManager.sessions (snd w)
  ∧ SessionManager.files (snd w') = SessionManager.files (snd w).

(** The session passes the two requests of the health check. *)
Definition healthy (net : SessionManager.network) (c : SessionManager.client) : Prop :=
  SessionManager.is_user_authorized net c = Ok true
  ∧ ∃ me, SessionManager.get_me net c = Ok me.

(** The store lists the session: the table of sessions has a row of
    that name, or the admin row names it. *)
Definition stored (d : Database.db) (session_name : string) : Prop :=
  session_name ∈ Database.name <$> Database.get_sessions d
  ∨ ∃ row, Database.get_admin_session d = Some row
           ∧ Database.session_name row = session_name.


(** * Properties *)

(** ** Quota ledger *)

Lemma users_added_increment_same (d : Database.db) (session today : string) :
  Database.users_added (Database.increment_session_limit session today d) session today
  = Database.users_added d session today + 1.
Proof.
  unfold Database.users_added, Database.increment_session_limit. simpl.
  destruct (Database.session_limits d !! (session, today)) as [n|] eqn:E.
  - rewrite lookup_alter_eq, E. reflexivity.
  - rewrite lookup_alter_eq, lookup_insert_eq. reflexivity.
Qed.

Lemma users_added_increment_other (d : Database.db) (session today s day : string) :
  (s, day) ≠ (session, today) →
  Database.users_added (Database.increment_session_limit session today d) s day
  = Database.users_added d s day.
Proof.
  intros Hne. unfold Database.users_added, Database.increment_session_limit. simpl.
  rewrite lookup_alter_ne by congruence.
  destruct (Database.session_limits d !! (session, today)); [reflexivity|].
  rewrite lookup_insert_ne by congruence. reflexivity.
Qed.

Lemma remaining_is_cap_minus_count (d : Database.db) (s day : string) (cap : Z) :
  Database.get_session_daily_limit s cap day d = cap - Database.users_added d s day.
Proof.
  unfold Database.get_session_daily_limit, Database.users_added.
  destruct (Database.session_limits d !! (s, day)); reflexivity.
Qed.

(** ** Relations kept by every step of a computation *)

Section Steps.
Context {S : Type} (R : relation S) `{!PreOrder R}.

Lemma steps_ret {A} (a : A) : steps R (ret a).
Proof. intros s. reflexivity. Qed.

Lemma steps_raise {A} (e : exn) : steps R (raise (A := A) e).
Proof. intros s. reflexivity. Qed.

Lemma steps_answer {A} (r : res A) : steps R (answer r).
Proof. intros s. reflexivity. Qed.

Lemma steps_get : steps R get.
Proof. intros s. reflexivity. Qed.

Lemma steps_gets {A} (f : S → A) : steps R (gets f).
Proof. intros s. reflexivity. Qed.

Lemma steps_modify (f : S → S) : (∀ s, R s (f s)) → steps R (modify f).
Proof. intros H s. apply H. Qed.

Lemma steps_bind {A B} (m : M S A) (k : A → M S B) :
  steps R m → (∀ a, steps R (k a)) → steps R (bind m k).
Proof.
  intros Hm Hk s. unfold bind. specialize (Hm s).
  destruct (m s) as [[a|e] s']; simpl in *; [|assumption].
  etransitivity; [exact Hm | apply Hk].
Qed.

Lemma steps_try_except {A} (body : M S A) (handler : exn → M S A) :
  steps R body → (∀ e, steps R (handler e)) → steps R (try_except body handler).
Proof.
  intros Hm Hk s. unfold try_except. specialize (Hm s).
  destruct (body s) as [[a|e] s']; simpl in *; [assumption|].
  etransitivity; [exact Hm | apply Hk].
Qed.

Lemma steps_try_finally {A} (body : M S A) (final : M S unit) :
  steps R body → steps R final → steps R (try_finally body final).
Proof.
  intros Hm Hk s. unfold try_finally. specialize (Hm s). specialize (Hk (snd (body s))).
  destruct (body s) as [r s']; simpl in *.
  destruct (final s') as [[[]|e] s'']; simpl in *; etransitivity; eassumption.
Qed.

(** From a step to the states of a particular run. *)
Lemma steps_run {A} (m : M S A) (s s' : S) (r : res A) :
  steps R m → m s = (r, s') → R s s'.
Proof. intros H E. specialize (H s). rewrite E in H. exact H. Qed.

End Steps.

Create HintDb frame.

Ltac frame_step :=
  match goal with
  | |- steps _ (bind _ _) => apply steps_bind; [ .. | intros ?]
  | |- steps _ (try_except _ _) => apply steps_try_except; [ .. | intros ?]
  | |- steps _ (try_finally _ _) => apply steps_try_finally
  | |- steps _ (ret _) => apply steps_ret
  | |- steps _ (raise _) => apply steps_raise
  | |- steps _ (answer _) => apply steps_answer
  | |- steps _ (gets _) => apply steps_gets
  | |- steps _ get => apply steps_get
  | |- steps _ (SessionManager.from_db _) => apply steps_gets
  | |- steps _ (SessionManager.from_state _) => apply steps_gets
  | |- steps _ (let _ := _ in _) => cbv zeta
  | |- steps _ (if ?b then _ else _) => destruct b
  | |- steps _ (match ?x with _ => _ end) => destruct x
  | |- steps _ _ => solve [eauto with frame]
  end.

Ltac frame := repeat (frame_step; try exact _).

(** ** What the manager's operations leave alone *)

Section Frame.
Import SessionManager.
Context (net : network).
Context (R : relation (Database.db * state)) `{!PreOrder R}.
Context (P : string → Prop).

(** The relation does not look at the registries, the session directory
    or the connections, ... *)
Hypothesis R_state : ∀ d s s',
  journal s' = journal s → contacts s' = contacts s → R (d, s) (d, s').
(** ... nor at the tables other than [phone_numbers] and [session_limits] ... *)
Hypothesis R_db : ∀ d d' s,
  Database.phone_numbers d' = Database.phone_numbers d →
  Database.session_limits d' = Database.session_limits d →
  R (d, s) (d', s).
(** ... and allows a mark on a phone that satisfies [P]. *)
Hypothesis R_mark : ∀ st p d s,
  P p → st ≠ Database.Pending → R (d, s) (Database.mark_phone st p d, s).

Lemma steps_on_state (f : state → state) :
  (∀ s, journal (f s) = journal s) → (∀ s, contacts (f s) = contacts s) →
  steps R (on_state f).
Proof. intros H1 H2. apply steps_modify. intros [d s]. apply R_state; [apply H1 | apply H2]. Qed.

Lemma steps_on_db (f : Database.db → Database.db) :
  (∀ d, Database.phone_numbers (f d) = Database.phone_numbers d) →
  (∀ d, Database.session_limits (f d) = Database.session_limits d) →
  steps R (on_db f).
Proof. intros H1 H2. apply steps_modify. intros [d s]. apply R_db; [apply H1 | apply H2]. Qed.

Lemma steps_mark (st : Database.phone_status) (p : string) :
  P p → st ≠ Database.Pending → steps R (on_db (Database.mark_phone st p)).
Proof. intros Hp Hst. apply steps_modify. intros [d s]. apply R_mark; assumption. Qed.

Lemma steps_add_to_blacklist (u : string) : steps R (on_db (Database.add_to_blacklist u)).
Proof.
  apply steps_on_db; intros d; unfold Database.add_to_blacklist;
    case_bool_decide; reflexivity.
Qed.

Lemma steps_add_operation (ty description st : string) :
  steps R (add_operation ty description st).
Proof. intros [d s]. apply R_db; reflexivity. Qed.

#[local] Hint Extern 1 (steps _ (on_state _)) =>
  apply steps_on_state; intros; reflexivity : frame.
#[local] Hint Extern 2 (steps _ (on_db _)) =>
  apply steps_on_db; intros; reflexivity : frame.
#[local] Hint Resolve steps_add_to_blacklist steps_add_operation : frame.
#[local] Hint Extern 1 (steps _ (on_db (Database.mark_phone_added _))) =>
  apply steps_mark; [assumption | discriminate] : frame.
#[local] Hint Extern 1 (steps _ (on_db (Database.mark_phone_invited _))) =>
  apply steps_mark; [assumption | discriminate] : frame.
#[local] Hint Extern 1 (steps _ (on_db (Database.mark_phone_failed _))) =>
  apply steps_mark; [assumption | discriminate] : frame.

Lemma steps_client_disconnect (c : client) : steps R (client_disconnect net c).
Proof. unfold client_disconnect. frame. Qed.

Lemma steps_client_connect (c : client) : steps R (client_connect net c).
Proof. unfold client_connect. frame. Qed.

Lemma steps_is_connected (c : client) : steps R (is_connected c).
Proof. unfold is_connected. frame. Qed.

#[local] Hint Resolve steps_client_disconnect steps_client_connect steps_is_connected : frame.

Lemma steps_load_sessions (rows : list Database.session_row) :
  steps R (load_sessions net rows).
Proof.
  induction rows as [|r rows IH]; simpl; [frame|].
  unfold load_session. frame.
Qed.

Lemma steps__load_all_sessions : steps R (_load_all_sessions net).
Proof. unfold _load_all_sessions. frame. apply steps_load_sessions. Qed.

Lemma steps_first_usable (l : list (string * client)) : steps R (first_usable net l).
Proof. induction l as [|[nm c] l IH]; simpl; frame. Qed.

#[local] Hint Resolve steps__load_all_sessions steps_first_usable : frame.

Lemma steps_get_admin_session_client : steps R (get_admin_session_client net).
Proof. unfold get_admin_session_client. frame. Qed.

Lemma steps_get_active_contact_lists (c : client) :
  steps R (get_active_contact_lists net c).
Proof. unfold get_active_contact_lists. frame. Qed.

(** From here on the relation has to allow changes of a contact list. *)
Hypothesis R_contacts : ∀ d s x, R (d, s) (d, with_contacts s x).

Lemma steps_on_contacts (f : state → gmap client (gset string)) :
  steps R (on_state (λ s, with_contacts s (f s))).
Proof. apply steps_modify. intros [d s]. apply R_contacts. Qed.

#[local] Hint Resolve steps_on_contacts : frame.

Lemma steps__add_temp_contact (c : client) (phone : string) :
  steps R (_add_temp_contact net c phone).
Proof. unfold _add_temp_contact. frame. Qed.

Lemma steps__remove_temp_contact (c : client) (phone : string) :
  steps R (_remove_temp_contact net c phone).
Proof. unfold _remove_temp_contact. frame. Qed.

Lemma steps__invite_entity_to_group (c : client) (group : entity) (gi ui : Z) :
  steps R (_invite_entity_to_group net c group gi ui).
Proof. unfold _invite_entity_to_group. frame. Qed.

Lemma steps__send_invite_link (c : client) (phone link : string) :
  steps R (_send_invite_link net c phone link).
Proof. unfold _send_invite_link. frame. Qed.

#[local] Hint Resolve steps_get_admin_session_client steps_get_active_contact_lists
  steps__add_temp_contact steps__remove_temp_contact steps__invite_entity_to_group
  steps__send_invite_link : frame.

Lemma steps_try_invite (c : client) (phone : string) (link : option string) :
  P phone → steps R (try_invite net c phone link).
Proof. intros HP. unfold try_invite. frame. Qed.

#[local] Hint Resolve steps_try_invite : frame.

Lemma steps__process_phone_number (c admin : client) (phone : string) (group : entity)
    (gi : Z) (session_name : string) (link : option string) (active : gset string) :
  P phone →
  steps R (_process_phone_number net c admin phone group gi session_name link active).
Proof. intros HP. unfold _process_phone_number. frame. Qed.

Lemma steps__create_invite_link (admin : client) (group : entity) (gi : Z) :
  steps R (_create_invite_link net admin group gi).
Proof. unfold _create_invite_link. frame. Qed.

Lemma steps_collect_available (max_daily : Z) (l : list (string * client)) :
  steps R (collect_available net max_daily l).
Proof. induction l as [|[nm c] l IH]; simpl; frame. Qed.

#[local] Hint Resolve steps_collect_available : frame.

Lemma steps_admin_as_user (max_daily : Z) : steps R (admin_as_user net max_daily).
Proof. unfold admin_as_user. frame. Qed.

Lemma steps_no_admin_message : steps R no_admin_message.
Proof. unfold no_admin_message. frame. Qed.

Lemma steps_begin_run (group_id invite_message : value) :
  steps R (begin_run group_id invite_message).
Proof. unfold begin_run. frame. Qed.

#[local] Hint Resolve steps_admin_as_user : frame.

Lemma steps_candidate_sessions (max_daily : Z) :
  steps R (candidate_sessions net max_daily).
Proof. unfold candidate_sessions. frame. Qed.

Lemma steps_resolve_group (admin : client) (group_id : value) :
  steps R (resolve_group net admin group_id).
Proof. unfold resolve_group. frame. Qed.

(** For the batch loop the relation also has to allow a new record in
    the journal and an increment of the ledger. *)
Hypothesis R_journal : ∀ d s l, R (d, s) (d, with_journal s l).
Hypothesis R_limit : ∀ d s nm day,
  R (d, s) (Database.increment_session_limit nm day d, s).

Lemma steps_journal (f : state → list (string * string)) :
  steps R (on_state (λ s, with_journal s (f s))).
Proof. apply steps_modify. intros [d s]. apply R_journal. Qed.

Lemma steps_increment (nm day : string) :
  steps R (on_db (Database.increment_session_limit nm day)).
Proof. apply steps_modify. intros [d s]. apply R_limit. Qed.

#[local] Hint Resolve steps_journal steps_increment steps__process_phone_number
  steps__create_invite_link steps_candidate_sessions steps_resolve_group
  steps_no_admin_message : frame.

Lemma steps_record_outcome (outcome phone session_name : string) (session_idx : nat)
    (remaining : Z) (ls : loop_state) :
  P phone →
  steps R (record_outcome net outcome phone session_name session_idx remaining ls).
Proof. intros HP. unfold record_outcome. frame. Qed.

#[local] Hint Resolve steps_record_outcome : frame.

Lemma steps_process_phone_data (admin : client) (group : entity) (gi : Z)
    (link : option string) (total : Z) (phone_data : Database.phone_row)
    (ls : loop_state) :
  P (Database.phone phone_data) →
  steps R (process_phone_data net admin group gi link total phone_data ls).
Proof. intros HP. unfold process_phone_data. frame. Qed.

Lemma steps_process_batch (admin : client) (group : entity) (gi : Z)
    (link : option string) (total : Z) (batch : list Database.phone_row)
    (ls : loop_state) :
  Forall (λ r, P (Database.phone r)) batch →
  steps R (process_batch net admin group gi link total batch ls).
Proof.
  intros HP. revert ls.
  induction HP as [|r batch Hr Hbatch IH]; intros ls; simpl; [frame|].
  apply steps_bind; [exact _ | by apply steps_process_phone_data |].
  intros [[] ls']; simpl; [apply IH | frame].
Qed.

Lemma steps_process_batches (admin : client) (group : entity) (gi : Z)
    (link : option string) (total : Z) (batch_size todo : nat)
    (pending : list Database.phone_row) (ls : loop_state) :
  Forall (λ r, P (Database.phone r)) pending →
  steps R (process_batches net admin group gi link total batch_size todo pending ls).
Proof.
  revert pending ls.
  induction todo as [|todo IH]; intros pending ls HP; simpl; [frame|].
  destruct pending as [|r pending]; [frame|].
  apply steps_bind; [exact _ | |].
  - apply steps_process_batch. by apply Forall_take.
  - intros ls'. apply IH. by apply Forall_drop.
Qed.

(** What [begin_run] returns: the queue of the rows that are pending in
    the store it was started on. *)
Lemma begin_run_returns (group_id invite_message : value) (w : Database.db * state) :
  ∃ op w',
    begin_run group_id invite_message w
    = (Ok (op, Database.get_pending_phone_numbers (fst w)), w').
Proof.
  destruct w as [d s]. unfold begin_run, bind, add_operation. simpl.
  destruct (truthy invite_message); simpl; eauto.
Qed.

(** A distribution run marks only phones of rows that were pending, and
    otherwise stays within the relation. *)
Lemma add_users_to_group_related (group_id : value) (delay batch_size max_daily : Z)
    (invite_message : value) (w : Database.db * state) :
  Forall (λ r, P (Database.phone r)) (Database.get_pending_phone_numbers (fst w)) →
  R w (snd (add_users_to_group net group_id delay batch_size max_daily invite_message w)).
Proof.
  intros HP. unfold add_users_to_group.
  destruct (begin_run_returns group_id invite_message w) as (op & w' & E).
  pose proof (steps_run R _ _ _ _ (steps_begin_run group_id invite_message) E) as Hw.
  unfold bind at 1. rewrite E. simpl.
  etransitivity; [exact Hw|]. clear Hw E.
  generalize w'. clear w'.
  match goal with |- ∀ s, R s (snd (?m s)) => change (steps R m) end.
  revert HP. generalize (Database.get_pending_phone_numbers w.1) as pending.
  intros pending HP.
  destruct pending as [|r pending]; [frame|].
  frame. apply steps_process_batches. exact HP.
Qed.

End Frame.

(** ** The relations kept by a distribution run *)

#[local] Instance row_step_preorder (P : string → Prop) : PreOrder (row_step P).
Proof.
  split.
  - intros r. by left.
  - intros r1 r2 r3 [->|(E1 & HP1 & N1)] [->|(E2 & HP2 & N2)].
    + by left.
    + right. auto.
    + right. auto.
    + right. rewrite E2, E1. rewrite E1 in HP2. auto.
Qed.

#[local] Instance marks_within_preorder (P : string → Prop) : PreOrder (marks_within P).
Proof.
  split.
  - intros w. unfold marks_within. reflexivity.
  - intros w1 w2 w3 H1 H2. unfold marks_within in *. etransitivity; eassumption.
Qed.

#[local] Instance same_journal_preorder : PreOrder same_journal.
Proof.
  split; [by intros w|]. intros w1 w2 w3 H1 H2. unfold same_journal in *. congruence.
Qed.

#[local] Instance same_ledger_preorder : PreOrder same_ledger.
Proof.
  split; [by intros w|]. intros w1 w2 w3 H1 H2. unfold same_ledger in *. congruence.
Qed.

#[local] Instance same_contacts_preorder : PreOrder same_contacts.
Proof.
  split; [by intros w|]. intros w1 w2 w3 H1 H2. unfold same_contacts in *. congruence.
Qed.

Lemma marks_within_same_table (P : string → Prop) (w w' : Database.db * SessionManager.state) :
  Database.phone_numbers (fst w') = Database.phone_numbers (fst w) → marks_within P w w'.
Proof. intros E. unfold marks_within. rewrite E. reflexivity. Qed.

Lemma marks_within_mark (P : string → Prop) (st : Database.phone_status) (p : string)
    (d : Database.db) (s : SessionManager.state) :
  P p → st ≠ Database.Pending → marks_within P (d, s) (Database.mark_phone st p d, s).
Proof.
  intros HP Hst. unfold marks_within, Database.mark_phone. simpl.
  apply Forall2_fmap_r, Forall_Forall2_diag, Forall_forall. intros r _.
  unfold compose. case_decide as E; [|by left].
  right. simpl. subst p. auto.
Qed.

(** With no phone allowed to be marked, the table is left as it is. *)
Lemma marks_within_nothing (w w' : Database.db * SessionManager.state) :
  marks_within (λ _, False) w w' →
  Database.phone_numbers (fst w') = Database.phone_numbers (fst w).
Proof.
  unfold marks_within. generalize (Database.phone_numbers w.1) (Database.phone_numbers w'.1).
  induction 1 as [|r r' l l' [->|(? & [] & ?)] _ IH]; [reflexivity|]. by rewrite IH.
Qed.

Ltac relation_side :=
  intros;
  first
    [ exact _
    | apply marks_within_mark; assumption
    | apply marks_within_same_table; simpl; solve [reflexivity | assumption | congruence]
    | unfold same_journal, same_ledger, same_contacts; simpl;
      solve [reflexivity | assumption | congruence] ].

(** ** Runs of sequenced computations *)

Lemma bind_run_Ok {S A B} (m : M S A) (k : A → M S B) (s s1 : S) (a : A) :
  m s = (Ok a, s1) → bind m k s = k a s1.
Proof. intros E. unfold bind. by rewrite E. Qed.

Lemma bind_run_Raise {S A B} (m : M S A) (k : A → M S B) (s s1 : S) (e : exn) :
  m s = (Raise e, s1) → bind m k s = (Raise e, s1).
Proof. intros E. unfold bind. by rewrite E. Qed.

Lemma bind_Ok_inv {S A B} (m : M S A) (k : A → M S B) (s s' : S) (b : B) :
  bind m k s = (Ok b, s') → ∃ a s1, m s = (Ok a, s1) ∧ k a s1 = (Ok b, s').
Proof.
  unfold bind. destruct (m s) as [[a|e] s1]; [eauto | discriminate].
Qed.

Lemma try_except_run_Raise {S A} (body : M S A) (handler : exn → M S A) (s s1 : S)
    (e : exn) :
  body s = (Raise e, s1) → try_except body handler s = handler e s1.
Proof. intros E. unfold try_except. by rewrite E. Qed.

Lemma try_except_run_Ok {S A} (body : M S A) (handler : exn → M S A) (s s1 : S) (a : A) :
  body s = (Ok a, s1) → try_except body handler s = (Ok a, s1).
Proof. intros E. unfold try_except. by rewrite E. Qed.

(** ** Run-level failures *)

Section RunFailures.
Import SessionManager.
Context (net : network) (group_id : value) (delay batch_size max_daily : Z)
  (invite_message : value).

Abbreviation run := (add_users_to_group net group_id delay batch_size max_daily invite_message).
Abbreviation unchanged w w' :=
  (Database.phone_numbers (fst w') = Database.phone_numbers (fst w)).

Lemma begin_run_unchanged (w w1 : Database.db * state) r :
  begin_run group_id invite_message w = (r, w1) → unchanged w w1.
Proof.
  intros E. apply marks_within_nothing.
  eapply (steps_run (marks_within (λ _, False))); [|exact E].
  apply steps_begin_run; relation_side.
Qed.

Lemma candidate_sessions_unchanged (w w1 : Database.db * state) r :
  candidate_sessions net max_daily w = (r, w1) → unchanged w w1.
Proof.
  intros E. apply marks_within_nothing.
  eapply (steps_run (marks_within (λ _, False))); [|exact E].
  apply steps_candidate_sessions; relation_side.
Qed.

Lemma get_admin_session_client_unchanged (w w1 : Database.db * state) r :
  get_admin_session_client net w = (r, w1) → unchanged w w1.
Proof.
  intros E. apply marks_within_nothing.
  eapply (steps_run (marks_within (λ _, False))); [|exact E].
  apply steps_get_admin_session_client; relation_side.
Qed.

Lemma resolve_group_unchanged (c : client) (w w1 : Database.db * state) r :
  resolve_group net c group_id w = (r, w1) → unchanged w w1.
Proof.
  intros E. apply marks_within_nothing.
  eapply (steps_run (marks_within (λ _, False))); [|exact E].
  apply steps_resolve_group; relation_side.
Qed.

(** The run with an empty queue. *)
Lemma run_without_pending (w : Database.db * state) :
  no_pending_targets w →
  ∃ m, fst (run w) = Ok (RunFailure m) ∧ unchanged w (snd (run w)).
Proof.
  intros H. unfold no_pending_targets in H.
  destruct (begin_run_returns group_id invite_message w) as (op & w1 & E).
  rewrite H in E. pose proof (begin_run_unchanged _ _ _ E) as U.
  unfold add_users_to_group. rewrite (bind_run_Ok _ _ _ _ _ E). simpl.
  eexists. split; [reflexivity|]. exact U.
Qed.

(** The failure reported when the stage after the candidates is not
    reached. *)
Lemma run_without_candidates (w : Database.db * state) :
  no_candidate_sessions net group_id max_daily invite_message w →
  ∃ m, fst (run w) = Ok (RunFailure m) ∧ unchanged w (snd (run w)).
Proof.
  intros [w2 H].
  apply bind_Ok_inv in H as (begun & w1 & Hb & Hc).
  destruct (begin_run_returns group_id invite_message w) as (op & w1' & E).
  rewrite E in Hb. injection Hb as <- ->.
  pose proof (begin_run_unchanged _ _ _ E) as U1.
  pose proof (candidate_sessions_unchanged _ _ _ Hc) as U2.
  unfold add_users_to_group. rewrite (bind_run_Ok _ _ _ _ _ E). simpl.
  destruct (Database.get_pending_phone_numbers w.1) as [|r pending].
  - simpl. eexists. split; [reflexivity|]. exact U1.
  - rewrite (bind_run_Ok _ _ _ _ _ Hc). simpl.
    destruct (length (sessions w2.2)); simpl;
      (eexists; split; [reflexivity|]); congruence.
Qed.

Lemma run_without_admin (w : Database.db * state) :
  no_admin_handle net group_id max_daily invite_message w →
  ∃ m, fst (run w) = Ok (RunFailure m) ∧ unchanged w (snd (run w)).
Proof.
  intros [w3 H].
  apply bind_Ok_inv in H as (begun & w1 & Hb & H).
  apply bind_Ok_inv in H as (available & w2 & Hc & Ha).
  destruct (begin_run_returns group_id invite_message w) as (op & w1' & E).
  rewrite E in Hb. injection Hb as <- ->.
  pose proof (begin_run_unchanged _ _ _ E) as U1.
  pose proof (candidate_sessions_unchanged _ _ _ Hc) as U2.
  pose proof (get_admin_session_client_unchanged _ _ _ Ha) as U3.
  unfold add_users_to_group. rewrite (bind_run_Ok _ _ _ _ _ E). simpl.
  destruct (Database.get_pending_phone_numbers w.1) as [|r pending].
  - simpl. eexists. split; [reflexivity|]. exact U1.
  - rewrite (bind_run_Ok _ _ _ _ _ Hc).
    destruct available as [|a available].
    + simpl. destruct (length (sessions w2.2)); simpl;
        (eexists; split; [reflexivity|]); congruence.
    + rewrite (bind_run_Ok _ _ _ _ _ Ha). simpl.
      eexists. split; [reflexivity|]. congruence.
Qed.

Lemma run_without_group (w : Database.db * state) :
  group_resolution_fails net group_id max_daily invite_message w →
  ∃ m, fst (run w) = Ok (RunFailure m) ∧ unchanged w (snd (run w)).
Proof.
  intros (c & e & w3 & w4 & H & Hr).
  apply bind_Ok_inv in H as (begun & w1 & Hb & H).
  apply bind_Ok_inv in H as (available & w2 & Hc & Ha).
  destruct (begin_run_returns group_id invite_message w) as (op & w1' & E).
  rewrite E in Hb. injection Hb as <- ->.
  pose proof (begin_run_unchanged _ _ _ E) as U1.
  pose proof (candidate_sessions_unchanged _ _ _ Hc) as U2.
  pose proof (get_admin_session_client_unchanged _ _ _ Ha) as U3.
  pose proof (resolve_group_unchanged _ _ _ _ Hr) as U4.
  unfold add_users_to_group. rewrite (bind_run_Ok _ _ _ _ _ E). simpl.
  destruct (Database.get_pending_phone_numbers w.1) as [|r pending].
  - simpl. eexists. split; [reflexivity|]. exact U1.
  - rewrite (bind_run_Ok _ _ _ _ _ Hc).
    destruct available as [|a available].
    + simpl. destruct (length (sessions w2.2)); simpl;
        (eexists; split; [reflexivity|]); congruence.
    + rewrite (bind_run_Ok _ _ _ _ _ Ha).
      erewrite bind_run_Ok; cycle 1.
      { erewrite try_except_run_Raise; [|by apply (bind_run_Raise _ _ _ _ _ Hr)].
        simpl. reflexivity. }
      simpl. eexists. split; [reflexivity|]. congruence.
Qed.

End RunFailures.

(** ** Targets move one way *)

Lemma Forall2_impl_elem {A B} (Q Q' : A → B → Prop) (l : list A) (k : list B) :
  Forall2 Q l k → (∀ x y, x ∈ l → Q x y → Q' x y) → Forall2 Q' l k.
Proof.
  induction 1 as [|x y l k Hxy _ IH]; intros H; constructor.
  - apply H; [apply elem_of_cons; by left | exact Hxy].
  - apply IH. intros x' y' Hin. apply H. apply elem_of_cons. by right.
Qed.

(** Under the UNIQUE constraint a phone names one row. *)
Lemma unique_phone_row (l : list Database.phone_row) (x y : Database.phone_row) :
  NoDup (Database.phone <$> l) → x ∈ l → y ∈ l →
  Database.phone x = Database.phone y → x = y.
Proof.
  induction l as [|a l IH]; simpl; intros Hnd Hx Hy E.
  - by apply elem_of_nil in Hx.
  - apply NoDup_cons in Hnd as [Ha Hnd].
    apply elem_of_cons in Hx as [->|Hx]; apply elem_of_cons in Hy as [->|Hy].
    + reflexivity.
    + exfalso. apply Ha. rewrite E. by apply list_elem_of_fmap_2.
    + exfalso. apply Ha. rewrite <- E. by apply list_elem_of_fmap_2.
    + by apply IH.
Qed.

Section OneWay.
Import SessionManager.
Context (net : network) (group_id : value) (delay batch_size max_daily : Z)
  (invite_message : value).

Abbreviation run1 :=
  (add_users_to_group net group_id delay batch_size max_daily invite_message).

Lemma run_marks_pending_only (w : Database.db * state) :
  marks_within (pending_phone w) w (snd (run1 w)).
Proof.
  apply (add_users_to_group_related net (marks_within (pending_phone w)) (pending_phone w));
    try relation_side.
  apply Forall_forall. intros r Hr. unfold pending_phone.
  by apply list_elem_of_fmap_2.
Qed.

Lemma pending_phone_row (w : Database.db * state) (r : Database.phone_row) :
  NoDup (Database.phone <$> Database.phone_numbers (fst w)) →
  r ∈ Database.phone_numbers (fst w) →
  pending_phone w (Database.phone r) →
  Database.status r = Database.Pending.
Proof.
  intros Hnd Hr Hp. unfold pending_phone, Database.get_pending_phone_numbers in Hp.
  apply list_elem_of_fmap_1 in Hp as (r0 & E & H0).
  apply list_elem_of_filter in H0 as [Hst H0].
  assert (r = r0) as -> by (eapply unique_phone_row; eauto).
  exact Hst.
Qed.

End OneWay.

(** ** The journal and the ledger during a run *)

Section Journal.
Import SessionManager.
Context (net : network).

Lemma same_journal_on_db (f : Database.db → Database.db) : steps same_journal (on_db f).
Proof. apply steps_modify. by intros [d s]. Qed.

Lemma same_ledger_on_state (f : state → state) : steps same_ledger (on_state f).
Proof. apply steps_modify. by intros [d s]. Qed.

Lemma same_journal_get_active_contact_lists (c : client) :
  steps same_journal (get_active_contact_lists net c).
Proof. apply steps_get_active_contact_lists; relation_side. Qed.

Lemma same_ledger_get_active_contact_lists (c : client) :
  steps same_ledger (get_active_contact_lists net c).
Proof. apply steps_get_active_contact_lists; relation_side. Qed.

Lemma same_journal__process_phone_number (c admin : client) (phone : string)
    (group : entity) (gi : Z) (session_name : string) (link : option string)
    (active : gset string) :
  steps same_journal
    (_process_phone_number net c admin phone group gi session_name link active).
Proof. apply (steps__process_phone_number net same_journal (λ _, True)); relation_side. Qed.

Lemma same_ledger__process_phone_number (c admin : client) (phone : string)
    (group : entity) (gi : Z) (session_name : string) (link : option string)
    (active : gset string) :
  steps same_ledger
    (_process_phone_number net c admin phone group gi session_name link active).
Proof. apply (steps__process_phone_number net same_ledger (λ _, True)); relation_side. Qed.

Lemma same_journal_record_outcome (outcome phone session_name : string) (idx : nat)
    (remaining : Z) (ls : loop_state) :
  steps same_journal (record_outcome net outcome phone session_name idx remaining ls).
Proof. apply (steps_record_outcome net same_journal (λ _, True)); relation_side. Qed.

Lemma same_journal_begin_run (group_id invite_message : value) :
  steps same_journal (begin_run group_id invite_message).
Proof. apply steps_begin_run; relation_side. Qed.

Lemma same_journal_candidate_sessions (max_daily : Z) :
  steps same_journal (candidate_sessions net max_daily).
Proof. apply steps_candidate_sessions; relation_side. Qed.

Lemma same_journal_get_admin_session_client :
  steps same_journal (get_admin_session_client net).
Proof. apply steps_get_admin_session_client; relation_side. Qed.

Lemma same_journal_resolve_group (c : client) (group_id : value) :
  steps same_journal (resolve_group net c group_id).
Proof. apply steps_resolve_group; relation_side. Qed.

Lemma same_journal__create_invite_link (c : client) (group : entity) (gi : Z) :
  steps same_journal (_create_invite_link net c group gi).
Proof. apply steps__create_invite_link; relation_side. Qed.

Lemma same_journal_no_admin_message : steps same_journal no_admin_message.
Proof. apply steps_no_admin_message; relation_side. Qed.

End Journal.

#[local] Hint Resolve same_journal_on_db same_ledger_on_state
  same_journal_get_active_contact_lists same_ledger_get_active_contact_lists
  same_journal__process_phone_number same_ledger__process_phone_number
  same_journal_record_outcome same_journal_begin_run same_journal_candidate_sessions
  same_journal_get_admin_session_client same_journal_resolve_group
  same_journal__create_invite_link same_journal_no_admin_message : frame.

Section Grows.
Import SessionManager.
Context {E : list (string * string) → Prop}.

Lemma grows_steps {A} (m : SM A) : E [] → steps same_journal m → journal_grows E m.
Proof.
  intros HE H w. exists []. split; [|exact HE].
  rewrite app_nil_r. apply (H w).
Qed.

Lemma grows_bind_l {A B} (m : SM A) (k : A → SM B) :
  E [] → steps same_journal m → (∀ a, journal_grows E (k a)) → journal_grows E (bind m k).
Proof.
  intros HE Hm Hk w. unfold bind. specialize (Hm w). unfold same_journal in Hm.
  destruct (m w) as [[a|e] w1]; simpl in *.
  - destruct (Hk a w1) as (extra & Hj & He). exists extra. by rewrite Hj, Hm.
  - exists []. by rewrite app_nil_r.
Qed.

Lemma grows_bind_r {A B} (m : SM A) (k : A → SM B) :
  journal_grows E m → (∀ a, steps same_journal (k a)) → journal_grows E (bind m k).
Proof.
  intros Hm Hk w. unfold bind. destruct (Hm w) as (extra & Hj & He).
  destruct (m w) as [[a|e] w1]; simpl in *.
  - exists extra. split; [|exact He]. rewrite <- Hj. apply (Hk a w1).
  - exists extra. auto.
Qed.

Lemma grows_try_except {A} (body : SM A) (handler : exn → SM A) :
  journal_grows E body → (∀ e, steps same_journal (handler e)) →
  journal_grows E (try_except body handler).
Proof.
  intros Hm Hk w. unfold try_except. destruct (Hm w) as (extra & Hj & He).
  destruct (body w) as [[a|e] w1]; simpl in *.
  - exists extra. auto.
  - exists extra. split; [|exact He]. rewrite <- Hj. apply (Hk e w1).
Qed.

End Grows.

Lemma grows_bind {A B} (E1 E2 E : list (string * string) → Prop)
    (m : SessionManager.SM A) (k : A → SessionManager.SM B) :
  journal_grows E1 m → (∀ a, journal_grows E2 (k a)) →
  (∀ e1, E1 e1 → E e1) → (∀ e1 e2, E1 e1 → E2 e2 → E (e1 ++ e2)) →
  journal_grows E (bind m k).
Proof.
  intros Hm Hk H1 H12 w. unfold bind. destruct (Hm w) as (e1 & Hj1 & He1).
  destruct (m w) as [[a|e] w1]; simpl in *.
  - destruct (Hk a w1) as (e2 & Hj2 & He2). exists (e1 ++ e2).
    split; [|by apply H12]. by rewrite Hj2, Hj1, app_assoc.
  - exists e1. auto.
Qed.

Section Selection.
Import SessionManager.
Context (net : network) (admin : client) (group : entity) (gi : Z)
  (link : option string) (total : Z).

Lemma picked_from_nil (phones : list string) : picked_from phones [].
Proof. apply sublist_nil_l. Qed.

Lemma process_phone_data_journal (phone_data : Database.phone_row) (ls : loop_state) :
  journal_grows (picked_from [Database.phone phone_data])
    (process_phone_data net admin group gi link total phone_data ls).
Proof.
  unfold process_phone_data.
  destruct (String.eqb _ _); [apply grows_steps; [apply picked_from_nil | frame]|].
  destruct (select_session _ _ _ _) as [[[idx nm] remaining]|];
    [|apply grows_steps; [apply picked_from_nil | frame]].
  apply grows_bind_l; [apply picked_from_nil | frame |]. intros [c|].
  - apply grows_bind_r; [|intros; frame].
    intros [d s]. simpl. eexists. split; [reflexivity|].
    unfold picked_from. simpl. reflexivity.
  - apply grows_steps; [apply picked_from_nil | frame].
Qed.

Lemma process_batch_journal (batch : list Database.phone_row) (ls : loop_state) :
  journal_grows (picked_from (Database.phone <$> batch))
    (process_batch net admin group gi link total batch ls).
Proof.
  revert ls. induction batch as [|r batch IH]; intros ls; simpl.
  - apply grows_steps; [apply picked_from_nil | frame].
  - eapply grows_bind.
    + apply process_phone_data_journal.
    + intros [[] ls']; simpl; [apply IH|].
      apply grows_steps; [apply picked_from_nil | frame].
    + unfold picked_from. intros e1 H1.
      etransitivity; [exact H1|]. apply sublist_skip, sublist_nil_l.
    + unfold picked_from. intros e1 e2 H1 H2. rewrite fmap_app.
      exact (sublist_app _ [Database.phone r] _ _ H1 H2).
Qed.

Lemma process_batches_journal (batch_size todo : nat)
    (pending : list Database.phone_row) (ls : loop_state) :
  journal_grows (picked_from (Database.phone <$> pending))
    (process_batches net admin group gi link total batch_size todo pending ls).
Proof.
  revert pending ls. induction todo as [|todo IH]; intros pending ls; simpl.
  - apply grows_steps; [apply picked_from_nil | frame].
  - destruct pending as [|r pending];
      [apply grows_steps; [apply picked_from_nil | frame]|].
    eapply grows_bind.
    + apply process_batch_journal.
    + intros ls'. apply IH.
    + unfold picked_from. intros e1 H1. etransitivity; [exact H1|].
      rewrite fmap_take. apply sublist_take.
    + unfold picked_from. intros e1 e2 H1 H2. rewrite fmap_app.
      rewrite <- (take_drop batch_size (Database.phone <$> r :: pending)).
      rewrite <- fmap_take, <- fmap_drop. by apply sublist_app.
Qed.

End Selection.

Section RunJournal.
Import SessionManager.
Context (net : network) (group_id : value) (delay batch_size max_daily : Z)
  (invite_message : value).

(** The records a run adds to the journal name phones of rows that were
    pending when it started, each at most once and in queue order. *)
Lemma run_selects_pending_only (w : Database.db * state) :
  ∃ extra,
    journal (snd (snd (add_users_to_group net group_id delay batch_size max_daily
                         invite_message w)))
    = journal (snd w) ++ extra
    ∧ picked_from (Database.phone <$> Database.get_pending_phone_numbers (fst w)) extra.
Proof.
  unfold add_users_to_group.
  destruct (begin_run_returns group_id invite_message w) as (op & w1 & E).
  pose proof (steps_run same_journal _ _ _ _
                (same_journal_begin_run group_id invite_message) E) as J.
  unfold same_journal in J. rewrite (bind_run_Ok _ _ _ _ _ E). rewrite <- J.
  clear J E. revert w1.
  generalize (Database.get_pending_phone_numbers w.1) as pending. intros pending.
  match goal with
  | |- ∀ w1, ∃ extra, _ = _ ∧ ?E extra =>
      refine (_ : journal_grows E _)
  end.
  simpl. destruct pending as [|r pending].
  - apply grows_steps; [apply picked_from_nil | frame].
  - apply grows_bind_l; [apply picked_from_nil | frame |]. intros [|a available].
    + apply grows_steps; [apply picked_from_nil | frame].
    + apply grows_bind_l; [apply picked_from_nil | frame |]. intros [c|].
      * apply grows_bind_r; [|intros; frame].
        apply grows_try_except; [|intros; frame].
        apply grows_bind_l; [apply picked_from_nil | frame |]. intros resolved.
        apply grows_bind_l; [apply picked_from_nil | unfold _ensure_sessions_in_group; frame |].
        intros _.
        apply grows_bind_l; [apply picked_from_nil | frame |]. intros invite_link.
        apply grows_bind_r; [|intros; frame].
        destruct (batch_size =? 0); [apply grows_steps; [apply picked_from_nil | frame]|].
        destruct (batch_size <? 0); [apply grows_steps; [apply picked_from_nil | frame]|].
        apply process_batches_journal.
      * apply grows_steps; [apply picked_from_nil | frame].
Qed.

End RunJournal.

Section Ledger.
Import SessionManager.
Context (net : network).

Lemma increment_reads_ledger_only (nm day : string) (d d' : Database.db) :
  Database.session_limits d' = Database.session_limits d →
  Database.session_limits (Database.increment_session_limit nm day d')
  = Database.session_limits (Database.increment_session_limit nm day d).
Proof. intros E. unfold Database.increment_session_limit. simpl. by rewrite E. Qed.

(** [record_outcome] writes the ledger exactly when it counts an
    addition for the outcome ["added"]. *)
Lemma record_outcome_ledger (outcome phone nm : string) (idx : nat) (remaining : Z)
    (ls : loop_state) (w : Database.db * state) :
  let out := record_outcome net outcome phone nm idx remaining ls w in
  (String.eqb outcome "added" = false ∧ same_ledger w (snd out))
  ∨ (String.eqb outcome "added" = true
     ∧ ∃ ls', fst out = Ok ls'
         ∧ r_added (run_results ls') = r_added (run_results ls) + 1
         ∧ Database.session_limits (fst (snd out))
           = Database.session_limits
               (Database.increment_session_limit nm (today net) (fst w))).
Proof.
  destruct w as [d s]. unfold record_outcome.
  destruct (String.eqb outcome "added") eqn:Ha.
  - right. split; [reflexivity|]. eexists. split; [reflexivity|]. by split.
  - left. split; [reflexivity|].
    destruct (String.eqb outcome "already_member"); [reflexivity|].
    destruct (String.eqb outcome "invited"); reflexivity.
Qed.

(** Handling one entry of the queue either leaves the ledger alone or
    increments it once, for the session chosen, together with the count
    of additions. *)
Lemma process_phone_data_ledger (admin : client) (group : entity) (gi : Z)
    (link : option string) (total : Z) (phone_data : Database.phone_row)
    (ls : loop_state) (w : Database.db * state) :
  let out := process_phone_data net admin group gi link total phone_data ls w in
  same_ledger w (snd out)
  ∨ ∃ nm continue ls',
      fst out = Ok (continue, ls')
      ∧ r_added (run_results ls') = r_added (run_results ls) + 1
      ∧ Database.session_limits (fst (snd out))
        = Database.session_limits
            (Database.increment_session_limit nm (today net) (fst w)).
Proof.
  cbv zeta.
  remember (process_phone_data net admin group gi link total phone_data ls w) as out eqn:Hout.
  unfold process_phone_data in Hout.
  destruct (String.eqb _ _); [subst out; by left|].
  destruct (select_session _ _ _ _) as [[[idx nm] remaining]|]; [|subst out; by left].
  unfold bind at 1, from_state, gets in Hout. cbn beta iota in Hout.
  destruct (dict_lookup nm (sessions w.2)) as [c|]; [|subst out; by left].
  unfold bind at 1, on_state, modify in Hout. cbn beta iota in Hout.
  set (w1 := (w.1, with_journal w.2 (journal w.2 ++ [(Database.phone phone_data, nm)])))
    in Hout.
  assert (same_ledger w w1) as L1 by reflexivity.
  pose proof (same_ledger_get_active_contact_lists net c w1) as L2.
  unfold bind at 1 in Hout. unfold same_ledger in *.
  destruct (get_active_contact_lists net c w1) as [[phone_set|e] w2]; simpl in L2;
    [|subst out; left; simpl; congruence].
  pose proof (same_ledger__process_phone_number net c admin (Database.phone phone_data)
                group gi nm link phone_set w2) as L3.
  unfold bind at 1 in Hout. unfold same_ledger in *.
  destruct (_process_phone_number net c admin _ group gi nm link phone_set w2)
    as [[outcome|e] w3]; simpl in L3;
    [|subst out; left; simpl; congruence].
  unfold bind at 1 in Hout.
  destruct (record_outcome_ledger outcome (Database.phone phone_data) nm idx remaining
              (LoopState (run_results ls) (S idx) (available_sessions ls)) w3)
    as [[_ Hs]|[_ (ls' & Hr & Hadd & Hl)]]; unfold same_ledger in *.
  - left. destruct (record_outcome _ _ _ _ _ _ _ _) as [[ls'|e] w4]; subst out; simpl in *;
      congruence.
  - right. destruct (record_outcome _ _ _ _ _ _ _ _) as [r4 w4]; simpl in *.
    subst r4 out. simpl. exists nm, true, ls'. split; [reflexivity|]. split; [exact Hadd|].
    rewrite Hl. apply increment_reads_ledger_only. congruence.
Qed.

End Ledger.

(** ** Supervisor *)

Section Cycle.
Import AutoAdd.
Context {W : Type} (sm : session_manager W).

(** The [finally] block of [_execute_cycle] returns, with the flag
    cleared in the status dict and in the store. *)
Lemma cycle_finally_clears (w : world W) :
  ∃ w',
    (set_running false ;;;
     on_db (Database.set_setting "auto_add_running" (VBool false)) ;;;
     set_wake_event false) w = (Ok tt, w')
    ∧ status_running (sup w') = false
    ∧ Database.get_setting "auto_add_running" VNone (db w') = VBool false.
Proof.
  eexists. split; [reflexivity|]. split; [reflexivity|].
  simpl. unfold Database.get_setting, Database.set_setting. simpl.
  by rewrite lookup_insert_eq.
Qed.

(** The guarded part of [_execute_cycle] never lets an exception out. *)
Lemma cycle_body_returns (target_group_id : value) (settings : gmap string value)
    (finished : Z) (body : M (world W) unit) (w : world W) :
  ∃ w',
    try_except body
      (λ exc, on_db (Database.set_setting "auto_add_last_result" (VCrash (str_exn exc)))) w
    = (Ok tt, w').
Proof.
  unfold try_except. destruct (body w) as [[[]|e] w1]; eauto.
Qed.

End Cycle.

(** [_execute_cycle] returns, with the flag cleared in the status dict and
    in the store, whatever the session manager does. *)
Lemma execute_cycle_exit {W} (sm : AutoAdd.session_manager W)
    (target_group_id : value) (settings : gmap string value) (finished : Z)
    (w : AutoAdd.world W) :
  let out := AutoAdd._execute_cycle sm target_group_id settings finished w in
  fst out = Ok tt
  ∧ AutoAdd.status_reports_running (snd out) = false
  ∧ Database.get_setting "auto_add_running" VNone (AutoAdd.db (snd out)) = VBool false.
Proof.
  cbv zeta. unfold AutoAdd._execute_cycle.
  erewrite bind_run_Ok by reflexivity.
  erewrite bind_run_Ok by reflexivity.
  unfold try_finally.
  match goal with
  | |- context [try_except ?body ?handler ?s] =>
      destruct (cycle_body_returns target_group_id settings finished body s) as [w1 E]
  end.
  rewrite E.
  destruct (cycle_finally_clears w1) as (w2 & F & Hflag & Hstored).
  rewrite F. simpl. auto.
Qed.

(** C7.  On every exit path of a distribution cycle -- the run returns a
    successful result, the run returns an unsuccessful result, or any
    of the awaited coroutines raises -- [_execute_cycle] returns with
    the supervisor's [running] flag set to false (and the stored
    [auto_add_running] setting false), so the status query does not
    report [running] once the cycle has ended.  The session manager is
    arbitrary: each of its coroutines may return anything or raise. *)
Theorem running_flag_cleared_on_every_exit {W} (sm : AutoAdd.session_manager W)
    (target_group_id : value) (settings : gmap string value) (finished : Z)
    (w : AutoAdd.world W) :
  let out := AutoAdd._execute_cycle sm target_group_id settings finished w in
  fst out = Ok tt
  ∧ AutoAdd.status_reports_running (snd out) = false
  ∧ Database.get_setting "auto_add_running" VNone (AutoAdd.db (snd out)) = VBool false.
Proof. apply execute_cycle_exit. Qed.

Lemma date_combine (day t : Z) :
  0 ≤ t < usec_per_day → date (combine day t) = day.
Proof.
  intros Ht. unfold date, combine. simpl.
  rewrite Z.add_comm, Z.div_add by (unfold usec_per_day, usec_per_hour,
    usec_per_minute, usec_per_second; lia).
  rewrite Z.div_small by exact Ht. lia.
Qed.

(** C4.  With no forced wake-up pending: for [daily_start_time = "09:00"]
    and a last run at 09:05 of the current day, [_calculate_next_run]
    returns 09:00 of the next day; with no daily start time configured
    and a last run two minutes before now, it returns the last run plus
    the five-minute minimum interval.  The store is left as it was. *)
Theorem next_run_daily_and_interval (settings : gmap string value) (now : Z)
    (d : Database.db) :
  truthy (Database.get_setting "auto_add_forced_wakeup" VNone d) = false →
  (dict_get settings "daily_start_time" VNone = VStr "09:00" →
   Database.get_setting "auto_add_last_run" VNone d
   = VIso (combine (date (utc now)) (9 * usec_per_hour + 5 * usec_per_minute)) →
   AutoAdd._calculate_next_run settings now d
   = (Ok (combine (date (utc now) + 1) (9 * usec_per_hour)), d))
  ∧
  (truthy (dict_get settings "daily_start_time" VNone) = false →
   Database.get_setting "auto_add_last_run" VNone d = VIso (utc (now - timedelta 0 2)) →
   AutoAdd._calculate_next_run settings now d
   = (Ok (dt_add (utc (now - timedelta 0 2)) AutoAdd._min_run_interval), d)).
Proof.
  intros Hforced. split.
  - intros Hdaily Hlast. unfold AutoAdd._calculate_next_run.
    rewrite Hforced, Hlast, Hdaily.
    change (truthy (VIso _)) with true. cbv iota.
    change (truthy (VStr "09:00")) with true. cbv iota.
    change (split_once ":" "09:00") with (Some ("09", "00")). cbv iota beta.
    change (int_of_string "09") with (Some 9). change (int_of_string "00") with (Some 0).
    cbv iota beta.
    change (time 9 0) with (Some (9 * usec_per_hour + 0 * usec_per_minute)).
    cbv iota beta.
    set (day := date (utc now)).
    set (lr := combine day (9 * usec_per_hour + 5 * usec_per_minute)).
    change (tz lr) with (Some 0). cbv iota.
    assert (date lr = day) as ->.
    { apply date_combine. unfold usec_per_day, usec_per_hour, usec_per_minute,
        usec_per_second. lia. }
    rewrite bool_decide_eq_true_2 by reflexivity.
    assert (dt_ge lr (combine day (9 * usec_per_hour + 0 * usec_per_minute)) = true) as ->.
    { unfold dt_ge, instant, lr, combine. simpl. apply Z.leb_le.
      unfold usec_per_hour, usec_per_minute, usec_per_second. lia. }
    simpl andb. cbv iota. f_equal. f_equal. unfold dt_add, combine, timedelta. simpl.
    f_equal. unfold usec_per_day, usec_per_hour, usec_per_minute, usec_per_second. lia.
  - intros Hdaily Hlast. unfold AutoAdd._calculate_next_run.
    rewrite Hforced, Hlast, Hdaily.
    change (truthy (VIso _)) with true. cbv iota.
    change (tz (utc (now - timedelta 0 2))) with (Some 0). cbv iota.
    assert (dt_gt (dt_add (utc (now - timedelta 0 2)) AutoAdd._min_run_interval) (utc now)
            = true) as ->; [|reflexivity].
    unfold dt_gt, instant, dt_add, utc, AutoAdd._min_run_interval, timedelta. simpl.
    apply Z.ltb_lt.
    unfold usec_per_day, usec_per_hour, usec_per_minute, usec_per_second. lia.
Qed.

(** ** The first run after the loop has started *)

Lemma next_run_unscheduled (started now : Z) (d : Database.db) :
  unscheduled started d →
  AutoAdd._calculate_next_run (AdminManager.get_settings d) now d
  = (Ok (if started + AutoAdd._min_run_interval >? now
         then utc (started + AutoAdd._min_run_interval) else utc now), d).
Proof.
  intros (Hlast & Hforced & Hdaily). unfold AutoAdd._calculate_next_run.
  rewrite Hforced, Hlast, Hdaily. simpl.
  unfold dt_gt, instant, dt_add. simpl. rewrite !Z.sub_0_r.
  rewrite Z.gtb_ltb. reflexivity.
Qed.

Section FirstRun.
Import AutoAdd.
Context {W : Type} (sm : session_manager W).

(** A pass made while nothing is scheduled either waits and leaves the
    store as it is, or launches at a clock reading at least the minimum
    interval after the start. *)
Lemma loop_body_unscheduled (started now finished : Z) (w : world W) :
  unscheduled started (db w) →
  (∃ timeout w',
     loop_body sm now finished w = (Ok (Waited timeout), w')
     ∧ db w' = db w ∧ stop_event (sup w') = stop_event (sup w))
  ∨ (∃ w',
       loop_body sm now finished w = (Ok (Launched now), w')
       ∧ started + _min_run_interval ≤ now).
Proof.
  intros Hun. unfold loop_body.
  erewrite bind_run_Ok by reflexivity.
  assert (∃ w0, (if wake_event (sup w) then set_wake_event false else ret tt) w
                = (Ok tt, w0)
                ∧ db w0 = db w ∧ stop_event (sup w0) = stop_event (sup w))
    as (w0 & E0 & Hdb0 & Hstop0).
  { destruct (wake_event (sup w)); eexists; (split; [reflexivity|]); by split. }
  cbv beta.
  erewrite bind_run_Ok by exact E0.
  erewrite bind_run_Ok by reflexivity.
  erewrite bind_run_Ok by reflexivity.
  erewrite bind_run_Ok; cycle 1.
  { rewrite Hdb0. rewrite (next_run_unscheduled started now (db w) Hun). reflexivity. }
  erewrite bind_run_Ok by reflexivity.
  erewrite bind_run_Ok by reflexivity.
  cbv beta.
  destruct (negb (truthy _)).
  { left. do 2 eexists. split; [reflexivity|]. simpl. split; first [reflexivity | assumption]. }
  destruct (negb (truthy _)).
  { left. do 2 eexists. split; [reflexivity|]. simpl. split; first [reflexivity | assumption]. }
  destruct (_ =? 0).
  { left. do 2 eexists. split; [reflexivity|]. simpl. split; first [reflexivity | assumption]. }
  destruct (started + _min_run_interval >? now) eqn:Hgt.
  - left. unfold dt_lt, instant. simpl. rewrite !Z.sub_0_r.
    apply Z.gtb_lt in Hgt. rewrite (proj2 (Z.ltb_lt _ _) Hgt).
    do 2 eexists. split; [reflexivity|]. simpl. split; first [reflexivity | assumption].
  - right. unfold dt_lt, instant. simpl. rewrite Z.ltb_irrefl.
    match goal with
    | |- ∃ w', bind (_execute_cycle sm ?t ?s finished) _ ?w1 = _ ∧ _ =>
        destruct (execute_cycle_exit sm t s finished w1) as (Hok & _);
        destruct (_execute_cycle sm t s finished w1) as [r w2] eqn:Ec
    end.
    simpl in Hok. subst r. erewrite bind_run_Ok by exact Ec.
    eexists. split; [reflexivity|].
    rewrite Z.gtb_ltb in Hgt. apply Z.ltb_ge in Hgt. exact Hgt.
Qed.

End FirstRun.

Lemma unscheduled_same_settings (started : Z) (d d' : Database.db) :
  Database.admin_settings d' = Database.admin_settings d →
  unscheduled started d → unscheduled started d'.
Proof.
  unfold unscheduled, Database.get_setting, AdminManager.get_settings,
    Database.get_all_settings.
  intros ->. auto.
Qed.

Lemma unscheduled_set_setting (started : Z) (key : string) (v : value) (d : Database.db) :
  key ≠ "auto_add_forced_wakeup" → key ≠ "auto_add_last_run" → key ≠ "daily_start_time" →
  unscheduled started d → unscheduled started (Database.set_setting key v d).
Proof.
  intros N1 N2 N3.
  unfold unscheduled, Database.get_setting, AdminManager.get_settings,
    Database.get_all_settings, Database.set_setting, dict_get. simpl.
  rewrite !lookup_union, !lookup_insert_ne by assumption. auto.
Qed.

Section Quiet.
Import AutoAdd.
Context {W : Type}.

Lemma occur_quiet (started : Z) (e : event) (w : world W) :
  quiet e → unscheduled started (db w) →
  ∃ w', occur e w = (Ok tt, w') ∧ unscheduled started (db w').
Proof.
  intros Hq Hun. destruct e as [key v|p|immediate at_|]; simpl in *.
  - destruct Hq as (N1 & N2 & N3). eexists. split; [reflexivity|].
    by apply unscheduled_set_setting.
  - eexists. split; [reflexivity|]. simpl.
    eapply unscheduled_same_settings; [|exact Hun].
    unfold Database.add_phone_number. by destruct (Database.has_phone p (db w)).
  - subst immediate. eexists. split; [reflexivity|]. exact Hun.
  - eexists. split; [reflexivity|]. exact Hun.
Qed.

Lemma occur_all_quiet (started : Z) (es : list event) (w : world W) :
  Forall quiet es → unscheduled started (db w) →
  ∃ w', occur_all es w = (Ok tt, w') ∧ unscheduled started (db w').
Proof.
  intros Hq. revert w. induction Hq as [|e es He _ IH]; intros w Hun; simpl.
  - eauto.
  - destruct (occur_quiet started e w He Hun) as (w1 & E1 & Hun1).
    rewrite (bind_run_Ok _ _ _ _ _ E1). by apply IH.
Qed.

(** While nothing is scheduled, the first launch of the loop comes at
    least the minimum interval after [started]. *)
Lemma run_turns_first_launch (sm : session_manager W) (started : Z)
    (turns : list turn) (w : world W) (at_ : Z) :
  Forall (λ t, Forall quiet (turn_events t)) turns →
  unscheduled started (db w) →
  first_launch (fst (run_turns sm turns w)) = Some at_ →
  started + _min_run_interval ≤ at_.
Proof.
  intros Hq. revert w. induction Hq as [|t turns Ht _ IH]; intros w Hun; simpl.
  - discriminate.
  - destruct (stop_event (sup w)); [discriminate|].
    destruct (loop_body_unscheduled sm started (turn_now t) (turn_finished t) w Hun)
      as [(timeout & w1 & E & Hdb & _)|(w1 & E & Hle)]; rewrite E.
    + assert (unscheduled started (db w1)) as Hun1 by (by rewrite Hdb).
      destruct (occur_all_quiet started (turn_events t) w1 Ht Hun1) as (w2 & E2 & Hun2).
      rewrite E2. simpl. by apply IH.
    + destruct (occur_all (turn_events t) w1) as [[[]|e] w2]; simpl;
        intros [= <-]; exact Hle.
Qed.

End Quiet.

(** C10.  [_run_loop] first records the current time [started] as the
    last-run timestamp.  If no forced wake-up is pending and no daily
    start time is configured then, and the events that occur while the
    loop sleeps neither force a wake-up nor rewrite the schedule, the
    first pass that launches a distribution cycle reads a clock that is
    at least the five-minute minimum interval after [started], although
    no run has completed before. *)
Theorem first_run_waits_for_minimum_interval {W} (sm : AutoAdd.session_manager W)
    (started : Z) (turns : list AutoAdd.turn) (w : AutoAdd.world W) (at_ : Z) :
  truthy (Database.get_setting "auto_add_forced_wakeup" VNone (AutoAdd.db w)) = false →
  truthy (dict_get (AdminManager.get_settings (AutoAdd.db w)) "daily_start_time" VNone)
  = false →
  Forall (λ t, Forall AutoAdd.quiet (AutoAdd.turn_events t)) turns →
  AutoAdd.first_launch (fst (AutoAdd._run_loop sm started turns w)) = Some at_ →
  started + timedelta 0 5 ≤ at_.
Proof.
  intros Hforced Hdaily Hq Hfirst.
  eapply run_turns_first_launch; [exact Hq| |exact Hfirst].
  simpl. split; [|split].
  - unfold Database.get_setting, Database.set_setting. simpl.
    by rewrite lookup_insert_eq.
  - revert Hforced. unfold Database.get_setting, Database.set_setting. simpl.
    by rewrite lookup_insert_ne.
  - revert Hdaily. unfold AdminManager.get_settings, Database.get_all_settings,
      Database.set_setting, dict_get. simpl.
    by rewrite !lookup_union, lookup_insert_ne.
Qed.

(** ** The claims about the quota ledger and the distribution run *)

(** C5.  For every session and calendar day the remaining quota is the
    cap minus the count, before and after an increment; an increment for
    [session] on [today] raises that count by exactly one and leaves the
    count of every other (session, day) as it was.  During a run,
    handling one entry of the queue either leaves the ledger alone or
    performs exactly one increment, for the session chosen, together
    with counting one more addition in the results. *)
Theorem quota_ledger_increment (d : Database.db) (session today : string) (cap : Z) :
  let d' := Database.increment_session_limit session today d in
  (∀ s day, Database.get_session_daily_limit s cap day d
            = cap - Database.users_added d s day)
  ∧ (∀ s day, Database.get_session_daily_limit s cap day d'
              = cap - Database.users_added d' s day)
  ∧ Database.users_added d' session today = Database.users_added d session today + 1
  ∧ (∀ s day, (s, day) ≠ (session, today) →
              Database.users_added d' s day = Database.users_added d s day)
  ∧ (∀ net admin group gi link total phone_data ls w,
       let out := SessionManager.process_phone_data net admin group gi link total
                    phone_data ls w in
       Database.session_limits (fst (snd out)) = Database.session_limits (fst w)
       ∨ ∃ nm continue ls',
           fst out = Ok (continue, ls')
           ∧ r_added (SessionManager.run_results ls')
             = r_added (SessionManager.run_results ls) + 1
           ∧ Database.session_limits (fst (snd out))
             = Database.session_limits
                 (Database.increment_session_limit nm (SessionManager.today net) (fst w))).
Proof.
  cbv zeta. split; [|split; [|split; [|split]]].
  - intros s day. apply remaining_is_cap_minus_count.
  - intros s day. apply remaining_is_cap_minus_count.
  - apply users_added_increment_same.
  - intros s day Hne. by apply users_added_increment_other.
  - intros. apply process_phone_data_ledger.
Qed.

(** C3.  When a distribution run meets a run-level failure -- no pending
    targets, no candidate session with remaining quota, no usable admin
    handle, or a failure to resolve the group through the admin handle
    -- it returns an unsuccessful result and the table of targets is
    exactly what it was before the run. *)
Theorem run_level_failure_leaves_queue (net : SessionManager.network) (group_id : value)
    (delay batch_size max_daily : Z) (invite_message : value)
    (w : Database.db * SessionManager.state) :
  no_pending_targets w
  ∨ no_candidate_sessions net group_id max_daily invite_message w
  ∨ no_admin_handle net group_id max_daily invite_message w
  ∨ group_resolution_fails net group_id max_daily invite_message w →
  let out :=
    SessionManager.add_users_to_group net group_id delay batch_size max_daily
      invite_message w in
  ∃ r, fst out = Ok r ∧ success r = false
       ∧ Database.phone_numbers (fst (snd out)) = Database.phone_numbers (fst w).
Proof.
  intros H. cbv zeta.
  assert (∃ m, fst (SessionManager.add_users_to_group net group_id delay batch_size
                      max_daily invite_message w) = Ok (RunFailure m)
               ∧ Database.phone_numbers
                   (fst (snd (SessionManager.add_users_to_group net group_id delay
                                batch_size max_daily invite_message w)))
                 = Database.phone_numbers (fst w)) as (m & Hr & Hq).
  { destruct H as [H|[H|[H|H]]].
    - by apply run_without_pending.
    - by apply run_without_candidates.
    - by apply run_without_admin.
    - by apply run_without_group. }
  exists (RunFailure m). auto.
Qed.

(** C9.  A distribution run moves targets one way.  On a table in which
    every phone names one row (the UNIQUE constraint), every row keeps
    its phone and its place; a row that was not pending is left exactly
    as it was, and a row that was pending is left as it was or ends as
    added, invited or failed.  The queue the run works on consists of
    rows whose status is pending, and the phones it hands to sessions
    are picked from that queue in order, each at most once. *)
Theorem target_status_moves_one_way (net : SessionManager.network) (group_id : value)
    (delay batch_size max_daily : Z) (invite_message : value)
    (w : Database.db * SessionManager.state) :
  NoDup (Database.phone <$> Database.phone_numbers (fst w)) →
  let out :=
    SessionManager.add_users_to_group net group_id delay batch_size max_daily
      invite_message w in
  Forall2 moved_one_way
    (Database.phone_numbers (fst w)) (Database.phone_numbers (fst (snd out)))
  ∧ Forall (λ r, Database.status r = Database.Pending)
      (Database.get_pending_phone_numbers (fst w))
  ∧ ∃ extra,
      SessionManager.journal (snd (snd out)) = SessionManager.journal (snd w) ++ extra
      ∧ sublist (fst <$> extra)
          (Database.phone <$> Database.get_pending_phone_numbers (fst w))
      ∧ NoDup (fst <$> extra).
Proof.
  intros Hnd. cbv zeta. split; [|split].
  - eapply Forall2_impl_elem;
      [apply (run_marks_pending_only net group_id delay batch_size max_daily
                invite_message w)|].
    intros r r' Hin [->|(Hphone & Hp & Hst)]; [split; [reflexivity | by left]|].
    split; [exact Hphone|]. right. split.
    + by eapply pending_phone_row.
    + destruct (Database.status r'); auto. by destruct Hst.
  - apply Forall_forall. intros r Hr.
    unfold Database.get_pending_phone_numbers in Hr.
    by apply list_elem_of_filter in Hr as [Hst _].
  - destruct (run_selects_pending_only net group_id delay batch_size max_daily
                invite_message w) as (extra & Hj & Hpick).
    exists extra. split; [exact Hj|]. split; [exact Hpick|].
    refine (sublist_NoDup _ _ _ Hpick).
    refine (sublist_NoDup _ _ Hnd _).
    apply fmap_sublist. unfold Database.get_pending_phone_numbers. apply sublist_filter.
Qed.

(** ** QR attempts *)

Section QrAttempts.
Import SessionManager.
Context (net : network).

(** Where the handle lets itself be disconnected, the cleanup closes it,
    removes the session files of the attempt and records the status. *)
Lemma cleanup_records_status (session_name : string) (c : client) (st : qr_status)
    (q : qr_session) (w : Database.db * state) :
  disconnect net c = Ok tt →
  qr_sessions (snd w) !! session_name = Some q →
  let out := _cleanup_invalid_session net session_name c st w in
  fst out = Ok tt
  ∧ status <$> qr_sessions (snd (snd out)) !! session_name = Some st
  ∧ (c ∉ connected (snd (snd out)))
  ∧ ((false, session_name) ∉ files (snd (snd out)))
  ∧ ((true, session_name) ∉ files (snd (snd out))).
Proof.
  intros Hd Hq. destruct w as [d s]. simpl in Hq.
  unfold _cleanup_invalid_session, try_except, client_disconnect, bind, answer.
  rewrite Hd. simpl. rewrite Hq. simpl.
  destruct (operation_id q); simpl; rewrite lookup_alter_eq, Hq; simpl;
    (split; [reflexivity|]); (split; [reflexivity|]).
  all: repeat split; rewrite ?elem_of_difference, ?elem_of_singleton; tauto.
Qed.

(** Where it does not, the cleanup gives up at once: nothing is changed. *)
Lemma cleanup_gives_up (session_name : string) (c : client) (st : qr_status) (e : exn)
    (w : Database.db * state) :
  disconnect net c = Raise e →
  _cleanup_invalid_session net session_name c st w = (Ok tt, w).
Proof.
  intros Hd.
  unfold _cleanup_invalid_session, try_except, client_disconnect, bind, answer.
  by rewrite Hd.
Qed.

(** The scan waiter of an attempt whose scan signal times out runs the
    cleanup with the status [expired]. *)
Lemma wait_times_out (session_name : string) (c : client) (e : exn)
    (w : Database.db * state) :
  qr_wait net c = Raise e → exn_class_of e = TimeoutError →
  _wait_for_scan net session_name c w = _cleanup_invalid_session net session_name c expired w.
Proof.
  intros Hw Hc. unfold _wait_for_scan.
  erewrite try_except_run_Raise; [|by apply bind_run_Raise; unfold answer; rewrite Hw].
  by rewrite Hc.
Qed.

(** X21. When user_sessions already maps the account of a completed QR
    login to a session, _save_valid_session refuses it: the attempt, if
    tracked, becomes 'duplicate', the new handle is disconnected, and
    the store, the registry, the identity map and the session directory
    are unchanged. *)
Lemma known_identity_is_refused (session_name : string) (c : client) (me : user)
    (existing : string) (w : Database.db * state) :
  get_me net c = Ok (Some me) →
  user_sessions (snd w) !! id me = Some existing → existing ≠ "" →
  disconnect net c = Ok tt →
  let out := _save_valid_session net session_name c w in
  fst out = Ok tt
  ∧ fst (snd out) = fst w
  ∧ sessions (snd (snd out)) = sessions (snd w)
  ∧ user_sessions (snd (snd out)) = user_sessions (snd w)
  ∧ files (snd (snd out)) = files (snd w)
  ∧ (c ∉ connected (snd (snd out)))
  ∧ status <$> qr_sessions (snd (snd out)) !! session_name
    = (λ _, duplicate) <$> qr_sessions (snd w) !! session_name.
Proof.
  intros Hme Hknown Hne Hd. destruct w as [d s]. simpl in *.
  unfold _save_valid_session, try_except, bind, answer, from_state, gets.
  rewrite Hme. simpl. rewrite Hknown.
  assert (String.eqb existing "" = false) as -> by (by apply String.eqb_neq).
  simpl. unfold client_disconnect, bind, answer. rewrite Hd. simpl.
  repeat (split; [reflexivity|]).
  split; [rewrite elem_of_difference, elem_of_singleton; tauto|].
  rewrite lookup_alter_eq. by destruct (qr_sessions s !! session_name).
Qed.

End QrAttempts.

(** ** Temporary contacts *)

Section TempContacts.
Import SessionManager.
Context (net : network).

Lemma same_contacts_on_db (f : Database.db → Database.db) : steps same_contacts (on_db f).
Proof. apply steps_modify. by intros [d s]. Qed.

Lemma same_contacts__invite_entity_to_group (c : client) (group : entity) (gi ui : Z) :
  steps same_contacts (_invite_entity_to_group net c group gi ui).
Proof. apply steps__invite_entity_to_group; relation_side. Qed.

Lemma same_contacts_try_invite (c : client) (phone : string) (link : option string) :
  steps same_contacts (try_invite net c phone link).
Proof. apply (steps_try_invite net same_contacts (λ _, True)); relation_side. Qed.

#[local] Hint Resolve same_contacts_on_db same_contacts__invite_entity_to_group
  same_contacts_try_invite : frame.

(** The part of [_process_phone_number] between the two contact
    requests leaves every contact list alone. *)
Lemma same_contacts_invite_attempt (c : client) (phone : string) (group : entity)
    (gi : Z) (link : option string) :
  steps same_contacts
    (try_except
       (let! user_entity := answer (get_entity net c (ByPhone phone)) in
        let! user_input :=
          answer (get_input_entity net c (ById (VInt (ent_id user_entity)))) in
        let! result := _invite_entity_to_group net c group gi user_input in
        if inv_result result then
          on_db (Database.mark_phone_added phone) ;;; ret "added"
        else if String.eqb (inv_type result) "UserPrivacyRestrictedError" then
          let! sent := try_invite net c phone link in
          if sent then ret "invited"
          else on_db (Database.mark_phone_failed phone) ;;;
               ret "Privacy restricted - invite failed"
        else if String.eqb (inv_type result) "UserNotMutualContactError" then
          let! sent := try_invite net c phone link in
          if sent then ret "invited"
          else on_db (Database.add_to_blacklist phone) ;;;
               on_db (Database.mark_phone_failed phone) ;;;
               ret "Not mutual contact - invite failed"
        else raise (Exn (OtherError "Exception") (inv_error result)))
       (λ add_error,
          let! sent := try_invite net c phone link in
          if sent then ret "invited"
          else
            on_db (Database.mark_phone_failed phone) ;;;
            let error_msg := lower (str_exn add_error) in
            (if contains "no user" error_msg || contains "not found" error_msg
                || contains "invalid" error_msg || contains "not mutual" error_msg
             then on_db (Database.add_to_blacklist phone)
             else ret tt) ;;;
            ret (str_exn add_error))).
Proof. frame. Qed.

(** X24. For a phone that is among the contacts fetched for the session,
    _process_phone_number changes no contact list, whatever the network
    answers. *)
Lemma present_contact_untouched (c admin : client) (phone : string) (group : entity)
    (gi : Z) (session_name : string) (link : option string) (active : gset string)
    (w : Database.db * state) :
  phone ∈ active →
  contacts (snd (snd (_process_phone_number net c admin phone group gi session_name
                        link active w)))
  = contacts (snd w).
Proof.
  intros Hin.
  assert (steps same_contacts
            (_process_phone_number net c admin phone group gi session_name link active))
    as H; [|exact (H w)].
  unfold _process_phone_number, check_user_in_contacts.
  rewrite bool_decide_eq_true_2 by exact Hin.
  apply steps_try_except; [exact _| |intros e; frame].
  apply steps_bind; [exact _|frame|]. intros contact_added.
  apply steps_bind; [exact _|frame|]. intros group_input.
  apply steps_bind; [exact _|frame|]. intros group'.
  apply steps_try_finally; [exact _|apply same_contacts_invite_attempt|].
  destruct contact_added as [[]|]; simpl; frame.
Qed.

(** X23. For a phone that is not among the fetched contacts, when the
    two contact requests and the two lookups of the group by the session
    succeed, the contact imported by _process_phone_number is deleted
    again on every outcome of the processing. *)
Lemma temp_contact_removed (c admin : client) (phone : string) (group group' : entity)
    (gi gi' u : Z) (session_name : string) (link : option string) (active : gset string)
    (w : Database.db * state) :
  phone ∉ active →
  import_contacts net c phone = Ok tt →
  get_input_entity net c (ById (VInt (ent_id group))) = Ok gi' →
  get_entity net c (ByPeer gi') = Ok group' →
  get_input_entity net c (ByPhone phone) = Ok u →
  delete_contacts net c u = Ok tt →
  phone ∉ contacts_of
            (snd (snd (_process_phone_number net c admin phone group gi session_name
                         link active w))) c.
Proof.
  intros Hnot Himport Hgi Hgroup Hu Hdelete.
  unfold _process_phone_number, check_user_in_contacts.
  rewrite bool_decide_eq_false_2 by exact Hnot. cbv iota.
  assert (∃ w1, _add_temp_contact net c phone w = (Ok true, w1)) as [w1 E1].
  { unfold _add_temp_contact, try_except, bind, answer. rewrite Himport. eauto. }
  match goal with
  | |- context [try_except ?body ?handler w] =>
      assert (∃ r w3, body w = (r, w3) ∧ phone ∉ contacts_of (snd w3) c)
        as (r & w3 & E & Hgone)
  end.
  { erewrite bind_run_Ok; [|by erewrite bind_run_Ok by exact E1].
    erewrite bind_run_Ok by (unfold answer; by rewrite Hgi).
    erewrite bind_run_Ok by (unfold answer; by rewrite Hgroup).
    unfold try_finally. simpl negb. cbv iota.
    match goal with
    | |- context [try_except ?inner ?h w1] => destruct (try_except inner h w1) as [r w2]
    end.
    assert (∃ w3, _remove_temp_contact net c phone w2 = (Ok tt, w3)
                  ∧ phone ∉ contacts_of (snd w3) c) as (w3 & E3 & Hgone).
    { destruct w2 as [d2 s2].
      unfold _remove_temp_contact, try_except, bind, answer. rewrite Hu, Hdelete.
      eexists. split; [reflexivity|]. simpl. unfold contacts_of at 1. simpl.
      rewrite lookup_insert_eq. simpl.
      intros [_ Hn]%elem_of_difference. apply Hn. by apply elem_of_singleton. }
    change (negb false) with true. cbv iota. rewrite E3. eauto. }
  destruct r as [a|e];
    [erewrite try_except_run_Ok by exact E | erewrite try_except_run_Raise by exact E];
    simpl; exact Hgone.
Qed.

End TempContacts.

(** ** The claims decided on concrete runs *)

Section Runs.
Import SessionManager Scenario.

(** C2.  Round-robin assignment.  Sessions S1, S2 and S3 have 2, 0 and 1
    additions left under the daily cap of 2; four targets are pending
    and every direct add succeeds.  The run hands the first three
    targets to S1, S3 and S1 in that order and never selects S2; the
    fourth target finds no session with quota left, is counted as
    skipped in the result and stays pending in the store.  The same
    assignment is made with batches of two, and by the batch loop
    started directly on the candidate list S1(2), S2(0), S3(1). *)
Theorem round_robin_assignment :
  let remaining nm :=
    Database.get_session_daily_limit nm 2 (today cooperative) round_robin_store in
  let run batch_size :=
    add_users_to_group cooperative (VInt group_id) 0 batch_size 2 VNone round_robin_world in
  let loop :=
    process_batches cooperative admin chat group_id (Some invite_link) 4 5 4 four_pending
      (LoopState (Results 0 0 0 4 [] 0) 0 [("S1", 2); ("S2", 0); ("S3", 1)])
      round_robin_world in
  (remaining "S1", remaining "S2", remaining "S3") = (2, 0, 1)
  ∧ fst (run 5) = Ok (RunSuccess (Results 3 0 0 4 [] 1))
  ∧ journal (snd (snd (run 5))) = [("+1001", "S1"); ("+1002", "S3"); ("+1003", "S1")]
  ∧ Database.status <$> Database.phone_numbers (fst (snd (run 5)))
    = [Database.Added; Database.Added; Database.Added; Database.Pending]
  ∧ fst (run 2) = Ok (RunSuccess (Results 3 0 0 4 [] 1))
  ∧ journal (snd (snd (run 2))) = [("+1001", "S1"); ("+1002", "S3"); ("+1003", "S1")]
  ∧ fst loop
    = Ok (LoopState (Results 3 0 0 4 [] 1) 1 [("S1", 0); ("S2", 0); ("S3", 0)])
  ∧ journal (snd (snd loop)) = [("+1001", "S1"); ("+1002", "S3"); ("+1003", "S1")].
Proof. vm_compute. repeat split. Qed.

(** C1, at the failing input.  The store and the session directory hold
    Session_A, a session of the account 7, and the process has been
    restarted, so the identity map is empty.  A QR login for the same
    account is issued and scanned: the attempt ends as [scanned], not as
    [duplicate]; a second row and a second session file are written;
    once the registry is reloaded both handles are live and both are
    authorized as the account 7. *)
Theorem second_session_for_same_identity_after_restart :
  let out := qr_login_flow before_scan cooperative "Session_B" restarted_world in
  let store := fst (snd out) in
  let st := snd (snd out) in
  Database.name <$> Database.get_sessions (fst restarted_world) = ["Session_A"]
  ∧ user_sessions (snd restarted_world) = ∅
  ∧ fst out = Ok tt
  ∧ status <$> qr_sessions st !! "Session_B" = Some scanned
  ∧ Database.name <$> Database.get_sessions store = ["Session_A"; "Session_B"]
  ∧ elements (files st) = [(false, "Session_A"); (false, "Session_B")]
  ∧ sessions st = [("Session_B", FileClient false "Session_B");
                   ("Session_A", FileClient false "Session_A")]
  ∧ get_me cooperative (FileClient false "Session_A") = Ok (Some (User 7 None None))
  ∧ get_me cooperative (FileClient false "Session_B") = Ok (Some (User 7 None None)).
Proof. vm_compute. repeat split. Qed.

(** C6, at the failing input.  An attempt is issued and is [waiting];
    its scan signal times out on a network on which closing the
    in-memory client raises.  The scan waiter returns, the attempt is
    still [waiting] and its handle is still connected. *)
Theorem attempt_stays_waiting_when_disconnect_raises :
  let issued := snd (create_auto_qr_session before_scan "Session_Q" (Database.empty, fresh)) in
  let c := MemoryClient "Session_Q" in
  let out := _wait_for_scan never_scanned_stuck "Session_Q" c issued in
  status <$> qr_sessions (snd issued) !! "Session_Q" = Some waiting
  ∧ qr_wait never_scanned_stuck c = Raise (Exn TimeoutError "")
  ∧ fst out = Ok tt
  ∧ status <$> qr_sessions (snd (snd out)) !! "Session_Q" = Some waiting
  ∧ elements (connected (snd (snd out))) = [c].
Proof. vm_compute. repeat split. Qed.

(** C8, at the failing input.  The phone +1001 is not a contact of the
    session, the import of the temporary contact succeeds, and the
    session then fails to resolve the target group.  The processing
    returns the error, the target is marked failed, and the temporary
    contact is still in the contact list. *)
Theorem temp_contact_left_when_group_lookup_raises :
  let out :=
    _process_phone_number group_unknown S1 admin "+1001" chat group_id "S1"
      (Some invite_link) ∅ one_pending_world in
  elements (contacts_of (snd one_pending_world) S1) = []
  ∧ import_contacts group_unknown S1 "+1001" = Ok tt
  ∧ fst out = Ok "Could not find the input entity"
  ∧ Database.status <$> Database.phone_numbers (fst (snd out)) = [Database.Failed]
  ∧ elements (contacts_of (snd (snd out)) S1) = ["+1001"].
Proof. vm_compute. repeat split. Qed.

End Runs.

(** ** Witnesses *)

Section Witnesses.
Import SessionManager Scenario.

(** C3 at a store with one pending target and no session at all. *)
Lemma run_level_failure_leaves_queue_witness :
  no_candidate_sessions cooperative (VInt group_id) 2 VNone one_pending_world
  ∧ ∃ r,
      fst (add_users_to_group cooperative (VInt group_id) 0 5 2 VNone one_pending_world)
      = Ok r
      ∧ success r = false
      ∧ Database.phone_numbers
          (fst (snd (add_users_to_group cooperative (VInt group_id) 0 5 2 VNone
                       one_pending_world)))
        = Database.phone_numbers (fst one_pending_world).
Proof.
  assert (no_candidate_sessions cooperative (VInt group_id) 2 VNone one_pending_world) as H.
  { eexists. vm_compute. reflexivity. }
  split; [exact H|].
  apply (run_level_failure_leaves_queue cooperative (VInt group_id) 0 5 2 VNone
           one_pending_world).
  right. left. exact H.
Defined.

(** C4 on day 19000 at 10:00 with a run at 09:05, and at noon with a
    run two minutes earlier. *)
Lemma next_run_daily_and_interval_witness :
  let ten := 19000 * usec_per_day + 10 * usec_per_hour in
  let noon := 19000 * usec_per_day + 12 * usec_per_hour in
  let daily : gmap string value := <["daily_start_time" := VStr "09:00"]> ∅ in
  let ran_0905 :=
    Database.set_setting "auto_add_last_run"
      (VIso (combine 19000 (9 * usec_per_hour + 5 * usec_per_minute))) Database.empty in
  let ran_1158 :=
    Database.set_setting "auto_add_last_run" (VIso (utc (noon - timedelta 0 2)))
      Database.empty in
  AutoAdd._calculate_next_run daily ten ran_0905
  = (Ok (combine 19001 (9 * usec_per_hour)), ran_0905)
  ∧ AutoAdd._calculate_next_run ∅ noon ran_1158
    = (Ok (utc (noon - timedelta 0 2 + timedelta 0 5)), ran_1158).
Proof.
  cbv zeta. split.
  - apply (proj1 (next_run_daily_and_interval
                    (<["daily_start_time" := VStr "09:00"]> ∅)
                    (19000 * usec_per_day + 10 * usec_per_hour)
                    (Database.set_setting "auto_add_last_run"
                       (VIso (combine 19000 (9 * usec_per_hour + 5 * usec_per_minute)))
                       Database.empty)
                    eq_refl)); reflexivity.
  - apply (proj2 (next_run_daily_and_interval ∅
                    (19000 * usec_per_day + 12 * usec_per_hour)
                    (Database.set_setting "auto_add_last_run"
                       (VIso (utc (19000 * usec_per_day + 12 * usec_per_hour
                                   - timedelta 0 2)))
                       Database.empty)
                    eq_refl)); reflexivity.
Defined.

(** C5 at an empty ledger. *)
Lemma quota_ledger_increment_witness :
  Database.get_session_daily_limit "S1" 80 "2024-05-01"
    (Database.increment_session_limit "S1" "2024-05-01" Database.empty) = 79
  ∧ Database.users_added
      (Database.increment_session_limit "S1" "2024-05-01" Database.empty)
      "S2" "2024-05-01" = 0.
Proof.
  pose proof (quota_ledger_increment Database.empty "S1" "2024-05-01" 80)
    as (_ & Hafter & Hsame & Hother & _).
  split.
  - rewrite Hafter, Hsame. reflexivity.
  - rewrite Hother; [reflexivity | discriminate].
Defined.

(** C9 on the round-robin run. *)
Lemma target_status_moves_one_way_witness :
  let out := add_users_to_group cooperative (VInt group_id) 0 5 2 VNone round_robin_world in
  NoDup (Database.phone <$> Database.phone_numbers (fst round_robin_world))
  ∧ Forall2 moved_one_way
      (Database.phone_numbers (fst round_robin_world))
      (Database.phone_numbers (fst (snd out)))
  ∧ Forall (λ r, Database.status r = Database.Pending)
      (Database.get_pending_phone_numbers (fst round_robin_world))
  ∧ ∃ extra,
      journal (snd (snd out)) = journal (snd round_robin_world) ++ extra
      ∧ sublist (fst <$> extra)
          (Database.phone <$> Database.get_pending_phone_numbers (fst round_robin_world))
      ∧ NoDup (fst <$> extra).
Proof.
  cbv zeta.
  assert (NoDup (Database.phone <$> Database.phone_numbers (fst round_robin_world))) as H.
  { refine (bool_decide_unpack _ _). vm_compute. exact I. }
  split; [exact H|].
  exact (target_status_moves_one_way cooperative (VInt group_id) 0 5 2 VNone
           round_robin_world H).
Defined.

(** C10 on a loop started at clock 0 that wakes after two, four, six
    and eight minutes: the first cycle is launched at six minutes. *)
Lemma first_run_waits_for_minimum_interval_witness :
  let turns :=
    [AutoAdd.Turn (timedelta 0 2) 0 [AutoAdd.ImportPhone "+1002"];
     AutoAdd.Turn (timedelta 0 4) 0 [AutoAdd.WakeUp false (timedelta 0 5)];
     AutoAdd.Turn (timedelta 0 6) (timedelta 0 7) [];
     AutoAdd.Turn (timedelta 0 8) 0 []] in
  AutoAdd.first_launch (fst (AutoAdd._run_loop idle_manager 0 turns enabled_world))
  = Some (timedelta 0 6)
  ∧ 0 + timedelta 0 5 ≤ timedelta 0 6.
Proof.
  cbv zeta.
  assert (AutoAdd.first_launch
            (fst (AutoAdd._run_loop idle_manager 0
                    [AutoAdd.Turn (timedelta 0 2) 0 [AutoAdd.ImportPhone "+1002"];
                     AutoAdd.Turn (timedelta 0 4) 0 [AutoAdd.WakeUp false (timedelta 0 5)];
                     AutoAdd.Turn (timedelta 0 6) (timedelta 0 7) [];
                     AutoAdd.Turn (timedelta 0 8) 0 []] enabled_world))
          = Some (timedelta 0 6)) as H by (vm_compute; reflexivity).
  split; [exact H|].
  refine (first_run_waits_for_minimum_interval idle_manager 0 _ enabled_world _ _ _ _ H).
  - reflexivity.
  - reflexivity.
  - repeat constructor.
Defined.

End Witnesses.


(** * Further properties *)

(** ** The tables of the store *)

Lemma with_phone_numbers_same (d : Database.db) :
  Database.with_phone_numbers d (Database.phone_numbers d) = d.
Proof. by destruct d. Qed.

Lemma filter_other_phones (p : string) (l : list Database.phone_row) :
  p ∉ Database.phone <$> l → filter (λ r, Database.phone r ≠ p) l = l.
Proof.
  induction l as [|r l IH]; [done|]. rewrite fmap_cons, not_elem_of_cons.
  intros [Hne Hl]. rewrite filter_cons_True by done. by rewrite IH.
Qed.

Lemma NoDup_fmap_filter {A B} (f : A → B) (P : A → Prop) `{!∀ x, Decision (P x)}
    (l : list A) :
  NoDup (f <$> l) → NoDup (f <$> filter P l).
Proof.
  intros Hnd. eapply sublist_NoDup; [exact Hnd|]. apply fmap_sublist, sublist_filter.
Qed.

Lemma mark_phone_phones (st : Database.phone_status) (p : string) (d : Database.db) :
  Database.phone <$> Database.phone_numbers (Database.mark_phone st p d)
  = Database.phone <$> Database.phone_numbers d.
Proof.
  unfold Database.mark_phone. simpl. rewrite <- list_fmap_compose.
  apply list_fmap_ext. intros _ r _. simpl. by destruct (decide _).
Qed.

(** X1. On a queue that holds each phone once, adding a phone, removing
    a phone and marking a phone leave a queue that holds each phone
    once; add_phone_number answers False exactly for a phone that is
    already queued, and then changes nothing. *)
Theorem phone_table_stays_unique (d : Database.db) (p : string)
    (st : Database.phone_status) :
  NoDup (Database.phone <$> Database.phone_numbers d) →
  NoDup (Database.phone <$> Database.phone_numbers (snd (Database.add_phone_number p d)))
  ∧ NoDup (Database.phone <$> Database.phone_numbers (snd (Database.remove_phone_number p d)))
  ∧ NoDup (Database.phone <$> Database.phone_numbers (Database.mark_phone st p d))
  ∧ (fst (Database.add_phone_number p d) = false
     ↔ p ∈ Database.phone <$> Database.phone_numbers d)
  ∧ (fst (Database.add_phone_number p d) = false
     → snd (Database.add_phone_number p d) = d).
Proof.
  intros Hnd. unfold Database.add_phone_number, Database.has_phone.
  repeat split.
  - case_bool_decide as Hp; simpl; [done|].
    rewrite fmap_app. apply NoDup_app. split; [done|]. split.
    + intros x Hx Hx'. apply list_elem_of_singleton in Hx'. simpl in Hx'. by subst.
    + apply NoDup_singleton.
  - simpl. by apply NoDup_fmap_filter.
  - by rewrite mark_phone_phones.
  - by case_bool_decide.
  - case_bool_decide; [done|]. intros H'. by simpl.
  - by case_bool_decide.
Qed.

(** X2. A phone that is not queued is accepted by add_phone_number and
    appended to the pending entries as a pending row; removing it again
    answers True and gives back the store as it was. *)
Theorem added_phone_can_be_removed_again (d : Database.db) (p : string) :
  p ∉ Database.phone <$> Database.phone_numbers d →
  fst (Database.add_phone_number p d) = true
  ∧ Database.get_pending_phone_numbers (snd (Database.add_phone_number p d))
    = Database.get_pending_phone_numbers d ++ [Database.PhoneRow p Database.Pending false]
  ∧ Database.remove_phone_number p (snd (Database.add_phone_number p d)) = (true, d).
Proof.
  intros Hp. unfold Database.add_phone_number, Database.has_phone.
  rewrite bool_decide_eq_false_2 by done. simpl. split; [done|]. split.
  - unfold Database.get_pending_phone_numbers. simpl. rewrite filter_app.
    by rewrite filter_cons_True by done.
  - unfold Database.remove_phone_number, Database.has_phone. simpl. f_equal.
    + apply bool_decide_eq_true_2. rewrite fmap_app. set_solver.
    + rewrite filter_app, filter_other_phones by done.
      rewrite filter_cons_False by (simpl; tauto). rewrite filter_nil, app_nil_r.
      unfold Database.with_phone_numbers. simpl. by destruct d.
Qed.

Lemma length_filter_unique {A B} `{!EqDecision B} (f : A → B) (x : B) (l : list A) :
  NoDup (f <$> l) → x ∈ f <$> l →
  S (length (filter (λ r, f r ≠ x) l)) = length l.
Proof.
  induction l as [|r l IH]; [by intros _ ?%elem_of_nil|].
  rewrite fmap_cons, NoDup_cons. intros [Hr Hnd] Hx.
  destruct (decide (f r = x)) as [<-|Hne].
  - rewrite filter_cons_False by tauto. simpl. f_equal.
    clear IH Hx Hnd. induction l as [|r' l IH]; [done|].
    rewrite fmap_cons, not_elem_of_cons in Hr. destruct Hr as [Hne Hr].
    rewrite filter_cons_True by done. simpl. by rewrite IH.
  - rewrite filter_cons_True by done. simpl. f_equal. apply IH; [done|].
    apply elem_of_cons in Hx as [Hx|Hx]; [congruence | done].
Qed.

(** X3. Marking a phone as added, invited or failed removes exactly the
    rows of that phone from the pending entries and keeps the others in
    order; on a queue that holds each phone once, marking a pending
    phone lowers the pending count by one. *)
Theorem marked_phone_leaves_the_queue (d : Database.db) (p : string)
    (st : Database.phone_status) :
  st ≠ Database.Pending →
  Database.get_pending_phone_numbers (Database.mark_phone st p d)
  = filter (λ r, Database.phone r ≠ p) (Database.get_pending_phone_numbers d)
  ∧ (NoDup (Database.phone <$> Database.phone_numbers d) →
     p ∈ Database.phone <$> Database.get_pending_phone_numbers d →
     Database.pending_phones (Database.mark_phone st p d) = Database.pending_phones d - 1).
Proof.
  intros Hst.
  assert (Database.get_pending_phone_numbers (Database.mark_phone st p d)
          = filter (λ r, Database.phone r ≠ p) (Database.get_pending_phone_numbers d)) as E.
  { unfold Database.get_pending_phone_numbers, Database.mark_phone. simpl.
    induction (Database.phone_numbers d) as [|r l IH]; [done|].
    rewrite fmap_cons. destruct (decide (Database.phone r = p)) as [Hp|Hp].
    - rewrite filter_cons_False by (simpl; done).
      destruct (decide (Database.status r = Database.Pending)).
      + rewrite (filter_cons_True _ r) by done. rewrite filter_cons_False by tauto. done.
      + rewrite (filter_cons_False _ r) by done. done.
    - destruct (decide (Database.status r = Database.Pending)).
      + rewrite !filter_cons_True by done. by rewrite IH.
      + rewrite !filter_cons_False by done. done. }
  split; [exact E|].
  intros Hnd Hp. unfold Database.pending_phones.
  change (filter (λ r, Database.status r = Database.Pending)
            (Database.phone_numbers (Database.mark_phone st p d)))
    with (Database.get_pending_phone_numbers (Database.mark_phone st p d)).
  change (filter (λ r, Database.status r = Database.Pending) (Database.phone_numbers d))
    with (Database.get_pending_phone_numbers d).
  rewrite E.
  pose proof (length_filter_unique Database.phone p (Database.get_pending_phone_numbers d)) as L.
  rewrite <- L; [lia| |done].
  unfold Database.get_pending_phone_numbers. by apply NoDup_fmap_filter.
Qed.






Lemma filter_other_names (nm : string) (l : list Database.session_row) :
  nm ∉ Database.name <$> l → filter (λ r, Database.name r ≠ nm) l = l.
Proof.
  induction l as [|r l IH]; [done|]. rewrite fmap_cons, not_elem_of_cons.
  intros [Hne Hl]. rewrite filter_cons_True by done. by rewrite IH.
Qed.

(** X5. On a sessions table with one row per name, create_session leaves
    one row per name, exactly one row of the given name carrying the new
    values, and every other row as it was; the row count grows by one
    only for a new name, and deleting that name afterwards gives the
    same table as deleting it before. *)
Theorem created_session_replaces_its_row (d : Database.db) (nm : string) (id : Z)
    (hash st : string) :
  NoDup (Database.name <$> Database.sessions d) →
  let d' := Database.create_session nm id hash st d in
  NoDup (Database.name <$> Database.get_sessions d')
  ∧ filter (λ r, Database.name r = nm) (Database.get_sessions d')
    = [Database.SessionRow nm st id hash]
  ∧ filter (λ r, Database.name r ≠ nm) (Database.get_sessions d')
    = filter (λ r, Database.name r ≠ nm) (Database.get_sessions d)
  ∧ Database.get_sessions_count d'
    = (if bool_decide (nm ∈ Database.name <$> Database.sessions d)
       then Database.get_sessions_count d else Database.get_sessions_count d + 1)
  ∧ Database.get_sessions (Database.delete_session nm d')
    = Database.get_sessions (Database.delete_session nm d).
Proof.
  intros Hnd. cbv zeta.
  unfold Database.create_session, Database.get_sessions, Database.get_sessions_count,
    Database.delete_session. simpl.
  set (l := Database.sessions d) in *.
  assert (filter (λ r, Database.name r = nm) (filter (λ r, Database.name r ≠ nm) l) = [])
    as Hnone.
  { induction l as [|r l IH]; [done|].
    destruct (decide (Database.name r = nm)).
    - rewrite filter_cons_False by tauto. apply IH. by apply NoDup_cons in Hnd as [_ ?].
    - rewrite filter_cons_True by done. rewrite filter_cons_False by done.
      apply IH. by apply NoDup_cons in Hnd as [_ ?]. }
  assert (filter (λ r, Database.name r ≠ nm) (filter (λ r, Database.name r ≠ nm) l)
          = filter (λ r, Database.name r ≠ nm) l) as Hsame.
  { clear Hnd Hnone. induction l as [|r l IH]; [done|].
    destruct (decide (Database.name r = nm)).
    - by rewrite filter_cons_False by tauto.
    - rewrite !filter_cons_True by done. by rewrite IH. }
  repeat split.
  - rewrite fmap_app. apply NoDup_app. split; [by apply NoDup_fmap_filter|]. split.
    + intros x Hx Hx'. apply list_elem_of_singleton in Hx'. simpl in Hx'. subst x.
      apply list_elem_of_fmap in Hx as (r & Hr & Hin).
      apply list_elem_of_filter in Hin as [Hne _]. congruence.
    + apply NoDup_singleton.
  - rewrite filter_app, Hnone. by rewrite filter_cons_True by done.
  - rewrite filter_app, Hsame. rewrite filter_cons_False by (simpl; tauto).
    by rewrite filter_nil, app_nil_r.
  - rewrite length_app. simpl. case_bool_decide as Hin.
    + pose proof (length_filter_unique Database.name nm l Hnd Hin). lia.
    + rewrite (filter_other_names nm l) by done. lia.
  - rewrite filter_app, Hsame. rewrite filter_cons_False by (simpl; tauto).
    by rewrite filter_nil, app_nil_r.
Qed.

(** X6. After update_settings(key=v), get_settings and get_setting
    return v for that key whatever the default, and every other key
    reads as before; a key that was never stored reads as its entry of
    _get_default_settings. *)
Theorem stored_setting_overrides_default (d : Database.db) (key : string) (v : value) :
  let d' := AdminManager.update_settings key v d in
  AdminManager.get_settings d' !! key = Some v
  ∧ (∀ default, Database.get_setting key default d' = v)
  ∧ (∀ k, k ≠ key →
          AdminManager.get_settings d' !! k = AdminManager.get_settings d !! k)
  ∧ (∀ k, Database.get_all_settings d !! k = None →
          AdminManager.get_settings d !! k = AdminManager._get_default_settings !! k).
Proof.
  cbv zeta. unfold AdminManager.update_settings, AdminManager.get_settings,
    Database.get_all_settings, Database.get_setting, Database.set_setting. simpl.
  repeat split.
  - apply lookup_union_Some_l. by rewrite lookup_insert_eq.
  - intros default. by rewrite lookup_insert_eq.
  - intros k Hk. by rewrite !lookup_union, lookup_insert_ne.
  - intros k Hk. by apply lookup_union_r.
Qed.

(** X7. add_operation returns an id that was unused and whose row holds
    the given type, status and description; update_operation_status on
    that id replaces the status (and the data, when data is given) of
    that row only, and an update of an id that has no row changes
    nothing. *)
Theorem operation_update_touches_one_row (d : Database.db) (ty description st : string)
    (st' : string) (data : option string) :
  let i := fst (Database.add_operation ty description st d) in
  let d1 := snd (Database.add_operation ty description st d) in
  let d2 := Database.update_operation_status i st' data d1 in
  Database.get_operation i d = None
  ∧ Database.get_operation i d1 = Some (Database.Operation ty st (Some description))
  ∧ Database.get_operation i d2
    = Some (Database.Operation ty st' (Some (default description data)))
  ∧ (∀ j, j ≠ i → Database.get_operation j d2 = Database.get_operation j d)
  ∧ (∀ j, Database.get_operation j d = None →
          Database.update_operation_status j st' data d = d).
Proof.
  cbv zeta. unfold Database.add_operation, Database.get_operation,
    Database.update_operation_status. simpl.
  set (ops := Database.operations d).
  assert ((ops ++ [Database.Operation ty st (Some description)]) !! length ops
          = Some (Database.Operation ty st (Some description))) as Hnew.
  { by rewrite lookup_app_r, Nat.sub_diag by lia. }
  repeat split.
  - apply lookup_ge_None_2. lia.
  - exact Hnew.
  - rewrite Hnew. simpl. rewrite list_lookup_insert_eq by (rewrite length_app; simpl; lia).
    by destruct data.
  - intros j Hj. rewrite Hnew. simpl. rewrite list_lookup_insert_ne by done.
    destruct (decide (j < length ops)%nat).
    + by rewrite lookup_app_l by done.
    + rewrite lookup_ge_None_2 by (rewrite length_app; simpl; lia).
      symmetry. apply lookup_ge_None_2. lia.
  - intros j Hj. fold ops in Hj. rewrite Hj. by destruct d.
Qed.


(** ** The supervisor's schedule *)

(** [_calculate_next_run] writes nothing but the forced wake-up flag,
    and only to clear it. *)
Lemma next_run_store (settings : gmap string value) (now : Z) (d : Database.db) :
  snd (AutoAdd._calculate_next_run settings now d) = d
  ∨ snd (AutoAdd._calculate_next_run settings now d)
    = Database.set_setting "auto_add_forced_wakeup" VNone d.
Proof.
  unfold AutoAdd._calculate_next_run.
  repeat (case_match; simpl; auto).
Qed.

Lemma usec_per_day_pos : 0 < usec_per_day.
Proof. unfold usec_per_day, usec_per_hour, usec_per_minute, usec_per_second. lia. Qed.

Lemma time_bounds (hour minute t : Z) :
  time hour minute = Some t → 0 ≤ t < usec_per_day.
Proof.
  unfold time. case_match eqn:E; [|discriminate]. intros [= <-].
  unfold usec_per_day, usec_per_hour, usec_per_minute, usec_per_second. lia.
Qed.

Lemma day_of_now (now : Z) :
  date (utc now) * usec_per_day ≤ now < (date (utc now) + 1) * usec_per_day.
Proof.
  unfold date, utc. simpl. pose proof usec_per_day_pos.
  pose proof (Z.div_mod now usec_per_day). pose proof (Z.mod_pos_bound now usec_per_day).
  lia.
Qed.

Lemma instant_utc (now : Z) : instant (utc now) = now.
Proof. unfold instant, utc. simpl. lia. Qed.

(** X10. Whatever the settings and the stored timestamps, a next run
    time returned by _calculate_next_run is not earlier than the clock
    reading it was computed at. *)
Theorem next_run_is_never_in_the_past (settings : gmap string value) (now : Z)
    (d : Database.db) :
  match fst (AutoAdd._calculate_next_run settings now d) with
  | Ok next_run => now ≤ instant next_run
  | Raise _ => True
  end.
Proof.
  pose proof (day_of_now now) as Hday. pose proof usec_per_day_pos as Hpos.
  unfold AutoAdd._calculate_next_run.
  destruct (truthy (Database.get_setting "auto_add_forced_wakeup" VNone d));
    [simpl; unfold instant; simpl; lia|].
  set (parsed := if truthy _ then _ else _).
  destruct parsed as [last_run|e]; [|exact I].
  destruct (truthy (dict_get settings "daily_start_time" VNone)).
  - set (parts := match dict_get settings "daily_start_time" VNone with
                  | VStr s => _ | VIso _ => _ | _ => _ end).
    destruct parts as [hm|e]; [|exact I].
    set (start_today := match hm with Some _ => _ | None => _ end).
    assert (date (utc now) * usec_per_day ≤ instant start_today
            ∧ tz start_today = Some 0) as [Hstart Htz].
    { subst start_today. destruct hm as [[hour minute]|];
        [destruct (time hour minute) as [t|] eqn:Et; [apply time_bounds in Et|]|];
        unfold instant, combine; simpl; (split; [lia|done]). }
    destruct (match last_run with Some _ => _ | None => false end); simpl.
    + unfold instant, dt_add, timedelta in *. simpl. rewrite Htz in *. simpl in *. lia.
    + destruct (dt_ge (utc now) start_today) eqn:Hge; simpl.
      * unfold instant. simpl. lia.
      * unfold dt_ge in Hge. apply Z.leb_gt in Hge. rewrite instant_utc in Hge. lia.
  - destruct last_run as [lr|]; simpl; [|unfold instant; simpl; lia].
    destruct (dt_gt _ (utc now)) eqn:Hgt.
    + unfold dt_gt in Hgt. apply Z.ltb_lt in Hgt. rewrite instant_utc in Hgt. lia.
    + unfold instant. simpl. lia.
Qed.


(** ** One pass of the supervisor's loop *)

#[local] Instance same_timing_preorder {W} : PreOrder (@same_timing W).
Proof.
  split.
  - by intros w.
  - intros w1 w2 w3 [H1 H2] [H3 H4]. split; congruence.
Qed.

Section Timing.
Import AutoAdd.
Context {W : Type} (sm : session_manager W).

Lemma steps_set_running (b : bool) : steps (@same_timing W) (set_running b).
Proof. apply steps_modify. by intros w. Qed.

Lemma steps_set_next_run (n : option datetime) : steps (@same_timing W) (set_next_run n).
Proof. apply steps_modify. by intros w. Qed.

Lemma steps_set_wake_event (b : bool) : steps (@same_timing W) (set_wake_event b).
Proof. apply steps_modify. by intros w. Qed.

Lemma steps_supervisor_on_db (f : Database.db → Database.db) :
  steps (@same_timing W) (on_db f).
Proof. apply steps_modify. by intros w. Qed.

Lemma steps_await_manager {A} (m : M (Database.db * W) A) :
  steps (@same_timing W) (await_manager m).
Proof. intros w. unfold await_manager. by destruct (m _) as [r [d k]]. Qed.

Lemma steps__execute_cycle (target : value) (settings : gmap string value) (finished : Z) :
  steps (@same_timing W) (_execute_cycle sm target settings finished).
Proof.
  unfold _execute_cycle.
  repeat first
    [ apply steps_set_running | apply steps_set_wake_event | apply steps_supervisor_on_db
    | apply steps_await_manager
    | apply steps_bind; [exact _ | | intros ?]
    | apply steps_try_finally; [exact _ | | ]
    | apply steps_try_except; [exact _ | | intros ?]
    | apply steps_ret; exact _ ].
Qed.

(** The anatomy of a pass: what it returns and what it leaves behind,
    by the settings and the schedule it reads. *)
Lemma loop_body_anatomy (now finished : Z) (w : world W) :
  let settings := AdminManager.get_settings (db w) in
  let enabled := truthy (dict_get settings "auto_add_enabled" (VBool false)) in
  let target := truthy (dict_get settings "target_group_id" VNone) in
  let pending := Database.pending_phones (db w) in
  let poll := poll_interval (sup w) * usec_per_second in
  ∃ w', same_timing w w' ∧
    match _calculate_next_run settings now (db w) with
    | (Raise e, d1) => loop_body sm now finished w = (Raise e, w') ∧ db w' = d1
    | (Ok next_run, d1) =>
        if negb enabled || negb target || (pending =? 0) then
          loop_body sm now finished w = (Ok (Waited (_wait_timeout poll)), w')
          ∧ db w' = d1
        else if dt_lt (utc now) next_run then
          loop_body sm now finished w
          = (Ok (Waited (_wait_timeout
                           (Z.min (Z.max (30 * usec_per_second)
                                         (instant next_run - instant (utc now))) poll))), w')
          ∧ db w' = d1
        else loop_body sm now finished w = (Ok (Launched now), w')
    end.
Proof.
  cbv zeta. unfold loop_body.
  erewrite bind_run_Ok by reflexivity.
  assert (∃ w0, (if wake_event (sup w) then set_wake_event false else ret tt) w
                = (Ok tt, w0)
                ∧ db w0 = db w ∧ manager w0 = manager w ∧ same_timing w w0)
    as (w0 & E0 & Hdb0 & Hm0 & Ht0).
  { destruct (wake_event (sup w)); eexists; (split; [reflexivity|]); by repeat split. }
  cbv beta. erewrite bind_run_Ok by exact E0.
  erewrite bind_run_Ok by reflexivity.
  erewrite bind_run_Ok by reflexivity.
  rewrite Hdb0.
  destruct (_calculate_next_run (AdminManager.get_settings (db w)) now (db w))
    as [[next_run|e] d1] eqn:Ecalc.
  - erewrite bind_run_Ok; cycle 1. { rewrite Hdb0, Ecalc. reflexivity. }
    erewrite bind_run_Ok by reflexivity.
    erewrite bind_run_Ok by reflexivity.
    cbv beta. destruct Ht0 as [Hpoll Hstop]. simpl. rewrite Hpoll.
    destruct (negb (truthy (dict_get _ "auto_add_enabled" _))); simpl.
    { eexists. split; [|split; reflexivity]. split; simpl; first [assumption | reflexivity]. }
    destruct (negb (truthy (dict_get _ "target_group_id" _))); simpl.
    { eexists. split; [|split; reflexivity]. split; simpl; first [assumption | reflexivity]. }
    destruct (Database.pending_phones (db w) =? 0); simpl.
    { eexists. split; [|split; reflexivity]. split; simpl; first [assumption | reflexivity]. }
    destruct (dt_lt (utc now) next_run).
    { eexists. split; [|split; reflexivity]. split; simpl; first [assumption | reflexivity]. }
    match goal with
    | |- ∃ w', _ ∧ bind (_execute_cycle sm ?t ?s finished) _ ?w1 = _ =>
        destruct (execute_cycle_exit sm t s finished w1) as (Hok & _);
        pose proof (steps__execute_cycle t s finished w1) as Hsteps;
        destruct (_execute_cycle sm t s finished w1) as [r w2] eqn:Ec
    end.
    simpl in Hok. subst r. erewrite bind_run_Ok by exact Ec.
    eexists. split; [|reflexivity].
    simpl in Hsteps. destruct Hsteps as [H1 H2]. simpl in H1, H2. split; congruence.
  - erewrite bind_run_Raise; cycle 1. { rewrite Hdb0, Ecalc. reflexivity. }
    eexists. split; [|split; reflexivity]. exact Ht0.
Qed.

End Timing.

(** ** The loop as a whole *)

Section Loop.
Import AutoAdd.
Context {W : Type} (sm : session_manager W).





End Loop.


(** ** A closed gate *)

Lemma closed_set_setting (g : gate) (key : string) (v : value) (d : Database.db) :
  key ≠ "auto_add_enabled" ∨ g ≠ Disabled →
  key ≠ "target_group_id" ∨ g ≠ NoTargetGroup →
  closed g d → closed g (Database.set_setting key v d).
Proof.
  intros H1 H2.
  destruct g; unfold closed, AdminManager.get_settings, Database.get_all_settings,
    Database.set_setting, dict_get; simpl; [| |done].
  - destruct H1 as [H1|H1]; [|done]. by rewrite !lookup_union, lookup_insert_ne.
  - destruct H2 as [H2|H2]; [|done]. by rewrite !lookup_union, lookup_insert_ne.
Qed.

Lemma closed_after_next_run (g : gate) (settings : gmap string value) (now : Z)
    (d : Database.db) :
  closed g d → closed g (snd (AutoAdd._calculate_next_run settings now d)).
Proof.
  intros H. destruct (next_run_store settings now d) as [->| ->]; [done|].
  apply closed_set_setting; auto.
Qed.

Lemma closed_only_waits (g : gate) (d : Database.db) :
  closed g d →
  negb (truthy (dict_get (AdminManager.get_settings d) "auto_add_enabled" (VBool false)))
  || negb (truthy (dict_get (AdminManager.get_settings d) "target_group_id" VNone))
  || (Database.pending_phones d =? 0) = true.
Proof.
  destruct g; simpl; intros ->; simpl; rewrite ?orb_true_r; done.
Qed.

Section Gate.
Import AutoAdd.
Context {W : Type} (sm : session_manager W) (g : gate).

Lemma occur_keeps_closed (e : event) (w : world W) :
  keeps_closed g e → closed g (db w) →
  fst (occur e w) = Ok tt ∧ closed g (db (snd (occur e w))).
Proof.
  intros Hk Hc. destruct e as [key v|p|[] at_|]; simpl; (split; [done|]); try done.
  - unfold AdminManager.update_settings.
    apply closed_set_setting; [| |done]; destruct g; simpl in Hk; auto.
  - destruct g; try done; unfold Database.add_phone_number;
      destruct (Database.has_phone p (db w)); done.
  - apply closed_set_setting; auto.
Qed.

Lemma occur_all_keeps_closed (es : list event) (w : world W) :
  Forall (keeps_closed g) es → closed g (db w) →
  fst (occur_all es w) = Ok tt ∧ closed g (db (snd (occur_all es w))).
Proof.
  revert w. induction es as [|e es IH]; intros w Hk Hc; [by split|].
  apply Forall_cons in Hk as [Hk Hks]. simpl. unfold bind.
  destruct (occur_keeps_closed e w Hk Hc) as [Hr Hc1].
  destruct (occur e w) as [[[]|x] w1]; [|discriminate]. by apply IH.
Qed.

Lemma loop_body_closed (now finished : Z) (w : world W) :
  closed g (db w) →
  (∃ e w', loop_body sm now finished w = (Raise e, w'))
  ∨ (∃ timeout w', loop_body sm now finished w = (Ok (Waited timeout), w')
                   ∧ closed g (db w')
                   ∧ stop_event (sup w') = stop_event (sup w)).
Proof.
  intros Hc.
  destruct (loop_body_anatomy sm now finished w) as (w' & [_ Hstop] & Hbody).
  cbv zeta in Hbody.
  pose proof (closed_after_next_run g (AdminManager.get_settings (db w)) now (db w) Hc)
    as Hc1.
  destruct (_calculate_next_run _ now (db w)) as [[next_run|e] d1].
  - rewrite (closed_only_waits g (db w) Hc) in Hbody. destruct Hbody as [Hbody Hdb].
    right. do 2 eexists. split; [exact Hbody|]. rewrite Hdb. by split.
  - left. destruct Hbody as [Hbody _]. eauto.
Qed.

Lemma run_turns_closed (turns : list turn) (w : world W) :
  closed g (db w) →
  Forall (λ t, Forall (keeps_closed g) (turn_events t)) turns →
  first_launch (fst (run_turns sm turns w)) = None.
Proof.
  revert w. induction turns as [|t turns IH]; intros w Hc Hk; [done|].
  apply Forall_cons in Hk as [Hk Hks]. simpl.
  destruct (stop_event (sup w)); [done|].
  destruct (loop_body_closed (turn_now t) (turn_finished t) w Hc)
    as [(e & w' & ->)|(timeout & w' & -> & Hc' & _)]; [done|].
  destruct (occur_all_keeps_closed (turn_events t) w' Hk Hc') as [Hr Hc2].
  destruct (occur_all (turn_events t) w') as [[[]|e] w2]; [|discriminate].
  simpl. by apply IH.
Qed.

End Gate.

(** X13. While auto-add is disabled, or no target group is set, or no
    phone is pending, and no event between the passes lifts that
    condition, the supervisor loop launches no cycle. *)
Theorem closed_gate_never_launches {W} (sm : AutoAdd.session_manager W) (g : gate)
    (started : Z) (turns : list AutoAdd.turn) (w : AutoAdd.world W) :
  closed g (AutoAdd.db w) →
  Forall (λ t, Forall (keeps_closed g) (AutoAdd.turn_events t)) turns →
  AutoAdd.first_launch (fst (AutoAdd._run_loop sm started turns w)) = None.
Proof.
  intros Hc Hk. unfold AutoAdd._run_loop. apply (run_turns_closed sm g); [|exact Hk].
  simpl. apply closed_set_setting; auto.
Qed.

(** X14. With auto-add enabled, a target group set and a phone pending,
    wake_up(immediate=True) makes the next pass of the loop launch a
    cycle at once, whatever the schedule; computing the next run clears
    the forced wake-up flag, and wake_up() without immediate writes
    nothing to the store. *)
Theorem forced_wakeup_launches_next_pass {W} (sm : AutoAdd.session_manager W)
    (at_ now finished : Z) (w : AutoAdd.world W) :
  let settings := AdminManager.get_settings (AutoAdd.db w) in
  truthy (dict_get settings "auto_add_enabled" (VBool false)) = true →
  truthy (dict_get settings "target_group_id" VNone) = true →
  Database.pending_phones (AutoAdd.db w) ≠ 0 →
  let woken := snd (AutoAdd.wake_up true at_ w) in
  (∃ w', AutoAdd.loop_body sm now finished woken = (Ok (AutoAdd.Launched now), w'))
  ∧ Database.get_setting "auto_add_forced_wakeup" VNone
      (snd (AutoAdd._calculate_next_run (AdminManager.get_settings (AutoAdd.db woken)) now
              (AutoAdd.db woken)))
    = VNone
  ∧ AutoAdd.db (snd (AutoAdd.wake_up false at_ w)) = AutoAdd.db w.
Proof.
  cbv zeta. intros Hen Htg Hpend.
  set (woken := snd (AutoAdd.wake_up true at_ w)).
  assert (AutoAdd.db woken
          = Database.set_setting "auto_add_forced_wakeup" (VIso (utc at_)) (AutoAdd.db w))
    as Hdb by reflexivity.
  assert (∀ settings,
            AutoAdd._calculate_next_run settings now (AutoAdd.db woken)
            = (Ok (utc now),
               Database.set_setting "auto_add_forced_wakeup" VNone (AutoAdd.db woken)))
    as Hcalc.
  { intros settings. unfold AutoAdd._calculate_next_run. rewrite Hdb.
    unfold Database.get_setting at 1. simpl. by rewrite lookup_insert_eq. }
  split; [|split].
  - destruct (loop_body_anatomy sm now finished woken) as (w' & _ & Hbody).
    cbv zeta in Hbody. rewrite Hcalc in Hbody.
    assert (∀ key default, key ≠ "auto_add_forced_wakeup" →
              dict_get (AdminManager.get_settings (AutoAdd.db woken)) key default
              = dict_get (AdminManager.get_settings (AutoAdd.db w)) key default) as Hget.
    { intros key default Hkey. rewrite Hdb.
      unfold AdminManager.get_settings, Database.get_all_settings, Database.set_setting,
        dict_get. simpl. by rewrite !lookup_union, lookup_insert_ne. }
    rewrite !Hget in Hbody by done. rewrite Hen, Htg in Hbody.
    replace (Database.pending_phones (AutoAdd.db woken))
      with (Database.pending_phones (AutoAdd.db w)) in Hbody by reflexivity.
    apply Z.eqb_neq in Hpend. rewrite Hpend in Hbody. simpl in Hbody.
    unfold dt_lt in Hbody. rewrite Z.ltb_irrefl in Hbody. eauto.
  - rewrite Hcalc. simpl. unfold Database.get_setting. simpl. by rewrite lookup_insert_eq.
  - reflexivity.
Qed.

(** X15. shutdown of a running supervisor passes on the outcome of the
    awaited task and, whether the task returned or raised, leaves
    auto_add_running and auto_add_enabled stored as False and the stop
    signal set, so that the loop makes no further pass and a loop
    started on that store launches no cycle until the setting is
    changed; shutdown without a task does nothing. *)
Theorem shutdown_disables_automation {W} (sm : AutoAdd.session_manager W)
    (outcome : res unit) (w : AutoAdd.world W) :
  let out := AutoAdd.shutdown (Some outcome) w in
  fst out = outcome
  ∧ Database.get_setting "auto_add_running" VNone (AutoAdd.db (snd out)) = VBool false
  ∧ Database.get_setting "auto_add_enabled" VNone (AutoAdd.db (snd out)) = VBool false
  ∧ (∀ turns, AutoAdd.run_turns sm turns (snd out) = ([], (Ok tt, snd out)))
  ∧ (∀ sup started turns m,
       Forall (λ t, Forall (keeps_closed Disabled) (AutoAdd.turn_events t)) turns →
       AutoAdd.first_launch
         (fst (AutoAdd._run_loop sm started turns
                 (AutoAdd.World sup (AutoAdd.db (snd out)) m))) = None)
  ∧ AutoAdd.shutdown None w = (Ok tt, w).
Proof.
  cbv zeta. unfold AutoAdd.shutdown.
  erewrite bind_run_Ok by reflexivity. erewrite bind_run_Ok by reflexivity.
  unfold try_finally, answer, bind, AutoAdd.on_db, modify. simpl.
  split; [reflexivity|]. split; [|split; [|split; [|split; [|reflexivity]]]].
  - unfold Database.get_setting, Database.set_setting. simpl.
    rewrite lookup_insert_ne by done. by rewrite lookup_insert_eq.
  - unfold Database.get_setting, Database.set_setting. simpl.
    by rewrite lookup_insert_eq.
  - intros [|t turns]; reflexivity.
  - intros sup started turns m Hk. unfold AutoAdd._run_loop.
    apply (run_turns_closed sm Disabled); [|exact Hk]. simpl.
    unfold AdminManager.get_settings, Database.get_all_settings, Database.set_setting,
      dict_get. simpl.
    rewrite lookup_union, lookup_insert_ne by done.
    by rewrite lookup_insert_eq.
Qed.

(** X16. When the refresh of the sessions and the run of
    add_users_to_group return, _execute_cycle stores the returned result
    as auto_add_last_result and the finishing time as auto_add_last_run,
    and leaves auto_add_running False, whatever the refresh of the
    member count does afterwards. *)
Theorem returned_run_is_recorded {W} (sm : AutoAdd.session_manager W)
    (target_group_id : value) (settings : gmap string value) (finished : Z)
    (w : AutoAdd.world W) (result : run_result) (w1 w2 : Database.db * W) :
  let started :=
    (Database.set_setting "auto_add_running" (VBool true) (AutoAdd.db w),
     AutoAdd.manager w) in
  AutoAdd.refresh_active_sessions sm started = (Ok tt, w1) →
  AutoAdd.add_users_to_group sm (AutoAdd.group_id_of target_group_id)
    (py_or (dict_get settings "delay_between_adds" VNone) (VInt 30))
    (py_or (dict_get settings "batch_size" VNone) (VInt 5))
    (py_or (dict_get settings "max_users_per_session" VNone) (VInt 80))
    (dict_get settings "invite_message" VNone) w1
  = (Ok result, w2) →
  let out := AutoAdd._execute_cycle sm target_group_id settings finished w in
  let stored key := Database.get_setting key VNone (AutoAdd.db (snd out)) in
  stored "auto_add_last_result" = VRun result
  ∧ stored "auto_add_last_run" = VIso (utc finished)
  ∧ stored "auto_add_running" = VBool false.
Proof.
  cbv zeta. intros E1 E2. unfold AutoAdd._execute_cycle.
  erewrite bind_run_Ok by reflexivity. erewrite bind_run_Ok by reflexivity.
  unfold try_finally.
  destruct w1 as [d1 m1]. destruct w2 as [d2 m2].
  destruct (AutoAdd.refresh_target_group_member_count sm
              (AutoAdd.group_id_of target_group_id) (d2, m2)) as [r3 [d3 m3]] eqn:E3.
  match goal with
  | |- context [try_except ?body ?handler ?s] =>
      assert (try_except body handler s
              = (Ok tt, AutoAdd.World (AutoAdd.sup s)
                          (Database.set_setting "auto_add_last_run"
                             (VIso (utc finished))
                             (Database.set_setting "auto_add_last_result"
                                (VRun result) d3)) m3))
        as ->
  end.
  { erewrite try_except_run_Ok; [reflexivity|].
    erewrite bind_run_Ok; cycle 1.
    { unfold AutoAdd.await_manager. simpl. simpl in E1. rewrite E1. reflexivity. }
    cbv zeta. erewrite bind_run_Ok; cycle 1.
    { unfold AutoAdd.await_manager. simpl. rewrite E2. reflexivity. }
    unfold bind, try_except, AutoAdd.await_manager. simpl. rewrite E3.
    destruct r3 as [[]|e]; reflexivity. }
  simpl. unfold Database.get_setting, Database.set_setting. simpl.
  rewrite !lookup_insert_ne by done. rewrite lookup_insert_eq.
  rewrite lookup_insert_ne by done. rewrite !lookup_insert_eq. done.
Qed.

(** ** The daily schedule of the administrative surface *)

Lemma two_digits_bounds (s : string) (n : Z) :
  AdminManager.two_digits s = Some n → 0 ≤ n.
Proof.
  assert (∀ c d, digit_of c = Some d → 0 ≤ d) as Hd.
  { intros c d. unfold digit_of. case_match eqn:E; [|discriminate]. intros [= <-]. lia. }
  unfold AdminManager.two_digits.
  destruct s as [|a [|b [|c s]]]; try discriminate.
  - apply Hd.
  - destruct (digit_of a) as [x|] eqn:Ea; [|discriminate].
    destruct (digit_of b) as [y|] eqn:Eb; [|discriminate].
    intros [= <-]. apply Hd in Ea, Eb. lia.
Qed.

Lemma strptime_HM_bounds (s : string) (t : Z) :
  AdminManager.strptime_HM s = Some t → 0 ≤ t < usec_per_day.
Proof.
  unfold AdminManager.strptime_HM.
  destruct (split_once ":" s) as [[h m]|]; [|discriminate].
  destruct (AdminManager.two_digits h) as [hour|] eqn:Eh; [|discriminate].
  destruct (AdminManager.two_digits m) as [minute|] eqn:Em; [|discriminate].
  apply two_digits_bounds in Eh, Em.
  case_match eqn:E; [|discriminate]. intros [= <-].
  unfold usec_per_day, usec_per_hour, usec_per_minute, usec_per_second. lia.
Qed.

(** X9. get_next_run_time returns None only when no daily start time is
    stored, raises only when one is stored, and a time it returns is
    strictly after now and at most one day later; hence
    should_run_auto_add, read on one clock, answers True only during the
    30 seconds before the daily start time, never after it. *)
Theorem next_daily_run_is_within_a_day (now : Z) (d : Database.db) :
  match AdminManager.get_next_run_time now d with
  | Ok (Some next_run) => now < wall next_run ≤ now + usec_per_day
  | Ok None => truthy (Database.get_setting "daily_start_time" VNone d) = false
  | Raise _ => truthy (Database.get_setting "daily_start_time" VNone d) = true
  end
  ∧ match AdminManager.should_run_auto_add now now d with
    | Ok true =>
        ∃ next_run, AdminManager.get_next_run_time now d = Ok (Some next_run)
                    ∧ 0 < wall next_run - now < 30 * usec_per_second
    | _ => True
    end.
Proof.
  assert (match AdminManager.get_next_run_time now d with
          | Ok (Some next_run) => now < wall next_run ≤ now + usec_per_day
          | Ok None => truthy (Database.get_setting "daily_start_time" VNone d) = false
          | Raise _ => truthy (Database.get_setting "daily_start_time" VNone d) = true
          end) as H.
  { unfold AdminManager.get_next_run_time.
    destruct (truthy (Database.get_setting "daily_start_time" VNone d)) eqn:Et; [|done].
    simpl.
    set (parsed := match Database.get_setting "daily_start_time" VNone d with
                   | VStr s => _ | VIso _ => _ | _ => _ end).
    assert (∀ t, parsed = Ok t → 0 ≤ t < usec_per_day) as Hp.
    { intros t. subst parsed. destruct (Database.get_setting _ _ d); try discriminate.
      destruct (AdminManager.strptime_HM s) eqn:Es; [|discriminate].
      intros [= <-]. by apply strptime_HM_bounds in Es. }
    destruct parsed as [t|e]; [|done]. specialize (Hp t eq_refl).
    pose proof (day_of_now now) as Hday. unfold date, utc in Hday. simpl in Hday.
    destruct (_ <=? now) eqn:Hle; simpl in *.
    - apply Z.leb_le in Hle. unfold timedelta. lia.
    - apply Z.leb_gt in Hle. lia. }
  split; [exact H|].
  unfold AdminManager.should_run_auto_add.
  destruct (negb _); [done|].
  destruct (AdminManager.get_next_run_time now d) as [[next_run|]|e]; try done.
  destruct (_ <? _) eqn:Hlt; [|done].
  exists next_run. split; [done|]. apply Z.ltb_lt in Hlt. lia.
Qed.


(** ** The rotation over the candidate sessions *)

Section Rotation.
Import SessionManager.

Lemma select_session_from (available : list (string * Z)) (session_index j todo : nat) :
  match select_session available session_index j todo with
  | Some (idx, name, remaining) =>
      available !! idx = Some (name, remaining) ∧ 0 < remaining
      ∧ ∃ k, (j ≤ k < j + todo)%nat
             ∧ idx = ((session_index + k) `mod` length available)%nat
             ∧ ∀ k', (j ≤ k' < k)%nat →
                 ∃ e, available !! ((session_index + k') `mod` length available)%nat
                      = Some e ∧ snd e ≤ 0
  | None =>
      available = [] ∨ todo = O
      ∨ ∀ k, (j ≤ k < j + todo)%nat →
          ∃ e, available !! ((session_index + k) `mod` length available)%nat = Some e
               ∧ snd e ≤ 0
  end.
Proof.
  revert j. induction todo as [|todo IH]; intros j; simpl; [auto|].
  destruct (available !! ((session_index + j) `mod` length available)%nat)
    as [[name remaining]|] eqn:E.
  - destruct (0 <? remaining) eqn:Hpos.
    + split; [exact E|]. split; [lia|]. exists j. split; [lia|]. split; [done|].
      intros k' Hk'. lia.
    + specialize (IH (S j)).
      destruct (select_session available session_index (S j) todo) as [[[idx nm] rem]|].
      * destruct IH as (H1 & H2 & k & Hk & Hidx & Hbefore).
        split; [exact H1|]. split; [exact H2|]. exists k. split; [lia|]. split; [exact Hidx|].
        intros k' Hk'. destruct (decide (k' = j)) as [->|Hne].
        -- exists (name, remaining). split; [exact E|]. simpl. lia.
        -- apply Hbefore. lia.
      * right. right. intros k Hk. destruct (decide (k = j)) as [->|Hne].
        -- exists (name, remaining). split; [exact E|]. simpl. lia.
        -- destruct IH as [->|[->|IH]].
           ++ simpl in E. discriminate.
           ++ lia.
           ++ apply IH. lia.
  - left. apply lookup_ge_None in E.
    destruct available as [|a l]; [done|].
    pose proof (Nat.mod_upper_bound (session_index + j) (length (a :: l))) as Hb.
    simpl in *. lia.
Qed.

(** X17. The selection loop of a run picks the first candidate session
    with quota left, searching cyclically from the current index; it
    finds none exactly when every candidate has used up its quota. *)
Theorem rotation_picks_next_session_with_quota (available : list (string * Z))
    (session_index : nat) :
  match select_session available session_index 0 (length available) with
  | Some (idx, name, remaining) =>
      available !! idx = Some (name, remaining) ∧ 0 < remaining
      ∧ ∃ k, (k < length available)%nat
             ∧ idx = ((session_index + k) `mod` length available)%nat
             ∧ ∀ k', (k' < k)%nat →
                 ∃ e, available !! ((session_index + k') `mod` length available)%nat
                      = Some e ∧ snd e ≤ 0
  | None => Forall (λ e, snd e ≤ 0) available
  end.
Proof.
  pose proof (select_session_from available session_index 0 (length available)) as H.
  destruct (select_session available session_index 0 (length available))
    as [[[idx name] remaining]|].
  - destruct H as (H1 & H2 & k & Hk & Hidx & Hbefore).
    split; [exact H1|]. split; [exact H2|]. exists k. split; [lia|]. split; [exact Hidx|].
    intros k' Hk'. apply Hbefore. lia.
  - destruct H as [->|[H|H]]; [constructor| |].
    + destruct available; [constructor | discriminate].
    + apply Forall_lookup. intros i e Hi.
      pose proof (lookup_lt_Some _ _ _ Hi) as Hlt.
      set (n := length available) in *.
      set (k := ((i + n - session_index `mod` n) `mod` n)%nat).
      assert (((session_index + k) `mod` n)%nat = i) as Hk.
      { subst k.
        pose proof (Nat.mod_upper_bound session_index n ltac:(lia)) as Hs.
        rewrite <- (Nat.Div0.add_mod_idemp_l session_index).
        rewrite Nat.Div0.add_mod_idemp_r.
        replace (session_index `mod` n + (i + n - session_index `mod` n))%nat
          with (i + 1 * n)%nat by lia.
        rewrite Nat.Div0.mod_add. apply Nat.mod_small. lia. }
      destruct (H k) as (e' & He' & Hle).
      { split; [lia|]. apply Nat.mod_upper_bound. lia. }
      rewrite Hk in He'. congruence.
Qed.

End Rotation.

(** ** Computations that never raise *)

Section Returns.
Context {S : Type}.

Lemma returns_ret {A} (a : A) : returns (ret (S := S) a).
Proof. intros s. by do 2 eexists. Qed.

Lemma returns_gets {A} (f : S → A) : returns (gets f).
Proof. intros s. by do 2 eexists. Qed.

Lemma returns_get : returns (get (S := S)).
Proof. intros s. by do 2 eexists. Qed.

Lemma returns_modify (f : S → S) : returns (modify f).
Proof. intros s. by do 2 eexists. Qed.

Lemma returns_bind {A B} (m : M S A) (k : A → M S B) :
  returns m → (∀ a, returns (k a)) → returns (bind m k).
Proof.
  intros Hm Hk s. destruct (Hm s) as (a & s1 & E). unfold bind. rewrite E. apply Hk.
Qed.

(** A [try] whose handler never raises never raises. *)
Lemma returns_try_except {A} (body : M S A) (handler : exn → M S A) :
  (∀ e, returns (handler e)) → returns (try_except body handler).
Proof.
  intros Hh s. unfold try_except. destruct (body s) as [[a|e] s1]; [by do 2 eexists|].
  apply Hh.
Qed.

End Returns.

Create HintDb returns.

Ltac returns_step :=
  match goal with
  | |- returns (bind _ _) => apply returns_bind; [|intros ?]
  | |- returns (try_except _ _) => apply returns_try_except; intros ?
  | |- returns (ret _) => apply returns_ret
  | |- returns (gets _) => apply returns_gets
  | |- returns get => apply returns_get
  | |- returns (modify _) => apply returns_modify
  | |- returns (SessionManager.from_db _) => apply returns_gets
  | |- returns (SessionManager.from_state _) => apply returns_gets
  | |- returns (SessionManager.on_db _) => apply returns_modify
  | |- returns (SessionManager.on_state _) => apply returns_modify
  | |- returns (let _ := _ in _) => cbv zeta
  | |- returns (if ?b then _ else _) => destruct b
  | |- returns (match ?x with _ => _ end) => destruct x
  | |- returns _ => solve [eauto with returns]
  end.

Ltac never_raises := repeat returns_step.

Section EntryPoints.
Import SessionManager.
Context (net : network).

Lemma returns_add_operation (ty description st : string) :
  returns (add_operation ty description st).
Proof. intros w. unfold add_operation. destruct (Database.add_operation _ _ _ _). eauto. Qed.
#[local] Hint Resolve returns_add_operation : returns.

Lemma returns_is_connected (c : client) : returns (is_connected c).
Proof. unfold is_connected. never_raises. Qed.
#[local] Hint Resolve returns_is_connected : returns.

Lemma returns_set_qr_status (nm : string) (st : qr_status) : returns (set_qr_status nm st).
Proof. unfold set_qr_status. never_raises. Qed.
#[local] Hint Resolve returns_set_qr_status : returns.

Lemma returns_forget_attempt (nm : string) : returns (forget_attempt nm).
Proof. unfold forget_attempt. never_raises. Qed.
#[local] Hint Resolve returns_forget_attempt : returns.

Lemma returns_complete_operation (op : option nat) (st : string) (data : option string) :
  returns (complete_operation op st data).
Proof. unfold complete_operation. never_raises. Qed.
#[local] Hint Resolve returns_complete_operation : returns.

Lemma returns__cleanup_invalid_session (nm : string) (c : client) (st : qr_status) :
  returns (_cleanup_invalid_session net nm c st).
Proof. unfold _cleanup_invalid_session. never_raises. Qed.
#[local] Hint Resolve returns__cleanup_invalid_session : returns.

Lemma returns_load_sessions (rows : list Database.session_row) :
  returns (load_sessions net rows).
Proof.
  induction rows as [|r rows IH]; simpl; [never_raises|].
  apply returns_bind; [|intros _; exact IH].
  unfold load_session. never_raises.
Qed.
#[local] Hint Resolve returns_load_sessions : returns.

Lemma returns__load_all_sessions : returns (_load_all_sessions net).
Proof. unfold _load_all_sessions. never_raises. Qed.
#[local] Hint Resolve returns__load_all_sessions : returns.

Lemma returns_get_admin_session_client : returns (get_admin_session_client net).
Proof. unfold get_admin_session_client. never_raises. Qed.
#[local] Hint Resolve returns_get_admin_session_client : returns.

Lemma returns_collect_available (max_daily : Z) (l : list (string * client)) :
  returns (collect_available net max_daily l).
Proof.
  induction l as [|[nm c] l IH]; simpl; [never_raises|].
  apply returns_bind; [never_raises|]. intros mine.
  apply returns_bind; [exact IH|]. intros rest. never_raises.
Qed.
#[local] Hint Resolve returns_collect_available : returns.

Lemma returns_admin_as_user (max_daily : Z) : returns (admin_as_user net max_daily).
Proof. unfold admin_as_user. never_raises. Qed.
#[local] Hint Resolve returns_admin_as_user : returns.

Lemma returns_candidate_sessions (max_daily : Z) :
  returns (candidate_sessions net max_daily).
Proof. unfold candidate_sessions. never_raises. Qed.
#[local] Hint Resolve returns_candidate_sessions : returns.

Lemma returns_no_admin_message : returns no_admin_message.
Proof. unfold no_admin_message. never_raises. Qed.
#[local] Hint Resolve returns_no_admin_message : returns.

Lemma returns_begin_run (group_id invite_message : value) :
  returns (begin_run group_id invite_message).
Proof. unfold begin_run. never_raises. Qed.
#[local] Hint Resolve returns_begin_run : returns.

Lemma returns_add_users_to_group (group_id : value) (delay batch_size max_daily : Z)
    (invite_message : value) :
  returns (add_users_to_group net group_id delay batch_size max_daily invite_message).
Proof. unfold add_users_to_group. never_raises. Qed.

Lemma returns__process_phone_number (c admin : client) (phone : string) (group : entity)
    (gi : Z) (session_name : string) (link : option string) (active : gset string) :
  returns (_process_phone_number net c admin phone group gi session_name link active).
Proof. unfold _process_phone_number. never_raises. Qed.

Lemma returns__remove_invalid_session (nm : string) :
  returns (_remove_invalid_session net nm).
Proof. unfold _remove_invalid_session. never_raises. Qed.
#[local] Hint Resolve returns__remove_invalid_session : returns.

Lemma returns_refresh_active_sessions : returns (refresh_active_sessions net).
Proof. unfold refresh_active_sessions. never_raises. Qed.

Lemma returns__wait_for_scan (nm : string) (c : client) : returns (_wait_for_scan net nm c).
Proof. unfold _wait_for_scan. never_raises. Qed.

Lemma returns_create_auto_qr_session (nm : string) :
  returns (create_auto_qr_session net nm).
Proof. unfold create_auto_qr_session. never_raises. Qed.

(** X20. Whatever the client library answers or raises,
    add_users_to_group, _process_phone_number, refresh_active_sessions,
    _wait_for_scan and create_auto_qr_session return a value: no
    exception of the network (nor the TypeError of the logger call in
    _save_valid_session) leaves them. *)
Theorem manager_coroutines_never_raise :
  (∀ group_id delay batch_size max_daily invite_message,
     returns (add_users_to_group net group_id delay batch_size max_daily invite_message))
  ∧ (∀ c admin phone group gi session_name link active,
       returns (_process_phone_number net c admin phone group gi session_name link
                  active))
  ∧ returns (refresh_active_sessions net)
  ∧ (∀ nm c, returns (_wait_for_scan net nm c))
  ∧ (∀ nm, returns (create_auto_qr_session net nm)).
Proof.
  split; [intros; apply returns_add_users_to_group|].
  split; [intros; apply returns__process_phone_number|].
  split; [apply returns_refresh_active_sessions|].
  split; [intros; apply returns__wait_for_scan | intros; apply returns_create_auto_qr_session].
Qed.

End EntryPoints.

(** ** One entry of the queue *)

Section Entry.
Import SessionManager.
Context (net : network).

(** [record_outcome] never raises. *)
Lemma record_outcome_returns (outcome phone nm : string) (idx : nat) (remaining : Z)
    (ls : loop_state) (w : Database.db * state) :
  ∃ ls' w', record_outcome net outcome phone nm idx remaining ls w = (Ok ls', w').
Proof.
  unfold record_outcome.
  destruct (String.eqb outcome "added"); [by do 2 eexists|].
  destruct (String.eqb outcome "already_member"); [by do 2 eexists|].
  destruct (String.eqb outcome "invited"); by do 2 eexists.
Qed.

(** The anatomy of [process_phone_data]: an entry without a number is
    counted as failed; an entry for which the rotation finds no session
    ends the batch; otherwise the entry is handed to the session chosen,
    and the outcome of its processing, reached without touching the
    ledger, is recorded. *)
Lemma process_phone_data_anatomy (admin : client) (group : entity) (gi : Z)
    (link : option string) (total : Z) (phone_data : Database.phone_row)
    (ls : loop_state) (w : Database.db * state) :
  let r := run_results ls in
  let run := process_phone_data net admin group gi link total phone_data ls w in
  (run = (Ok (true, LoopState (Results (r_added r) (r_failed r + 1) (r_invited r)
                                 (r_total r) (r_errors r) (r_skipped r))
                       (session_index ls) (available_sessions ls)), w))
  ∨ (select_session (available_sessions ls) (session_index ls) 0
       (length (available_sessions ls)) = None
     ∧ run = (Ok (false, LoopState (Results (r_added r) (r_failed r) (r_invited r)
                                      (r_total r) (r_errors r) (total - processed r))
                           (session_index ls) (available_sessions ls)), w))
  ∨ ∃ idx nm remaining,
      select_session (available_sessions ls) (session_index ls) 0
        (length (available_sessions ls)) = Some (idx, nm, remaining)
      ∧ ((∃ e w', run = (Raise e, w') ∧ same_ledger w w')
         ∨ ∃ outcome w3 ls' w4,
             same_ledger w w3
             ∧ record_outcome net outcome (Database.phone phone_data) nm idx remaining
                 (LoopState r (S idx) (available_sessions ls)) w3 = (Ok ls', w4)
             ∧ run = (Ok (true, ls'), w4)).
Proof.
  cbv zeta.
  remember (process_phone_data net admin group gi link total phone_data ls w) as run
    eqn:Hrun.
  unfold process_phone_data in Hrun.
  destruct (String.eqb _ _); [by left|].
  destruct (select_session _ _ _ _) as [[[idx nm] remaining]|] eqn:Es;
    [|right; left; by split].
  right. right. exists idx, nm, remaining. split; [reflexivity|].
  unfold bind at 1, from_state, gets in Hrun. cbn beta iota in Hrun.
  destruct (dict_lookup nm (sessions w.2)) as [c|];
    [|left; do 2 eexists; split; [exact Hrun | done]].
  unfold bind at 1, on_state, modify in Hrun. cbn beta iota in Hrun.
  set (w1 := (w.1, with_journal w.2 (journal w.2 ++ [(Database.phone phone_data, nm)])))
    in Hrun.
  assert (same_ledger w w1) as L1 by reflexivity.
  pose proof (same_ledger_get_active_contact_lists net c w1) as L2.
  unfold bind at 1 in Hrun. unfold same_ledger in *.
  destruct (get_active_contact_lists net c w1) as [[phone_set|e] w2]; simpl in L2;
    [|left; do 2 eexists; split; [exact Hrun | simpl; congruence]].
  pose proof (same_ledger__process_phone_number net c admin (Database.phone phone_data)
                group gi nm link phone_set w2) as L3.
  unfold bind at 1 in Hrun. unfold same_ledger in *.
  destruct (_process_phone_number net c admin _ group gi nm link phone_set w2)
    as [[outcome|e] w3]; simpl in L3;
    [|left; do 2 eexists; split; [exact Hrun | simpl; congruence]].
  right.
  destruct (record_outcome_returns outcome (Database.phone phone_data) nm idx remaining
              (LoopState (run_results ls) (S idx) (available_sessions ls)) w3)
    as (ls' & w4 & E4).
  exists outcome, w3, ls', w4. split; [congruence|]. split; [exact E4|].
  unfold bind in Hrun. by rewrite E4 in Hrun.
Qed.

(** ** Invariants of the batch loop *)

Section LoopInvariant.
Context (admin : client) (group : entity) (gi : Z) (link : option string) (total : Z).
(** [I left ls w]: the invariant when [left] entries of the queue are
    still to be visited; [E] is what holds if the loop is left by an
    exception. *)
Context (I : nat → loop_state → Database.db * state → Prop).
Context (E : Database.db * state → Prop).
Hypothesis I_weaken : ∀ left ls w, I (S left) ls w → I left ls w.
Hypothesis I_step : ∀ left phone_data ls w,
  I (S left) ls w →
  match process_phone_data net admin group gi link total phone_data ls w with
  | (Ok (_, ls'), w') => I left ls' w'
  | (Raise _, w') => E w'
  end.

Lemma I_weaken_many (n left : nat) (ls : loop_state) (w : Database.db * state) :
  I (n + left) ls w → I left ls w.
Proof. induction n as [|n IH]; [done|]. intros H. apply IH, I_weaken. exact H. Qed.

Lemma process_batch_invariant (batch : list Database.phone_row) (left : nat)
    (ls : loop_state) (w : Database.db * state) :
  I (length batch + left) ls w →
  match process_batch net admin group gi link total batch ls w with
  | (Ok ls', w') => I left ls' w'
  | (Raise _, w') => E w'
  end.
Proof.
  revert ls w. induction batch as [|phone_data batch IH]; intros ls w HI; simpl; [exact HI|].
  simpl in HI. pose proof (I_step _ phone_data ls w HI) as Hs.
  unfold bind.
  destruct (process_phone_data net admin group gi link total phone_data ls w)
    as [[[continue ls']|e] w']; [|exact Hs].
  destruct continue; simpl; [by apply IH|].
  by apply (I_weaken_many (length batch)).
Qed.

Lemma process_batches_invariant (batch_size todo : nat) (pending : list Database.phone_row)
    (ls : loop_state) (w : Database.db * state) :
  I (length pending) ls w →
  match process_batches net admin group gi link total batch_size todo pending ls w with
  | (Ok ls', w') => I 0 ls' w'
  | (Raise _, w') => E w'
  end.
Proof.
  revert pending ls w. induction todo as [|todo IH]; intros pending ls w HI; simpl.
  - apply (I_weaken_many (length pending) 0). by rewrite Nat.add_0_r.
  - destruct pending as [|phone_data pending]; [exact HI|].
    set (queue := phone_data :: pending) in *.
    assert (I (length (take batch_size queue) + length (drop batch_size queue)) ls w) as HI'.
    { rewrite <- length_app, take_drop. exact HI. }
    pose proof (process_batch_invariant _ _ ls w HI') as Hb.
    unfold bind.
    destruct (process_batch net admin group gi link total (take batch_size queue) ls w)
      as [[ls'|e] w']; [|exact Hb].
    by apply IH.
Qed.

End LoopInvariant.

End Entry.

(** ** The counters of a run *)

Section Counters.
Import SessionManager.
Context (net : network).

Lemma counted_step (admin : client) (group : entity) (gi : Z) (link : option string)
    (total : Z) (left : nat) (phone_data : Database.phone_row) (ls : loop_state)
    (w : Database.db * state) :
  counted total (S left) (run_results ls) →
  match process_phone_data net admin group gi link total phone_data ls w with
  | (Ok (_, ls'), w') => counted total left (run_results ls')
  | (Raise _, w') => True
  end.
Proof.
  intros (Ht & Ha & Hf & Hi & Hp & He & Hs). unfold processed in Hp.
  destruct (process_phone_data_anatomy net admin group gi link total phone_data ls w)
    as [->|[[_ ->]|(idx & nm & remaining & _ & [(e & w' & -> & _)|
         (outcome & w3 & ls' & w4 & _ & Er & ->)])]]; [| |exact I|].
  - unfold counted, processed. simpl. repeat split; lia.
  - unfold counted, processed. simpl. repeat split; lia.
  - unfold record_outcome in Er.
    destruct (String.eqb outcome "added");
      [|destruct (String.eqb outcome "already_member");
        [|destruct (String.eqb outcome "invited")]];
      injection Er as <- _; unfold counted, processed; simpl;
      rewrite ?length_app; simpl; repeat split; lia.
Qed.

Lemma counted_weaken (total : Z) (left : nat) (r : results) :
  counted total (S left) r → counted total left r.
Proof. unfold counted. intros (Ht & Ha & Hf & Hi & Hp & He & Hs). repeat split; lia. Qed.

(** X18. In the result of a run that reports success, total is the
    number of entries that were pending at the start, added + failed +
    invited is at most total, the counters are not negative, at most one
    error text is kept per failed entry, and skipped lies between 0 and
    total. *)
Theorem run_counters_add_up (group_id : value) (delay batch_size max_daily : Z)
    (invite_message : value) (w : Database.db * state) (r : results) :
  fst (add_users_to_group net group_id delay batch_size max_daily invite_message w)
  = Ok (RunSuccess r) →
  counted (Z.of_nat (length (Database.get_pending_phone_numbers (fst w)))) 0 r.
Proof.
  intros H. unfold add_users_to_group in H.
  destruct (begin_run_returns group_id invite_message w) as (op & w0 & E0).
  unfold bind at 1 in H. rewrite E0 in H. cbn beta iota zeta in H. simpl fst in H.
  simpl snd in H.
  destruct (Database.get_pending_phone_numbers (fst w)) as [|row rest];
    [discriminate|].
  set (pending := row :: rest) in *.
  destruct (returns_candidate_sessions net max_daily w0) as (available & w1 & E1).
  unfold bind at 1 in H. rewrite E1 in H. cbn beta iota in H.
  destruct available as [|a others].
  { unfold bind, from_state, gets, on_db, modify, ret in H. simpl in H.
    destruct (length (sessions w1.2)); discriminate. }
  set (available := a :: others) in *.
  destruct (returns_get_admin_session_client net w1) as (admin & w2 & E2).
  unfold bind at 1 in H. rewrite E2 in H. cbn beta iota in H.
  destruct admin as [admin|]; [|].
  2:{ destruct (returns_no_admin_message w2) as (msg & w3 & E3).
      unfold bind at 1 in H. rewrite E3 in H. discriminate. }
  cbv zeta in H. unfold bind at 1, try_except at 1 in H.
  match type of H with
  | context [match ?body w2 with _ => _ end] =>
      destruct (body w2) as [[outcome|e] w3] eqn:Eb
  end; [|discriminate].
  apply bind_Ok_inv in Eb as (resolved & w4 & _ & Eb).
  apply bind_Ok_inv in Eb as ([] & w5 & _ & Eb).
  apply bind_Ok_inv in Eb as (link & w6 & _ & Eb).
  apply bind_Ok_inv in Eb as (ls' & w7 & Eloop & Eret).
  injection Eret as <- _. simpl in H.
  assert (r = run_results ls') as -> by (simpl in H; congruence).
  set (total := Z.of_nat (length pending)) in *.
  assert (counted total (length pending) (Results 0 0 0 total [] 0)) as Hinit.
  { subst total pending. unfold counted, processed. simpl. repeat split; lia. }
  destruct (batch_size =? 0); [discriminate|].
  destruct (batch_size <? 0).
  - injection Eloop as <- _. simpl.
    subst total pending. unfold counted, processed. simpl. repeat split; lia.
  - pose proof (process_batches_invariant net admin (snd resolved) (fst resolved) link total
                  (λ left ls _, counted total left (run_results ls)) (λ _, True)
                  (λ left ls _, counted_weaken total left (run_results ls))
                  (λ left phone_data ls w,
                     counted_step admin (snd resolved) (fst resolved) link total left
                       phone_data ls w)
                  (Z.to_nat batch_size) (length pending) pending
                  (LoopState (Results 0 0 0 total [] 0) 0 available) w6 Hinit) as Hb.
    rewrite Eloop in Hb. exact Hb.
Qed.

End Counters.

(** ** The daily cap *)

Section Cap.
Import SessionManager.
Context (net : network).

Lemma dict_set_keys {A} (k : string) (v : A) (l : list (string * A)) :
  NoDup (fst <$> l) → NoDup (fst <$> dict_set k v l)
  ∧ ∀ x, x ∈ fst <$> dict_set k v l ↔ x = k ∨ x ∈ fst <$> l.
Proof.
  induction l as [|[k' v'] l IH]; simpl.
  - intros _. split; [apply NoDup_singleton|]. intros x.
    rewrite list_elem_of_singleton, elem_of_nil. tauto.
  - rewrite NoDup_cons. intros [Hk' Hnd]. destruct (IH Hnd) as [IH1 IH2].
    destruct (decide (k' = k)) as [->|Hne]; simpl.
    + split; [by apply NoDup_cons|]. intros x. rewrite !elem_of_cons. tauto.
    + split.
      * apply NoDup_cons. split; [|exact IH1]. rewrite IH2. intros [?|?]; [congruence | done].
      * intros x. rewrite !elem_of_cons, IH2. tauto.
Qed.

(** Loading sessions writes nothing to the store and keeps the names of
    the registry distinct. *)
Lemma load_session_registry (row : Database.session_row) (w : Database.db * state) :
  fst (snd (load_session net row w)) = fst w
  ∧ (NoDup (fst <$> sessions (snd w)) →
     NoDup (fst <$> sessions (snd (snd (load_session net row w))))).
Proof.
  destruct w as [d s]. unfold load_session, bind, from_state, gets. simpl.
  destruct (_ && _ && _); [|by split].
  unfold try_except, client_connect, client_disconnect, bind, answer, on_state, modify.
  simpl.
  destruct (connect net _) as [[]|e]; simpl; [|by split].
  destruct (is_user_authorized net _) as [[]|e]; simpl; [| |by split].
  - split; [done|]. intros Hnd. by apply dict_set_keys.
  - destruct (disconnect net _) as [[]|e]; simpl; by split.
Qed.

Lemma load_sessions_registry (rows : list Database.session_row) (w : Database.db * state) :
  fst (snd (load_sessions net rows w)) = fst w
  ∧ (NoDup (fst <$> sessions (snd w)) →
     NoDup (fst <$> sessions (snd (snd (load_sessions net rows w))))).
Proof.
  revert w. induction rows as [|row rows IH]; intros w; [by split|].
  simpl. unfold bind.
  destruct (load_session_registry row w) as [H1 H2].
  destruct (load_session net row w) as [[[]|e] w1]; simpl in *; [|by split].
  destruct (IH w1) as [H3 H4]. split; [congruence | auto].
Qed.

(** The candidates collected from the registry: their names are names
    of the registry, in its order, and the quota listed for each is the
    cap minus today's count; the store is not written. *)
Lemma collect_available_spec (cap : Z) (l : list (string * client))
    (w : Database.db * state) :
  ∃ users w',
    collect_available net cap l w = (Ok users, w')
    ∧ fst w' = fst w
    ∧ sessions (snd w') = sessions (snd w)
    ∧ sublist (fst <$> users) (fst <$> l)
    ∧ Forall (λ e, snd e = cap - Database.users_added (fst w) (fst e) (today net)) users.
Proof.
  revert w. induction l as [|[nm c] l IH]; intros w.
  { do 2 eexists. split; [reflexivity|]. repeat split; [done|constructor]. }
  simpl. unfold bind at 1.
  match goal with
  | |- context [try_except ?body ?handler w] =>
      assert (∃ mine w1, try_except body handler w = (Ok mine, w1)
                ∧ fst w1 = fst w ∧ sessions (snd w1) = sessions (snd w)
                ∧ (mine = []
                   ∨ mine = [(nm, cap - Database.users_added (fst w) nm (today net))]))
        as (mine & w1 & -> & Hdb & Hreg & Hmine)
  end.
  { destruct w as [d s].
    unfold try_except, bind, is_connected, client_connect, answer, from_state, from_db,
      gets, on_state, modify. simpl.
    destruct (bool_decide (c ∈ connected s)) eqn:Hup; simpl.
    - rewrite Hup. simpl.
      destruct (is_user_authorized net c) as [[]|e]; simpl.
      + rewrite remaining_is_cap_minus_count.
        destruct (0 <? _); do 2 eexists; (split; [reflexivity|]); repeat split; auto.
      + do 2 eexists. split; [reflexivity|]. repeat split; auto.
      + do 2 eexists. split; [reflexivity|]. repeat split; auto.
    - destruct (connect net c) as [[]|e]; simpl.
      + destruct (bool_decide (c ∈ {[c]} ∪ connected s)); simpl.
        * destruct (is_user_authorized net c) as [[]|e]; simpl.
          -- rewrite remaining_is_cap_minus_count.
             destruct (0 <? _); do 2 eexists; (split; [reflexivity|]); repeat split; auto.
          -- do 2 eexists. split; [reflexivity|]. repeat split; auto.
          -- do 2 eexists. split; [reflexivity|]. repeat split; auto.
        * do 2 eexists. split; [reflexivity|]. repeat split; auto.
      + do 2 eexists. split; [reflexivity|]. repeat split; auto. }
  destruct (IH w1) as (rest & w2 & E2 & Hdb2 & Hreg2 & Hsub & Hall).
  unfold bind. rewrite E2. do 2 eexists. split; [reflexivity|].
  split; [congruence|]. split; [congruence|]. split.
  - destruct Hmine as [->| ->]; simpl; [by apply sublist_cons | by apply sublist_skip].
  - rewrite Hdb in Hall. apply Forall_app. split; [|exact Hall].
    destruct Hmine as [->| ->]; repeat constructor.
Qed.

End Cap.

Section CapRun.
Import SessionManager.
Context (net : network) (cap : Z) (d0 : Database.db).

Lemma within_cap_same_ledger (d d' : Database.db) :
  Database.session_limits d' = Database.session_limits d →
  within_cap cap (today net) d0 d → within_cap cap (today net) d0 d'.
Proof. intros E H nm day. unfold Database.users_added in *. rewrite E. apply H. Qed.

Lemma tracks_same_ledger (available : list (string * Z)) (d d' : Database.db) :
  Database.session_limits d' = Database.session_limits d →
  tracks_ledger cap (today net) available d → tracks_ledger cap (today net) available d'.
Proof.
  intros E [H1 H2]. split; [exact H1|]. unfold Database.users_added in *. by rewrite E.
Qed.

Lemma within_cap_refl : within_cap cap (today net) d0 d0.
Proof. intros nm day. by left. Qed.

(** Counting one addition for a session whose tracked quota is positive
    keeps the ledger within the cap and the candidate list in step. *)
Lemma cap_after_increment (available : list (string * Z)) (idx : nat) (nm : string)
    (remaining : Z) (d : Database.db) :
  available !! idx = Some (nm, remaining) → 0 < remaining →
  within_cap cap (today net) d0 d →
  tracks_ledger cap (today net) available d →
  within_cap cap (today net) d0 (Database.increment_session_limit nm (today net) d)
  ∧ tracks_ledger cap (today net) (<[idx := (nm, remaining - 1)]> available)
      (Database.increment_session_limit nm (today net) d).
Proof.
  intros Hidx Hpos Hw [Hnd Hall].
  pose proof (Forall_lookup_1 _ _ _ _ Hall Hidx) as Hrem. cbn [fst snd] in Hrem.
  split.
  - intros nm' day. destruct (decide ((nm', day) = (nm, today net))) as [[= -> ->]|Hne].
    + rewrite users_added_increment_same. right. split; [done|].
      destruct (Hw nm (today net)) as [E|[_ H]]; lia.
    + rewrite users_added_increment_other by done. apply Hw.
  - split.
    + rewrite list_fmap_insert. simpl. rewrite list_insert_id; [done|].
      by rewrite list_lookup_fmap, Hidx.
    + apply Forall_lookup. intros j e Hj.
      destruct (decide (j = idx)) as [->|Hne].
      * rewrite list_lookup_insert_eq in Hj by (by eapply lookup_lt_Some).
        injection Hj as <-. cbn [fst snd]. rewrite users_added_increment_same. lia.
      * rewrite list_lookup_insert_ne in Hj by done.
        pose proof (Forall_lookup_1 _ _ _ _ Hall Hj) as He.
        assert (fst e ≠ nm) as Hname.
        { intros Heq. apply Hne.
          eapply (NoDup_lookup (fst <$> available)); [exact Hnd| |].
          - by rewrite list_lookup_fmap, Hj.
          - rewrite list_lookup_fmap, Hidx. simpl. by rewrite Heq. }
        rewrite users_added_increment_other by congruence. exact He.
Qed.

Lemma cap_step (admin : client) (group : entity) (gi : Z) (link : option string)
    (total : Z) (phone_data : Database.phone_row) (ls : loop_state)
    (w : Database.db * state) :
  within_cap cap (today net) d0 (fst w)
  ∧ tracks_ledger cap (today net) (available_sessions ls) (fst w) →
  match process_phone_data net admin group gi link total phone_data ls w with
  | (Ok (_, ls'), w') =>
      within_cap cap (today net) d0 (fst w')
      ∧ tracks_ledger cap (today net) (available_sessions ls') (fst w')
  | (Raise _, w') => within_cap cap (today net) d0 (fst w')
  end.
Proof.
  intros [Hw Ht].
  destruct (process_phone_data_anatomy net admin group gi link total phone_data ls w)
    as [->|[[_ ->]|(idx & nm & remaining & Es & [(e & w' & -> & L)|
         (outcome & w3 & ls' & w4 & L & Er & ->)])]]; [by split|by split| |].
  - by apply (within_cap_same_ledger (fst w)).
  - pose proof (select_session_from (available_sessions ls) (session_index ls) 0
                  (length (available_sessions ls))) as Hsel.
    rewrite Es in Hsel. destruct Hsel as (Hidx & Hpos & _).
    apply (within_cap_same_ledger _ _ L) in Hw.
    apply (tracks_same_ledger _ _ _ L) in Ht.
    unfold record_outcome in Er.
    destruct (String.eqb outcome "added").
    + injection Er as <- <-. simpl.
      destruct (cap_after_increment _ _ _ _ _ Hidx Hpos Hw Ht) as [H1 H2].
      split.
      * eapply within_cap_same_ledger; [|exact H1]. reflexivity.
      * eapply tracks_same_ledger; [|exact H2]. reflexivity.
    + destruct (String.eqb outcome "already_member");
        [|destruct (String.eqb outcome "invited")];
        injection Er as <- <-; simpl; split;
        first [ by eapply within_cap_same_ledger; [|exact Hw]
              | by eapply tracks_same_ledger; [|exact Ht] ].
Qed.

End CapRun.

Section CapTheorem.
Import SessionManager.
Context (net : network).

Lemma same_ledger_state (d : Database.db) (s s' : state) :
  journal s' = journal s → contacts s' = contacts s → same_ledger (d, s) (d, s').
Proof. reflexivity. Qed.

Lemma same_ledger_db (d d' : Database.db) (s : state) :
  Database.phone_numbers d' = Database.phone_numbers d →
  Database.session_limits d' = Database.session_limits d →
  same_ledger (d, s) (d', s).
Proof. intros _ E. exact E. Qed.

(** What [begin_run] leaves as it was. *)
Lemma begin_run_effect (group_id invite_message : value) (w : Database.db * state) :
  ∃ op w0,
    begin_run group_id invite_message w
    = (Ok (op, Database.get_pending_phone_numbers (fst w)), w0)
    ∧ snd w0 = snd w
    ∧ Database.session_limits (fst w0) = Database.session_limits (fst w)
    ∧ Database.sessions (fst w0) = Database.sessions (fst w)
    ∧ Database.get_setting "use_admin_as_user" (VBool false) (fst w0)
      = Database.get_setting "use_admin_as_user" (VBool false) (fst w).
Proof.
  destruct w as [d s]. unfold begin_run, bind, add_operation. simpl.
  destruct (truthy invite_message); simpl; do 2 eexists; (split; [reflexivity|]);
    repeat split.
  unfold Database.get_setting, Database.set_invite_message, Database.set_setting. simpl.
  by rewrite lookup_insert_ne.
Qed.

(** The candidates of a run for which the admin session does not double
    as a user session agree with the ledger. *)
Lemma candidate_sessions_track_ledger (cap : Z) (w : Database.db * state) :
  NoDup (fst <$> sessions (snd w)) →
  truthy (Database.get_setting "use_admin_as_user" (VBool false) (fst w)) = false →
  ∃ available w1,
    candidate_sessions net cap w = (Ok available, w1)
    ∧ fst w1 = fst w
    ∧ tracks_ledger cap (today net) available (fst w1).
Proof.
  intros Hnd Hadmin. unfold candidate_sessions, _load_all_sessions.
  unfold bind at 1. unfold bind at 1, from_db, gets. cbn beta iota.
  destruct (load_sessions_registry net (Database.get_sessions (fst w)) w) as [Hdb Hkeys].
  destruct (returns_load_sessions net (Database.get_sessions (fst w)) w) as ([] & wl & El).
  rewrite El in *. simpl in Hdb, Hkeys. cbn beta iota.
  unfold bind at 1, from_state, gets. cbn beta iota.
  destruct (collect_available_spec net cap (sessions (snd wl)) wl)
    as (users & wc & Ec & Hdbc & _ & Hsub & Hall).
  unfold bind at 1. rewrite Ec. cbn beta iota.
  unfold admin_as_user, bind, from_db, gets. cbn beta iota.
  rewrite Hdbc, Hdb, Hadmin. do 2 eexists. split; [reflexivity|]. simpl.
  split; [congruence|]. rewrite app_nil_r. split.
  - eapply sublist_NoDup; [|exact Hsub]. auto.
  - rewrite Hdbc. eapply Forall_impl; [exact Hall|]. intros e He. simpl in He. lia.
Qed.

(** X19. With distinct names in the registry and use_admin_as_user off,
    a run of add_users_to_group, whatever the network answers, changes
    the ledger of daily additions only by raising counts of today, and
    every count it raises is at most max_daily_per_session afterwards. *)
Theorem run_keeps_sessions_within_daily_cap (group_id : value)
    (delay batch_size max_daily : Z) (invite_message : value) (w : Database.db * state) :
  NoDup (fst <$> sessions (snd w)) →
  truthy (Database.get_setting "use_admin_as_user" (VBool false) (fst w)) = false →
  within_cap max_daily (today net) (fst w)
    (fst (snd (add_users_to_group net group_id delay batch_size max_daily invite_message w))).
Proof.
  intros Hnd Hadmin. unfold add_users_to_group.
  destruct (begin_run_effect group_id invite_message w)
    as (op & w0 & E0 & Hs0 & Hl0 & _ & Ha0).
  unfold bind at 1. rewrite E0. cbn beta iota zeta. simpl fst. simpl snd.
  assert (within_cap max_daily (today net) (fst w) (fst w0)) as H0.
  { eapply within_cap_same_ledger; [exact Hl0 | apply within_cap_refl]. }
  destruct (Database.get_pending_phone_numbers (fst w)) as [|row rest]; [exact H0|].
  set (pending := row :: rest).
  destruct (candidate_sessions_track_ledger max_daily w0) as (available & w1 & E1 & Hdb1 & Ht1).
  { by rewrite Hs0. }
  { by rewrite Ha0. }
  unfold bind at 1. rewrite E1. cbn beta iota.
  assert (within_cap max_daily (today net) (fst w) (fst w1)) as H1 by (by rewrite Hdb1).
  destruct available as [|a others].
  { unfold bind, from_state, gets, on_db, modify, ret. simpl.
    eapply within_cap_same_ledger; [|exact H1]. reflexivity. }
  set (available := a :: others) in *.
  pose proof (steps_get_admin_session_client net same_ledger same_ledger_state w1) as L2.
  destruct (returns_get_admin_session_client net w1) as (admin & w2 & E2).
  rewrite E2 in L2. simpl in L2. unfold bind at 1. rewrite E2. cbn beta iota.
  assert (within_cap max_daily (today net) (fst w) (fst w2)) as H2.
  { eapply within_cap_same_ledger; [exact L2 | exact H1]. }
  assert (tracks_ledger max_daily (today net) available (fst w2)) as Ht2.
  { eapply tracks_same_ledger; [exact L2 | exact Ht1]. }
  destruct admin as [admin|].
  2:{ destruct (returns_no_admin_message w2) as (msg & w3 & E3).
      pose proof (steps_no_admin_message same_ledger w2) as L3. rewrite E3 in L3.
      unfold bind at 1. rewrite E3. simpl.
      eapply within_cap_same_ledger; [|exact H2]. exact L3. }
  cbv zeta.
  match goal with
  | |- within_cap _ _ _ (fst (snd (bind (try_except ?body ?handler) ?k w2))) =>
      assert (within_cap max_daily (today net) (fst w) (fst (snd (body w2)))) as Hbody;
      [|unfold bind at 1, try_except at 1;
        destruct (body w2) as [[[msg|r]|e] w3]; simpl in Hbody;
        (eapply within_cap_same_ledger; [|exact Hbody]); reflexivity]
  end.
  pose proof (steps_resolve_group net same_ledger admin group_id w2) as L4.
  unfold bind at 1.
  destruct (resolve_group net admin group_id w2) as [[resolved|e] w4]; simpl in L4;
    [|simpl; eapply within_cap_same_ledger; [exact L4 | exact H2]].
  cbv zeta. unfold _ensure_sessions_in_group. unfold bind at 1, ret at 1. cbn beta iota.
  pose proof (steps__create_invite_link net same_ledger admin (snd resolved) (fst resolved) w4)
    as L5.
  unfold bind at 1.
  destruct (_create_invite_link net admin (snd resolved) (fst resolved) w4)
    as [[link|e] w5]; simpl in L5;
    [|simpl; eapply within_cap_same_ledger; [|exact H2]; unfold same_ledger in *; congruence].
  assert (within_cap max_daily (today net) (fst w) (fst w5)) as H5.
  { eapply within_cap_same_ledger; [|exact H2]. unfold same_ledger in *. congruence. }
  assert (tracks_ledger max_daily (today net) available (fst w5)) as Ht5.
  { eapply tracks_same_ledger; [|exact Ht2]. unfold same_ledger in *. congruence. }
  unfold bind at 1.
  destruct (batch_size =? 0); [exact H5|].
  destruct (batch_size <? 0); [exact H5|].
  set (total := Z.of_nat (length pending)).
  pose proof (process_batches_invariant net admin (snd resolved) (fst resolved) link total
                (λ _ ls w', within_cap max_daily (today net) (fst w) (fst w')
                            ∧ tracks_ledger max_daily (today net)
                                (available_sessions ls) (fst w'))
                (λ w', within_cap max_daily (today net) (fst w) (fst w'))
                (λ _ _ _ H, H)
                (λ _ phone_data ls w',
                   cap_step net max_daily (fst w) admin (snd resolved) (fst resolved) link
                     total phone_data ls w')
                (Z.to_nat batch_size) (length pending) pending
                (LoopState (Results 0 0 0 total [] 0) 0 available) w5 (conj H5 Ht5)) as Hloop.
  destruct (process_batches net admin (snd resolved) (fst resolved) link total
              (Z.to_nat batch_size) (length pending) pending _ w5) as [[ls'|e] w6];
    simpl; [exact (proj1 Hloop) | exact Hloop].
Qed.

End CapTheorem.

(** ** Importing phone numbers *)

Section PhoneImport.
Import SessionManager.

Lemma phone_table_rows (d : Database.db) (p : string) :
  NoDup (Database.phone <$> Database.phone_numbers d) →
  NoDup (Database.phone <$> Database.phone_numbers (snd (Database.add_phone_number p d)))
  ∧ (if fst (Database.add_phone_number p d)
     then (p ∉ Database.phone <$> Database.phone_numbers d)
          ∧ Database.phone_numbers (snd (Database.add_phone_number p d))
            = Database.phone_numbers d ++ [Database.PhoneRow p Database.Pending false]
     else p ∈ Database.phone <$> Database.phone_numbers d
          ∧ snd (Database.add_phone_number p d) = d).
Proof.
  intros Hnd. unfold Database.add_phone_number, Database.has_phone.
  case_bool_decide as Hp; simpl; [by split|].
  split; [|by split].
  rewrite fmap_app. apply NoDup_app. split; [done|]. split; [|apply NoDup_singleton].
  intros x Hx Hx'. apply list_elem_of_singleton in Hx'. simpl in Hx'. by subst.
Qed.

Lemma import_loop_spec (l : list string) (added : Z) (d : Database.db) :
  NoDup (Database.phone <$> Database.phone_numbers d) →
  ∃ new,
    Database.phone_numbers (snd (import_loop added l d)) = Database.phone_numbers d ++ new
    ∧ fst (import_loop added l d) = added + Z.of_nat (length new)
    ∧ (length new ≤ length l)%nat
    ∧ NoDup (Database.phone <$> Database.phone_numbers (snd (import_loop added l d)))
    ∧ Forall (λ r, Database.status r = Database.Pending
                   ∧ ∃ p, p ∈ l ∧ Database.phone r = str_strip p) new
    ∧ (∀ p, p ∈ l →
            str_strip p
            ∈ Database.phone <$> Database.phone_numbers (snd (import_loop added l d))).
Proof.
  revert added d. induction l as [|phone l IH]; intros added d Hnd; simpl.
  - exists []. rewrite app_nil_r. split; [done|]. split; [simpl; lia|].
    split; [done|]. split; [done|]. split; [constructor|]. by intros p ?%elem_of_nil.
  - pose proof (phone_table_rows d (str_strip phone) Hnd) as [Hnd1 Hcase].
    destruct (Database.add_phone_number (str_strip phone) d) as [[] d1];
      simpl in Hnd1, Hcase; destruct Hcase as [Hin1 Hrows1].
    + destruct (IH (added + 1) d1 Hnd1) as (new & Hrows & Hcount & Hlen & Hnd2 & Hnew & Hin).
      exists (Database.PhoneRow (str_strip phone) Database.Pending false :: new).
      split; [by rewrite Hrows, Hrows1, <- app_assoc|].
      split; [rewrite Hcount; simpl; lia|]. split; [simpl; lia|].
      split; [exact Hnd2|]. split.
      * constructor; [split; [done|]; exists phone; split; [by left | done]|].
        eapply Forall_impl; [exact Hnew|]. intros r (H1 & p & Hp & Hr).
        split; [done|]. exists p. split; [by right | done].
      * intros p [->|Hp]%elem_of_cons; [|by apply Hin].
        rewrite Hrows, Hrows1, !fmap_app. simpl.
        apply elem_of_app. left. apply elem_of_app. right. by left.
    + subst d1.
      destruct (IH added d Hnd) as (new & Hrows & Hcount & Hlen & Hnd2 & Hnew & Hin).
      exists new. split; [done|]. split; [done|]. split; [simpl; lia|].
      split; [done|]. split.
      * eapply Forall_impl; [exact Hnew|]. intros r (H1 & p & Hp & Hr).
        split; [done|]. exists p. split; [by right | done].
      * intros p [->|Hp]%elem_of_cons; [|by apply Hin].
        rewrite Hrows, fmap_app. apply elem_of_app. by left.
Qed.

(** X8. On a queue that holds each phone once, import_phone_numbers
    returns the number of rows it appended, between 0 and the length of
    its input: the queue grows by exactly that many pending rows, each
    the stripped form of an input entry, still holds each phone once,
    and afterwards contains the stripped form of every input entry. *)
Theorem import_counts_the_new_numbers (l : list string) (d : Database.db) :
  NoDup (Database.phone <$> Database.phone_numbers d) →
  let added := fst (import_phone_numbers l d) in
  let d' := snd (import_phone_numbers l d) in
  NoDup (Database.phone <$> Database.phone_numbers d')
  ∧ Database.get_phone_numbers_count d' = Database.get_phone_numbers_count d + added
  ∧ 0 ≤ added ≤ Z.of_nat (length l)
  ∧ (∃ new, Database.phone_numbers d' = Database.phone_numbers d ++ new
            ∧ Forall (λ r, Database.status r = Database.Pending
                           ∧ ∃ p, p ∈ l ∧ Database.phone r = str_strip p) new)
  ∧ (∀ p, p ∈ l → str_strip p ∈ Database.phone <$> Database.phone_numbers d').
Proof.
  intros Hnd. cbv zeta. unfold import_phone_numbers.
  destruct (import_loop_spec l 0 d Hnd) as (new & Hrows & Hcount & Hlen & Hnd2 & Hnew & Hin).
  split; [exact Hnd2|]. split; [|split; [|split; [|exact Hin]]].
  - unfold Database.get_phone_numbers_count. rewrite Hrows, length_app, Hcount. lia.
  - rewrite Hcount. lia.
  - exists new. by split.
Qed.

End PhoneImport.


(** ** Removing sessions *)

#[local] Instance only_connections_preorder : PreOrder only_connections.
Proof.
  split.
  - intros [d s]. split; [done|]. by destruct s.
  - intros [d1 s1] [d2 s2] [d3 s3] [H1 H2] [H3 H4]. simpl in *. subst.
    split; [done|]. rewrite H4, H2. by destruct s1.
Qed.

#[local] Instance same_traces_preorder : PreOrder same_traces.
Proof.
  split.
  - by intros w.
  - intros w1 w2 w3 (H1 & H2 & H3) (H4 & H5 & H6). repeat split; congruence.
Qed.

Section Dicts.
Import SessionManager.

Lemma dict_lookup_del {A} (k k' : string) (l : list (string * A)) :
  dict_lookup k' (dict_del k l) = if decide (k' = k) then None else dict_lookup k' l.
Proof.
  unfold dict_del. induction l as [|[n v] l IH]; simpl; [by destruct (decide _)|].
  destruct (decide (n = k)) as [->|Hn].
  - rewrite filter_cons_False by (simpl; tauto). rewrite IH.
    destruct (decide (k' = k)) as [->|Hk]; [done|].
    by rewrite decide_False by congruence.
  - rewrite filter_cons_True by done. simpl. rewrite IH.
    destruct (decide (n = k')) as [->|Hk]; [by rewrite decide_False by done|done].
Qed.

Lemma dict_del_absent {A} (k : string) (l : list (string * A)) :
  dict_lookup k l = None → dict_del k l = l.
Proof.
  unfold dict_del. induction l as [|[n v] l IH]; simpl; [done|].
  destruct (decide (n = k)) as [->|Hn]; [done|]. intros H.
  rewrite filter_cons_True by done. by rewrite IH.
Qed.

Lemma filter_all {A} (P : A → Prop) `{!∀ x, Decision (P x)} (l : list A) :
  (∀ x, P x) → filter P l = l.
Proof.
  intros HP. induction l as [|x l IH]; [done|].
  rewrite filter_cons_True by done. by rewrite IH.
Qed.

End Dicts.

Section Removal.
Import SessionManager.
Context (net : network) (log_out : client → res bool).

#[local] Hint Extern 1 (steps same_traces (on_state _)) =>
  apply steps_modify; intros [? ?]; done : frame.

Lemma same_traces_client_disconnect (c : client) :
  steps same_traces (client_disconnect net c).
Proof. unfold client_disconnect. frame. Qed.

Lemma same_traces_client_log_out (c : client) :
  steps same_traces (client_log_out log_out c).
Proof. unfold client_log_out. frame. Qed.

Lemma same_traces_forget_attempt (nm : string) : steps same_traces (forget_attempt nm).
Proof. unfold forget_attempt. frame. Qed.

#[local] Hint Resolve same_traces_client_disconnect same_traces_client_log_out
  same_traces_forget_attempt : frame.

(** The last step of the guarded part of [remove_session]: where it
    returns, the attempt of that name is forgotten. *)
Lemma attempt_forgotten (nm : string) (w w' : Database.db * state) (b : bool) :
  (let! attempt := from_state (λ s, qr_sessions s !! nm) in
   (match attempt with
    | Some session_data =>
        (match held_client session_data with
         | Some c => try_except (client_log_out log_out c) (λ _, client_disconnect net c)
         | None => ret tt
         end) ;;;
        forget_attempt nm
    | None => ret tt
    end) ;;;
   ret true) w = (Ok b, w') →
  b = true ∧ qr_sessions (snd w') !! nm = None.
Proof.
  destruct w as [d s]. unfold from_state. unfold bind at 1. unfold gets at 1. simpl.
  destruct (qr_sessions s !! nm) as [q|] eqn:Hq.
  - intros (a & w1 & E1 & E2)%bind_Ok_inv. injection E2 as <- <-.
    apply bind_Ok_inv in E1 as (a' & w2 & E1 & E2).
    unfold forget_attempt, on_state, modify in E2. injection E2 as _ <-.
    split; [done|]. simpl. by rewrite lookup_delete_eq.
  - unfold bind, ret. simpl. intros [= <- <-]. by split.
Qed.

(** What [remove_session] leaves, whatever happens in its guarded part. *)
Lemma remove_session_effect (nm : string) (w : Database.db * state) :
  ∃ success w',
    remove_session net log_out nm w = (Ok success, w')
    ∧ fst w' = Database.delete_session nm (fst w)
    ∧ sessions (snd w') = dict_del nm (sessions (snd w))
    ∧ files (snd w') = files (snd w) ∖ {[ (false, nm) ]} ∖ {[ (true, nm) ]}
    ∧ (success = true → qr_sessions (snd w') !! nm = None).
Proof.
  unfold remove_session.
  match goal with
  | |- context [try_except ?body ?handler] =>
      assert (∃ r w1, body w = (r, w1)
                ∧ fst w1 = fst w
                ∧ sessions (snd w1) = dict_del nm (sessions (snd w))
                ∧ files (snd w1) = files (snd w)
                ∧ (∀ b, r = Ok b → b = true ∧ qr_sessions (snd w1) !! nm = None))
        as (r & w1 & E & Hd & Hs & Hf & Hq)
  end.
  { destruct w as [d s].
    erewrite bind_run_Ok by reflexivity. erewrite bind_run_Ok by reflexivity.
    cbv beta. simpl snd.
    match goal with
    | |- context [bind ?m ?k (d, s)] =>
        assert (∃ cl s1, m (d, s) = (Ok cl, (d, s1))
                         ∧ sessions s1 = dict_del nm (sessions s)
                         ∧ files s1 = files s) as (cl & s1 & E1 & Hs1 & Hf1)
    end.
    { destruct (dict_lookup nm (sessions s)) as [c|] eqn:Hu.
      - by eexists _, _.
      - destruct (admin_sessions s !! nm) as [c|];
          (eexists _, _; split; [reflexivity|]; simpl; split; [|done]);
          by rewrite dict_del_absent. }
    erewrite bind_run_Ok by exact E1. cbv beta.
    match goal with
    | |- ∃ r w1, ?m ?w0 = _ ∧ _ =>
        assert (steps same_traces m) as Hsteps;
          [|specialize (Hsteps w0); destruct (m w0) as [r w1] eqn:E]
    end.
    { frame. }
    exists r, w1. split; [done|]. destruct Hsteps as (H1 & H2 & H3). simpl in *.
    split; [done|]. split; [congruence|]. split; [congruence|].
    intros b ->.
    apply bind_Ok_inv in E as (u & w2 & _ & E). cbv beta in E.
    apply bind_Ok_inv in E as (u' & w3 & _ & E). cbv beta in E.
    by apply attempt_forgotten in E. }
  destruct w1 as [d1 s1]. simpl in Hd, Hs, Hf, Hq. subst d1.
  destruct r as [b|e].
  - erewrite (bind_run_Ok _ _ w (fst w, s1) b) by (by apply try_except_run_Ok).
    eexists _, _. split; [reflexivity|]. simpl. rewrite Hs, Hf.
    do 3 (split; [done|]). intros ->. by destruct (Hq true).
  - erewrite (bind_run_Ok _ _ w (fst w, s1) false)
      by (by erewrite try_except_run_Raise by exact E).
    eexists _, _. split; [reflexivity|]. simpl. rewrite Hs, Hf.
    do 3 (split; [done|]). discriminate.
Qed.

(** X26. Whatever the client library answers, remove_session(name)
    returns a flag and afterwards the registry has no entry, the store
    no row and neither directory a file of that name, while entries,
    rows and files of other names are as before; a True flag means that
    the login attempt of that name is forgotten too. *)
Theorem remove_session_clears_every_trace (nm : string) (w : Database.db * state) :
  let out := remove_session net log_out nm w in
  let d' := fst (snd out) in
  let s' := snd (snd out) in
  (∃ success, fst out = Ok success ∧ (success = true → qr_sessions s' !! nm = None))
  ∧ dict_lookup nm (sessions s') = None
  ∧ (nm ∉ Database.name <$> Database.get_sessions d')
  ∧ ((false, nm) ∉ files s') ∧ ((true, nm) ∉ files s')
  ∧ (∀ n, n ≠ nm →
       dict_lookup n (sessions s') = dict_lookup n (sessions (snd w))
       ∧ filter (λ r, Database.name r = n) (Database.get_sessions d')
         = filter (λ r, Database.name r = n) (Database.get_sessions (fst w))
       ∧ ∀ b, (b, n) ∈ files s' ↔ (b, n) ∈ files (snd w)).
Proof.
  cbv zeta.
  destruct (remove_session_effect nm w) as (success & w' & E & Hd & Hs & Hf & Hq).
  rewrite E. simpl. rewrite Hd, Hs, Hf.
  split; [by exists success|].
  split; [by rewrite dict_lookup_del, decide_True|].
  split.
  { unfold Database.get_sessions, Database.delete_session. simpl.
    intros (r0 & Hr & Hin)%list_elem_of_fmap.
    apply list_elem_of_filter in Hin as [Hne _]. congruence. }
  split; [rewrite !elem_of_difference, !elem_of_singleton; intuition congruence|].
  split; [rewrite !elem_of_difference, !elem_of_singleton; intuition congruence|].
  intros n Hn. split; [by rewrite dict_lookup_del, decide_False|]. split.
  - unfold Database.get_sessions, Database.delete_session. simpl.
    rewrite list_filter_filter.
    apply list_filter_iff. intros r0. simpl. intuition congruence.
  - intros b. rewrite !elem_of_difference, !elem_of_singleton. intuition congruence.
Qed.

(** The loop of [remove_all_sessions]: the names that do not start with
    [Admin_] are removed. *)
Lemma remove_sessions_effect (names : list string) (w : Database.db * state) :
  ∃ w',
    remove_sessions net log_out names w = (Ok tt, w')
    ∧ sessions (snd w')
      = filter (λ kv, ¬ (fst kv ∈ names ∧ String.prefix "Admin_" (fst kv) = false))
          (sessions (snd w))
    ∧ (∀ f, f ∈ files (snd w')
            ↔ f ∈ files (snd w)
              ∧ ¬ (snd f ∈ names ∧ String.prefix "Admin_" (snd f) = false))
    ∧ Database.get_admin_session (fst w') = Database.get_admin_session (fst w)
    ∧ Database.phone_numbers (fst w') = Database.phone_numbers (fst w)
    ∧ Database.session_limits (fst w') = Database.session_limits (fst w).
Proof.
  revert w. induction names as [|nm names IH]; intros w.
  { exists w. split; [done|].
    split; [symmetry; apply filter_all; intros ? [?%elem_of_nil _]; done|].
    split; [|done]. intros f. split; [|tauto]. intros ?. split; [done|].
    intros [?%elem_of_nil _]. done. }
  cbn [remove_sessions].
  destruct (String.prefix "Admin_" nm) eqn:Hadmin.
  - erewrite bind_run_Ok by reflexivity. cbv beta.
    destruct (IH w) as (w' & E' & Hs & Hf & Ha & Hp & Hl).
    assert (∀ k, k = nm → String.prefix "Admin_" k = false → False) as Hnm
      by (intros k ->; congruence).
    exists w'. split; [exact E'|]. split; [|split; [|done]].
    + rewrite Hs. apply list_filter_iff. intros [k v]. simpl.
      rewrite elem_of_cons. specialize (Hnm k). tauto.
    + intros f. rewrite Hf, elem_of_cons. specialize (Hnm (snd f)). tauto.
  - destruct (remove_session_effect nm w) as (success & w1 & E1 & Hd1 & Hs1 & Hf1 & _).
    erewrite bind_run_Ok by (by erewrite bind_run_Ok by exact E1). cbv beta.
    destruct (IH w1) as (w' & E' & Hs & Hf & Ha & Hp & Hl).
    assert (∀ k, k = nm → String.prefix "Admin_" k = false) as Hnm by (by intros k ->).
    exists w'. split; [exact E'|].
    rewrite Hs1 in Hs. rewrite Hd1 in Ha, Hp, Hl.
    split; [|split; [|done]].
    + rewrite Hs. unfold dict_del. rewrite list_filter_filter.
      apply list_filter_iff. intros [k v]. simpl. rewrite elem_of_cons.
      specialize (Hnm k). tauto.
    + intros [b n]. rewrite Hf, Hf1, !elem_of_difference, !elem_of_singleton, elem_of_cons.
      simpl. specialize (Hnm n).
      assert ((b, n) ≠ (false, nm) ∧ (b, n) ≠ (true, nm) ↔ n ≠ nm) as Hother.
      { split; [|intros Hne; split; congruence].
        intros [H1 H2] ->. destruct b; [by apply H2 | by apply H1]. }
      tauto.
Qed.

Lemma dict_lookup_spared {A} (names : list string) (n : string)
    (l : list (string * A)) :
  dict_lookup n
    (filter (λ kv, ¬ (fst kv ∈ names ∧ String.prefix "Admin_" (fst kv) = false)) l)
  = if decide (¬ (n ∈ names ∧ String.prefix "Admin_" n = false))
    then dict_lookup n l else None.
Proof.
  induction l as [|[k v] l IH]; simpl; [by destruct (decide _)|].
  destruct (decide (¬ (k ∈ names ∧ String.prefix "Admin_" k = false))) as [Hk|Hk].
  - rewrite filter_cons_True by done. simpl. rewrite IH.
    destruct (decide (k = n)) as [->|Hne]; [by destruct (decide _)|done].
  - rewrite filter_cons_False by done. rewrite IH.
    destruct (decide (k = n)) as [->|Hne]; [by destruct (decide _)|done].
Qed.

Lemma dict_lookup_unknown {A} (n : string) (l : list (string * A)) :
  n ∉ fst <$> l → dict_lookup n l = None.
Proof.
  induction l as [|[k v] l IH]; simpl; [done|].
  rewrite not_elem_of_cons. intros [Hne Hn]. rewrite decide_False by done. by apply IH.
Qed.

(** X29. Whatever the client library answers, remove_all_sessions
    returns a flag and leaves the sessions table empty, no file in
    users/ and no registry entry whose name does not start with Admin_;
    registry entries and files in admins/ of names that start with
    Admin_ are as before, no file is added, and the admin row, the queue
    and the ledger of daily additions are untouched. *)
Theorem remove_all_sessions_spares_the_admin (w : Database.db * state) :
  let out := remove_all_sessions net log_out w in
  let d' := fst (snd out) in
  let s' := snd (snd out) in
  (∃ flag, fst out = Ok flag)
  ∧ Database.get_sessions d' = []
  ∧ (∀ n, (false, n) ∉ files s')
  ∧ (∀ n, String.prefix "Admin_" n = false → dict_lookup n (sessions s') = None)
  ∧ (∀ n, String.prefix "Admin_" n = true →
       dict_lookup n (sessions s') = dict_lookup n (sessions (snd w))
       ∧ ((true, n) ∈ files s' ↔ (true, n) ∈ files (snd w)))
  ∧ files s' ⊆ files (snd w)
  ∧ Database.get_admin_session d' = Database.get_admin_session (fst w)
  ∧ Database.phone_numbers d' = Database.phone_numbers (fst w)
  ∧ Database.session_limits d' = Database.session_limits (fst w).
Proof.
  cbv zeta. unfold remove_all_sessions.
  set (names := (fst <$> sessions (snd w)) ++ (fst <$> map_to_list (qr_sessions (snd w)))).
  destruct (remove_sessions_effect names w) as (w1 & E1 & Hreg & Hf & Ha & Hp & Hl).
  match goal with
  | |- context [try_except ?body ?handler w] =>
      assert (body w
              = (Ok true,
                 (Database.delete_all_sessions (fst w1),
                  with_files (snd w1) (filter (λ f, fst f = true) (files (snd w1))))))
        as E
  end.
  { erewrite bind_run_Ok by reflexivity. cbv beta. fold names.
    by erewrite bind_run_Ok by exact E1. }
  erewrite try_except_run_Ok by exact E. simpl. rewrite Hreg.
  split; [by exists true|]. split; [done|].
  split; [intros n [Hn _]%elem_of_filter; done|].
  split; [|split; [|split; [|done]]].
  - intros n Hn.
    rewrite dict_lookup_spared.
    destruct (decide _) as [Hk|Hk]; [|done].
    apply dict_lookup_unknown. intros Hin. apply Hk. split; [|done].
    apply elem_of_app. by left.
  - intros n Hn. split.
    + rewrite dict_lookup_spared.
      destruct (decide _) as [Hk|Hk]; [done|].
      exfalso. apply Hk. intros [_ ?]. congruence.
    + rewrite elem_of_filter, Hf. simpl. split; [tauto|].
      intros Hin. split; [done|]. split; [done|]. intros [_ ?]. congruence.
  - intros f [_ Hin]%elem_of_filter. by apply Hf in Hin as [? _].
Qed.

End Removal.

(** ** Health of the loaded sessions *)

Section Health.
Import SessionManager.
Context (net : network).

(** The first loop only opens connections; it lists every session that
    fails a request, and no session that passes both. *)
Lemma invalid_sessions_spec (l : list (string * client)) (w : Database.db * state) :
  ∃ names w',
    invalid_sessions net l w = (Ok names, w')
    ∧ only_connections w w'
    ∧ (∀ n, n ∈ names → n ∈ fst <$> l)
    ∧ (∀ n c, (n, c) ∈ l → n ∉ names → healthy net c)
    ∧ (∀ n c, (n, c) ∈ l → ¬ healthy net c → n ∈ names).
Proof.
  revert w. induction l as [|[name c] l IH]; intros w.
  { exists [], w. split; [done|]. split; [reflexivity|].
    split; [by intros n ?%elem_of_nil|].
    split; intros n c ?%elem_of_nil; done. }
  cbn [invalid_sessions].
  match goal with
  | |- context [bind (try_except ?body ?handler) _] =>
      assert (∃ mine w1, try_except body handler w = (Ok mine, w1)
                ∧ only_connections w w1
                ∧ (mine = [] ∧ healthy net c ∨ mine = [name]))
        as (mine & w1 & E & Hw1 & Hmine)
  end.
  { destruct w as [d s].
    unfold try_except, bind, is_connected, from_state, gets, client_connect, answer,
      on_state, modify, ret, healthy. simpl.
    assert (only_connections (d, s)
              (d, with_connected s ({[c]} ∪ connected s))) as Hup by done.
    destruct (bool_decide (c ∈ connected s)); simpl;
      [|destruct (connect net c) as [[]|?]; simpl];
      destruct (is_user_authorized net c) as [[]|?]; simpl;
      destruct (get_me net c) as [?|?]; simpl;
      eexists _, _; (split; [reflexivity|]); (split; [done || reflexivity|]);
      eauto. }
  destruct (IH w1) as (rest & w2 & E2 & Hw2 & Hsub & Hkept & Hgone).
  exists (mine ++ rest), w2.
  split; [by erewrite bind_run_Ok by exact E; erewrite bind_run_Ok by exact E2|].
  split; [by etransitivity|].
  split; [|split].
  - intros n [Hn|Hn]%elem_of_app; rewrite fmap_cons; simpl.
    + destruct Hmine as [[-> _]| ->]; [by apply elem_of_nil in Hn|].
      apply list_elem_of_singleton in Hn as ->. by left.
    + right. by apply Hsub.
  - intros n c' [[= -> ->]|Hin]%elem_of_cons Hn.
    + destruct Hmine as [[_ H]| ->]; [done|]. exfalso. apply Hn.
      apply elem_of_app. left. by left.
    + eapply Hkept; [done|]. intros Hr. apply Hn, elem_of_app. by right.
  - intros n c' [[= -> ->]|Hin]%elem_of_cons Hn.
    + destruct Hmine as [[_ H]| ->]; [done|]. apply elem_of_app. left. by left.
    + apply elem_of_app. right. by eapply Hgone.
Qed.

(** The removal of one name. *)
Lemma _remove_invalid_session_spec (nm : string) (w : Database.db * state) :
  ∃ x,
    _remove_invalid_session net nm w
    = (Ok tt,
       (Database.delete_session nm (fst w),
        with_connected
          (with_files (with_sessions (snd w) (dict_del nm (sessions (snd w))))
             (files (snd w) ∖ {[ (false, nm) ]}))
          x)).
Proof.
  destruct w as [d s]. unfold _remove_invalid_session.
  unfold try_except at 1. erewrite bind_run_Ok by reflexivity. cbv beta. simpl snd.
  destruct (dict_lookup nm (sessions s)) as [c|] eqn:Hu.
  - unfold bind, on_state, on_db, modify, try_except, client_disconnect, answer, ret.
    simpl. destruct (disconnect net c) as [[]|?]; simpl; by eexists.
  - exists (connected s). unfold bind, on_state, on_db, modify, ret. simpl.
    by rewrite dict_del_absent.
Qed.

(** The second loop. *)
Lemma remove_invalid_sessions_spec (names : list string) (w : Database.db * state) :
  ∃ w',
    remove_invalid_sessions net names w = (Ok tt, w')
    ∧ sessions (snd w') = filter (λ kv, fst kv ∉ names) (sessions (snd w))
    ∧ Database.sessions (fst w')
      = filter (λ r, Database.name r ∉ names) (Database.sessions (fst w))
    ∧ (∀ f, f ∈ files (snd w') ↔ f ∈ files (snd w) ∧ ¬ (fst f = false ∧ snd f ∈ names))
    ∧ user_sessions (snd w') = user_sessions (snd w)
    ∧ Database.phone_numbers (fst w') = Database.phone_numbers (fst w)
    ∧ Database.session_limits (fst w') = Database.session_limits (fst w).
Proof.
  revert w. induction names as [|nm names IH]; intros w.
  { exists w. split; [done|].
    split; [symmetry; apply filter_all; intros ?; apply not_elem_of_nil|].
    split; [symmetry; apply filter_all; intros ?; apply not_elem_of_nil|].
    split; [intros f; split; [intros ?; split; [done|]|tauto];
            intros [_ ?%elem_of_nil]; done|].
    done. }
  cbn [remove_invalid_sessions].
  destruct (_remove_invalid_session_spec nm w) as (x & E).
  erewrite bind_run_Ok by exact E. cbv beta.
  match goal with |- context [remove_invalid_sessions net names ?w1] =>
    destruct (IH w1) as (w' & E' & Hs & Hd & Hf & Hu & Hp & Hl) end.
  exists w'. split; [exact E'|]. simpl in Hs, Hd, Hf, Hu, Hp, Hl.
  split; [|split; [|split]].
  - rewrite Hs. unfold dict_del. rewrite list_filter_filter.
    apply list_filter_iff. intros kv. rewrite not_elem_of_cons. tauto.
  - rewrite Hd. rewrite list_filter_filter.
    apply list_filter_iff. intros r. rewrite not_elem_of_cons. tauto.
  - intros [b n]. rewrite Hf, elem_of_difference, elem_of_singleton, elem_of_cons. simpl.
    split.
    + intros [[Hin Hne] Hn]. split; [done|]. intros [-> [->|Hn']]; tauto.
    + intros [Hin Hn]. split; [split; [done|]|]; [intros [= -> ->]|]; tauto.
  - done.
Qed.

(** X25. _health_check_sessions never raises; every session it keeps in
    the registry was loaded before and answers is_user_authorized with
    True and get_me without error; a loaded session that fails one of
    the two, and any loaded session that is not kept, has afterwards no
    registry entry, no row in the store and no file in users/; rows and
    files of names that were not loaded, files in admins/, the identity
    map, the queue and the ledger are untouched. *)
Theorem health_check_keeps_the_healthy_sessions (w : Database.db * state) :
  let out := _health_check_sessions net w in
  let d' := fst (snd out) in
  let s' := snd (snd out) in
  fst out = Ok tt
  ∧ (∀ n c, (n, c) ∈ sessions s' → (n, c) ∈ sessions (snd w) ∧ healthy net c)
  ∧ (∀ n c, (n, c) ∈ sessions (snd w) → ¬ healthy net c →
       dict_lookup n (sessions s') = None
       ∧ (n ∉ Database.name <$> Database.get_sessions d')
       ∧ ((false, n) ∉ files s'))
  ∧ (∀ n c, (n, c) ∈ sessions (snd w) → (n, c) ∉ sessions s' →
       (n ∉ Database.name <$> Database.get_sessions d') ∧ ((false, n) ∉ files s'))
  ∧ (∀ n, n ∉ fst <$> sessions (snd w) →
       filter (λ r, Database.name r = n) (Database.get_sessions d')
       = filter (λ r, Database.name r = n) (Database.get_sessions (fst w))
       ∧ ((false, n) ∈ files s' ↔ (false, n) ∈ files (snd w)))
  ∧ (∀ n, (true, n) ∈ files s' ↔ (true, n) ∈ files (snd w))
  ∧ user_sessions s' = user_sessions (snd w)
  ∧ Database.phone_numbers d' = Database.phone_numbers (fst w)
  ∧ Database.session_limits d' = Database.session_limits (fst w).
Proof.
  cbv zeta. unfold _health_check_sessions.
  erewrite bind_run_Ok by reflexivity. cbv beta.
  destruct (invalid_sessions_spec (sessions (snd w)) w)
    as (names & w1 & E1 & [Hd1 Hs1] & Hsub & Hkept & Hgone).
  erewrite bind_run_Ok by exact E1. cbv beta.
  destruct (remove_invalid_sessions_spec names w1)
    as (w' & E' & Hs & Hd & Hf & Hu & Hp & Hl).
  rewrite E'. simpl.
  assert (sessions (snd w1) = sessions (snd w)) as Hreg by (by rewrite Hs1).
  assert (files (snd w1) = files (snd w)) as Hfiles by (by rewrite Hs1).
  assert (user_sessions (snd w1) = user_sessions (snd w)) as Hids by (by rewrite Hs1).
  rewrite Hreg in Hs. rewrite Hd1 in Hd, Hp, Hl. rewrite Hfiles in Hf. rewrite Hids in Hu.
  assert (∀ n, n ∈ names → dict_lookup n (sessions (snd w')) = None
                            ∧ (n ∉ Database.name <$> Database.get_sessions (fst w'))
                            ∧ ((false, n) ∉ files (snd w'))) as Hevicted.
  { intros n Hn. split; [|split].
    - rewrite Hs. clear -Hn. induction (sessions (snd w)) as [|[k v] l IH]; [done|].
      destruct (decide (k ∈ names)).
      + by rewrite filter_cons_False by (simpl; tauto).
      + rewrite filter_cons_True by done. simpl.
        destruct (decide (k = n)) as [->|]; [done|]. exact IH.
    - unfold Database.get_sessions. rewrite Hd.
      intros (r & -> & Hin)%list_elem_of_fmap.
      by apply list_elem_of_filter in Hin as [Hne _].
    - rewrite Hf. simpl. tauto. }
  split; [done|]. split; [|split; [|split; [|split; [|split]]]].
  - intros n c Hin. rewrite Hs in Hin. apply list_elem_of_filter in Hin as [Hn Hin].
    split; [done|]. by eapply Hkept.
  - intros n c Hin Hbad. apply Hevicted. by eapply Hgone.
  - intros n c Hin Hout.
    destruct (decide (n ∈ names)) as [Hn|Hn]; [by apply Hevicted|].
    exfalso. apply Hout. rewrite Hs. by apply list_elem_of_filter.
  - intros n Hn. assert (n ∉ names) as Hn' by (intros ?; by apply Hn, Hsub).
    split.
    + unfold Database.get_sessions. rewrite Hd, list_filter_filter.
      apply list_filter_iff. intros r. simpl. split; [tauto|].
      intros ->. by split.
    + rewrite Hf. simpl. tauto.
  - intros n. rewrite Hf. simpl. split; [tauto|]. intros ?. split; [done|].
    intros [? _]. done.
  - done.
Qed.

End Health.

(** ** The janitor of abandoned attempts *)

Section Janitor.
Import SessionManager.
Context (net : network) (created_at : string → option Z) (now : Z).

Lemma stored_decided (d : Database.db) (nm : string) :
  negb (bool_decide (Exists (λ r, Database.name r = nm) (Database.get_sessions d)))
  && negb match Database.get_admin_session d with
          | Some row => bool_decide (Database.session_name row = nm)
          | None => false
          end = true
  → ¬ stored d nm.
Proof.
  intros [H1 H2]%andb_true_iff. apply negb_true_iff in H1, H2.
  apply bool_decide_eq_false in H1.
  intros [(r & -> & Hin)%list_elem_of_fmap|(row & Hrow & Hnm)].
  - apply H1, Exists_exists. by exists r.
  - rewrite Hrow in H2. by apply bool_decide_eq_false in H2.
Qed.

(** The cleanup of one attempt. *)
Lemma cleanup_expired_spec (nm : string) (w : Database.db * state) :
  ∃ w',
    cleanup_expired net nm w = (Ok tt, w')
    ∧ fst w' = fst w
    ∧ sessions (snd w') = sessions (snd w)
    ∧ admin_sessions (snd w') = admin_sessions (snd w)
    ∧ user_sessions (snd w') = user_sessions (snd w)
    ∧ qr_sessions (snd w') = delete nm (qr_sessions (snd w))
    ∧ files (snd w') ⊆ files (snd w)
    ∧ (∀ f, f ∈ files (snd w) → f ∉ files (snd w') → snd f = nm ∧ ¬ stored (fst w) nm).
Proof.
  destruct w as [d s]. unfold cleanup_expired.
  erewrite bind_run_Ok by reflexivity. cbv beta. simpl snd.
  match goal with
  | |- context [bind ?m ?k (d, s)] =>
      assert (∃ x, m (d, s)
                   = (Ok tt, (d, with_connected
                                   (with_qr_sessions s (delete nm (qr_sessions s))) x)))
        as [x E]
  end.
  { destruct (qr_sessions s !! nm) as [q|] eqn:Hq.
    - unfold bind, try_except, client_disconnect, answer, forget_attempt, on_state,
        modify, ret. simpl.
      destruct (held_client q) as [c|]; [destruct (disconnect net c) as [[]|?]|];
        simpl; by eexists.
    - exists (connected s). unfold ret. rewrite delete_id by done. by destruct s. }
  erewrite bind_run_Ok by exact E. cbv beta.
  unfold bind, from_state, from_db, gets, on_state, modify, ret. simpl.
  assert (∀ path : bool * string, snd path = nm →
            files s ∖ {[ path ]} ⊆ files s
            ∧ (negb (bool_decide (Exists (λ r, Database.name r = nm)
                                    (Database.get_sessions d)))
               && negb match Database.get_admin_session d with
                       | Some row => bool_decide (Database.session_name row = nm)
                       | None => false
                       end = true →
               ∀ f, f ∈ files s → f ∉ files s ∖ {[ path ]} → snd f = nm ∧ ¬ stored d nm))
    as Hunlink.
  { intros path Hpath. split; [by intros f [? _]%elem_of_difference|].
    intros Hdb f Hf Hout. split; [|by apply stored_decided].
    destruct (decide (f = path)) as [->|Hne]; [done|].
    exfalso. apply Hout, elem_of_difference. split; [done|]. by rewrite elem_of_singleton. }
  assert (∀ f, f ∈ files s → f ∉ files s → snd f = nm ∧ ¬ stored d nm) as Hkeep
    by (by intros f ??).
  destruct (bool_decide ((false, nm) ∈ files s)) eqn:Hu; simpl;
    [|destruct (bool_decide ((true, nm) ∈ files s)) eqn:Ha; simpl].
  - destruct (_ && _) eqn:Hdb; eexists; (split; [reflexivity|]); simpl;
      do 5 (split; [done|]).
    + destruct (Hunlink (false, nm) eq_refl) as [H1 H2]. split; [done|]. by apply H2.
    + by split.
  - destruct (_ && _) eqn:Hdb; eexists; (split; [reflexivity|]); simpl;
      do 5 (split; [done|]).
    + destruct (Hunlink (true, nm) eq_refl) as [H1 H2]. split; [done|]. by apply H2.
    + by split.
  - eexists; (split; [reflexivity|]); simpl; do 5 (split; [done|]). by split.
Qed.

Lemma cleanup_all_expired_spec (names : list string) (w : Database.db * state) :
  ∃ w',
    cleanup_all_expired net names w = (Ok tt, w')
    ∧ fst w' = fst w
    ∧ sessions (snd w') = sessions (snd w)
    ∧ admin_sessions (snd w') = admin_sessions (snd w)
    ∧ user_sessions (snd w') = user_sessions (snd w)
    ∧ (∀ n, qr_sessions (snd w') !! n
            = if decide (n ∈ names) then None else qr_sessions (snd w) !! n)
    ∧ files (snd w') ⊆ files (snd w)
    ∧ (∀ f, f ∈ files (snd w) → f ∉ files (snd w') →
            snd f ∈ names ∧ ¬ stored (fst w) (snd f)).
Proof.
  revert w. induction names as [|nm names IH]; intros w.
  { exists w. split; [done|]. do 4 (split; [done|]). split; [done|]. split; [done|].
    by intros f ??. }
  cbn [cleanup_all_expired].
  destruct (cleanup_expired_spec nm w) as (w1 & E1 & Hd1 & Hs1 & Ha1 & Hu1 & Hq1 & Hf1 & Hg1).
  erewrite bind_run_Ok by exact E1. cbv beta.
  destruct (IH w1) as (w' & E' & Hd & Hs & Ha & Hu & Hq & Hf & Hg).
  exists w'. split; [exact E'|].
  split; [congruence|]. split; [congruence|]. split; [congruence|]. split; [congruence|].
  split; [|split].
  - intros n. rewrite Hq, Hq1. destruct (decide (n ∈ names)) as [Hn|Hn].
    + rewrite decide_True; [done|]. by right.
    + destruct (decide (n = nm)) as [->|Hne].
      * rewrite decide_True by (by left). by rewrite lookup_delete_eq.
      * rewrite decide_False by (rewrite elem_of_cons; tauto).
        by rewrite lookup_delete_ne.
  - by etransitivity.
  - intros f Hin Hout. destruct (decide (f ∈ files (snd w1))) as [Hin1|Hout1].
    + destruct (Hg f Hin1 Hout) as [Hn Hst]. split; [by right|]. by rewrite <- Hd1.
    + destruct (Hg1 f Hin Hout1) as [Hn Hst]. rewrite Hn. split; [by left|done].
Qed.

(** X27. One pass of _cleanup_expired_sessions forgets exactly the
    tracked attempts created more than 600 seconds ago and keeps the
    others as they are; it leaves the store, the registries and the
    identity map alone, adds no file, and deletes a session file only if
    it bears the name of such an old attempt that the store lists
    neither in sessions nor as the admin session. *)
Theorem janitor_forgets_old_attempts_only (w : Database.db * state) :
  let out := _cleanup_expired_sessions net created_at now w in
  let s' := snd (snd out) in
  fst out = Ok tt
  ∧ fst (snd out) = fst w
  ∧ sessions s' = sessions (snd w)
  ∧ admin_sessions s' = admin_sessions (snd w)
  ∧ user_sessions s' = user_sessions (snd w)
  ∧ (∀ n, qr_sessions s' !! n
          = if is_expired created_at now n then None else qr_sessions (snd w) !! n)
  ∧ files s' ⊆ files (snd w)
  ∧ (∀ f, f ∈ files (snd w) → f ∉ files s' →
          is_expired created_at now (snd f) = true
          ∧ is_Some (qr_sessions (snd w) !! snd f)
          ∧ ¬ stored (fst w) (snd f)).
Proof.
  cbv zeta. unfold _cleanup_expired_sessions.
  erewrite bind_run_Ok by reflexivity. cbv beta.
  match goal with |- context [cleanup_all_expired net ?names w] =>
    set (expired_sessions := names);
    destruct (cleanup_all_expired_spec expired_sessions w)
      as (w' & E' & Hd & Hs & Ha & Hu & Hq & Hf & Hg) end.
  assert (∀ n, n ∈ expired_sessions
               ↔ is_expired created_at now n = true ∧ is_Some (qr_sessions (snd w) !! n))
    as Hnames.
  { intros n. unfold expired_sessions. rewrite list_elem_of_filter, list_elem_of_fmap.
    split.
    - intros [He ([n' q] & -> & Hin)]. split; [done|].
      apply elem_of_map_to_list in Hin. by exists q.
    - intros [He [q Hq']]. split; [done|]. exists (n, q). split; [done|].
      by apply elem_of_map_to_list. }
  rewrite E'. simpl. split; [done|]. repeat (split; [done|]).
  split; [|split; [done|]].
  - intros n. rewrite Hq. destruct (decide (n ∈ expired_sessions)) as [Hn|Hn].
    + apply Hnames in Hn as [-> _]. done.
    + destruct (is_expired created_at now n) eqn:He; [|done].
      destruct (qr_sessions (snd w) !! n) as [q|] eqn:Hq'; [|done].
      exfalso. apply Hn, Hnames. split; [done|]. by exists q.
  - intros f Hin Hout. destruct (Hg f Hin Hout) as [Hn Hst].
    apply Hnames in Hn as [He Hsome]. done.
Qed.

End Janitor.

(** ** Polling an attempt *)

Section Polling.
Import SessionManager.
Context (net : network).

(** A name that is not tracked: the store decides the answer, and
    nothing changes. *)
Lemma poll_untracked (nm : string) (w : Database.db * state) :
  qr_sessions (snd w) !! nm = None →
  check_qr_status nm w
  = (Ok (if bool_decide (Exists (λ r, Database.name r = nm
                                      ∧ Database.session_status r = "active")
                           (Database.get_sessions (fst w)))
         then "success" else "not_found", None), w).
Proof.
  intros Hq. unfold check_qr_status. erewrite bind_run_Ok by reflexivity. cbv beta.
  rewrite Hq. unfold bind, from_db, gets. simpl. by case_bool_decide.
Qed.

(** The end of a terminal report: the record of the operation is
    completed and the attempt forgotten. *)
Lemma poll_terminal (nm : string) (op : option nat) (st : string) (data : option string)
    (answer : string * option string) (w : Database.db * state) :
  let out := (complete_operation op st data ;;; forget_attempt nm ;;; ret answer) w in
  fst out = Ok answer
  ∧ qr_sessions (snd (snd out)) !! nm = None
  ∧ Database.get_sessions (fst (snd out)) = Database.get_sessions (fst w)
  ∧ sessions (snd (snd out)) = sessions (snd w).
Proof.
  cbv zeta. unfold bind, complete_operation, forget_attempt, on_db, on_state, modify, ret.
  destruct op; simpl; by rewrite lookup_delete_eq.
Qed.

(** X28. check_qr_status on a tracked attempt: while the status is
    generating, waiting or password_required the poll changes nothing; a
    status scanned, duplicate, expired or error is reported once
    (scanned as 'success', duplicate with its message), the attempt is
    forgotten with the sessions table and the registry unchanged, and
    every later poll answers 'success' if the store has an active row of
    that name and 'not_found' otherwise, changing nothing. *)
Theorem terminal_status_is_reported_once (nm : string) (q : qr_session)
    (w : Database.db * state) :
  qr_sessions (snd w) !! nm = Some q →
  let out := check_qr_status nm w in
  let later :=
    if bool_decide (Exists (λ r, Database.name r = nm
                                 ∧ Database.session_status r = "active")
                      (Database.get_sessions (fst w)))
    then "success" else "not_found" in
  let reported (text : string) (note : option string) :=
    fst out = Ok (text, note)
    ∧ qr_sessions (snd (snd out)) !! nm = None
    ∧ Database.get_sessions (fst (snd out)) = Database.get_sessions (fst w)
    ∧ sessions (snd (snd out)) = sessions (snd w)
    ∧ check_qr_status nm (snd out) = (Ok (later, None), snd out) in
  match status q with
  | generating | waiting => out = (Ok ("waiting", None), w)
  | password_required => out = (Ok ("password_required", None), w)
  | scanned => reported "success" None
  | duplicate =>
      reported "duplicate"
        (Some (default "You already have an active session" (message q)))
  | expired => reported "expired" None
  | error => reported "error" None
  end.
Proof.
  intros Hq. cbv zeta.
  assert (∀ op st data answer,
    check_qr_status nm w
    = (complete_operation op st data ;;; forget_attempt nm ;;; ret answer) w →
    fst (check_qr_status nm w) = Ok answer
    ∧ qr_sessions (snd (snd (check_qr_status nm w))) !! nm = None
    ∧ Database.get_sessions (fst (snd (check_qr_status nm w)))
      = Database.get_sessions (fst w)
    ∧ sessions (snd (snd (check_qr_status nm w))) = sessions (snd w)
    ∧ check_qr_status nm (snd (check_qr_status nm w))
      = (Ok (if bool_decide (Exists (λ r, Database.name r = nm
                                          ∧ Database.session_status r = "active")
                               (Database.get_sessions (fst w)))
             then "success" else "not_found", None), snd (check_qr_status nm w)))
    as Hreport.
  { intros op st data answer ->.
    destruct (poll_terminal nm op st data answer w) as (H1 & H2 & H3 & H4).
    do 4 (split; [done|]). rewrite poll_untracked by done. by rewrite H3. }
  assert (check_qr_status nm w
          = (match status q with
             | generating | waiting => ret ("waiting", None)
             | scanned =>
                 complete_operation (operation_id q) "completed" None ;;;
                 forget_attempt nm ;;; ret ("success", None)
             | duplicate =>
                 complete_operation (operation_id q) "completed" (Some "result") ;;;
                 forget_attempt nm ;;;
                 ret ("duplicate",
                      Some (default "You already have an active session" (message q)))
             | password_required => ret ("password_required", None)
             | expired | error =>
                 complete_operation (operation_id q) "failed" (Some "reason") ;;;
                 forget_attempt nm ;;; ret (status_text (status q), None)
             end) w) as Hpoll.
  { unfold check_qr_status. erewrite bind_run_Ok by reflexivity. cbv beta.
    rewrite Hq. by destruct (status q). }
  destruct (status q) eqn:Hst; try exact Hpoll; by eapply Hreport.
Qed.

(** X22. When the scan signal of a tracked attempt times out and the
    handle lets itself be disconnected, _wait_for_scan returns with the
    attempt in status 'expired', the handle closed and no session file
    of that name; the next check_qr_status answers 'expired' and forgets
    the attempt. *)
Theorem timed_out_attempt_is_reported_expired (nm : string) (c : client) (e : exn)
    (q : qr_session) (w : Database.db * state) :
  qr_wait net c = Raise e → exn_class_of e = TimeoutError →
  disconnect net c = Ok tt →
  qr_sessions (snd w) !! nm = Some q →
  let out := _wait_for_scan net nm c w in
  fst out = Ok tt
  ∧ status <$> qr_sessions (snd (snd out)) !! nm = Some expired
  ∧ (c ∉ connected (snd (snd out)))
  ∧ ((false, nm) ∉ files (snd (snd out)))
  ∧ ((true, nm) ∉ files (snd (snd out)))
  ∧ fst (check_qr_status nm (snd out)) = Ok ("expired", None)
  ∧ qr_sessions (snd (snd (check_qr_status nm (snd out)))) !! nm = None.
Proof.
  intros Hwait Hclass Hd Hq. cbv zeta.
  rewrite (wait_times_out net nm c e w Hwait Hclass).
  destruct (cleanup_records_status net nm c expired q w Hd Hq)
    as (Hok & Hst & Hc & Hu & Ha).
  repeat (split; [done|]).
  destruct (_cleanup_invalid_session net nm c expired w) as [r [d1 s1]]. simpl in *.
  destruct (qr_sessions s1 !! nm) as [q1|] eqn:Hq1; [|discriminate Hst].
  simpl in Hst. injection Hst as Hst.
  assert (check_qr_status nm (d1, s1)
          = (complete_operation (operation_id q1) "failed" (Some "reason") ;;;
             forget_attempt nm ;;; ret ("expired", None)) (d1, s1)) as ->.
  { unfold check_qr_status. erewrite bind_run_Ok by reflexivity. cbv beta. cbn [snd].
    by rewrite Hq1, Hst. }
  destruct (poll_terminal nm (operation_id q1) "failed" (Some "reason")
              ("expired", None) (d1, s1)) as (H1 & H2 & _).
  split; [exact H1 | exact H2].
Qed.

(** The refusal of a completed login whose identity is known, as a run. *)
Lemma refusal_run (nm : string) (c : client) (me : user) (existing : string)
    (w : Database.db * state) :
  get_me net c = Ok (Some me) →
  user_sessions (snd w) !! id me = Some existing → existing ≠ "" →
  disconnect net c = Ok tt →
  ∃ s',
    _save_valid_session net nm c w = (Ok tt, (fst w, s'))
    ∧ sessions s' = sessions (snd w)
    ∧ user_sessions s' = user_sessions (snd w)
    ∧ files s' = files (snd w).
Proof.
  intros Hme Hknown Hne Hd. destruct w as [d s]. simpl in *.
  unfold _save_valid_session, try_except, bind, answer, from_state, gets.
  rewrite Hme. simpl. rewrite Hknown.
  assert (String.eqb existing "" = false) as -> by (by apply String.eqb_neq).
  simpl. unfold client_disconnect, bind, answer. rewrite Hd. simpl.
  by eexists.
Qed.

(** X30. When an attempt holds its client for the 2FA password and
    user_sessions already maps the account to a session, a password that
    signs in makes verify_2fa_password answer success and forget the
    attempt although the login was refused as a duplicate: the store,
    the registry, the identity map and the session directory are
    unchanged. *)
Theorem password_login_of_known_identity (nm password : string) (c : client)
    (q : qr_session) (me : user) (existing : string) (w : Database.db * state) :
  qr_sessions (snd w) !! nm = Some q → held_client q = Some c →
  sign_in net c password = Ok tt →
  is_user_authorized net c = Ok true →
  get_me net c = Ok (Some me) →
  user_sessions (snd w) !! id me = Some existing → existing ≠ "" →
  disconnect net c = Ok tt →
  let out := verify_2fa_password net nm password w in
  fst out = Ok ReplySuccess
  ∧ fst (snd out) = fst w
  ∧ sessions (snd (snd out)) = sessions (snd w)
  ∧ user_sessions (snd (snd out)) = user_sessions (snd w)
  ∧ files (snd (snd out)) = files (snd w)
  ∧ qr_sessions (snd (snd out)) !! nm = None.
Proof.
  intros Hq Hc Hsign Hauth Hme Hknown Hne Hd. cbv zeta.
  destruct (refusal_run nm c me existing w Hme Hknown Hne Hd)
    as (s' & E & Hs & Hu & Hf).
  unfold verify_2fa_password. erewrite bind_run_Ok by reflexivity. cbv beta.
  rewrite Hq, Hc.
  erewrite try_except_run_Ok.
  2:{ erewrite bind_run_Ok by (unfold answer; by rewrite Hsign). cbv beta.
      erewrite bind_run_Ok by (unfold answer; by rewrite Hauth). cbv beta iota.
      erewrite bind_run_Ok by exact E. cbv beta.
      reflexivity. }
  simpl. rewrite lookup_delete_eq. done.
Qed.

End Polling.


(** ** Instances of the further properties *)

Section FurtherWitnesses.
Import SessionManager Scenario.

(** X1 on the store of the round-robin scenario and a new phone. *)
Lemma phone_table_stays_unique_witness :
  NoDup (Database.phone <$> Database.phone_numbers round_robin_store)
  ∧ NoDup (Database.phone <$>
             Database.phone_numbers (snd (Database.add_phone_number "+1005"
                                            round_robin_store)))
  ∧ (fst (Database.add_phone_number "+1001" round_robin_store) = false
     → snd (Database.add_phone_number "+1001" round_robin_store) = round_robin_store).
Proof.
  assert (NoDup (Database.phone <$> Database.phone_numbers round_robin_store)) as H.
  { refine (bool_decide_unpack _ _). vm_compute. exact I. }
  split; [exact H|]. split.
  - exact (proj1 (phone_table_stays_unique round_robin_store "+1005" Database.Added H)).
  - exact (proj2 (proj2 (proj2 (proj2
             (phone_table_stays_unique round_robin_store "+1001" Database.Added H))))).
Defined.

(** X2 on the same store. *)
Lemma added_phone_can_be_removed_again_witness :
  ("+1005" ∉ Database.phone <$> Database.phone_numbers round_robin_store)
  ∧ Database.remove_phone_number "+1005"
      (snd (Database.add_phone_number "+1005" round_robin_store))
    = (true, round_robin_store).
Proof.
  assert ("+1005" ∉ Database.phone <$> Database.phone_numbers round_robin_store) as H.
  { refine (bool_decide_unpack _ _). vm_compute. exact I. }
  split; [exact H|].
  exact (proj2 (proj2 (added_phone_can_be_removed_again round_robin_store "+1005" H))).
Defined.

(** X3 on the same store: the first target is marked as added. *)
Lemma marked_phone_leaves_the_queue_witness :
  Database.Added ≠ Database.Pending
  ∧ Database.pending_phones (Database.mark_phone Database.Added "+1001" round_robin_store)
    = Database.pending_phones round_robin_store - 1.
Proof.
  assert (Database.Added ≠ Database.Pending) as H by discriminate.
  split; [exact H|].
  apply (proj2 (marked_phone_leaves_the_queue round_robin_store "+1001" Database.Added H)).
  - refine (bool_decide_unpack _ _). vm_compute. exact I.
  - refine (bool_decide_unpack _ _). vm_compute. exact I.
Defined.


(** X5 on the same store: the row of S2 is written again. *)
Lemma created_session_replaces_its_row_witness :
  NoDup (Database.name <$> Database.sessions round_robin_store)
  ∧ Database.get_sessions_count
      (Database.create_session "S2" 2 "other" "active" round_robin_store)
    = 3.
Proof.
  assert (NoDup (Database.name <$> Database.sessions round_robin_store)) as H.
  { refine (bool_decide_unpack _ _). vm_compute. exact I. }
  split; [exact H|].
  pose proof (created_session_replaces_its_row round_robin_store "S2" 2 "other" "active" H)
    as (_ & _ & _ & Hcount & _).
  rewrite Hcount. vm_compute. reflexivity.
Defined.

(** X8 on the same store: one known phone, one new phone given twice. *)
Lemma import_counts_the_new_numbers_witness :
  NoDup (Database.phone <$> Database.phone_numbers round_robin_store)
  ∧ 0 ≤ fst (import_phone_numbers [" +1001 "; "+2000"; "+2000"] round_robin_store) ≤ 3.
Proof.
  assert (NoDup (Database.phone <$> Database.phone_numbers round_robin_store)) as H.
  { refine (bool_decide_unpack _ _). vm_compute. exact I. }
  split; [exact H|].
  exact (proj1 (proj2 (proj2
           (import_counts_the_new_numbers [" +1001 "; "+2000"; "+2000"]
              round_robin_store H)))).
Defined.


(** X13 on a store that has a target group and is enabled but holds no
    pending phone. *)
Lemma closed_gate_never_launches_witness :
  let w :=
    AutoAdd.World (AutoAdd.init 120)
      (Database.set_setting "auto_add_enabled" (VBool true)
         (Database.set_setting "target_group_id" (VInt 777) Database.empty)) tt in
  let turns :=
    [AutoAdd.Turn (timedelta 0 6) 0 [AutoAdd.WakeUp true (timedelta 0 5)];
     AutoAdd.Turn (timedelta 0 12) 0 []] in
  closed NothingPending (AutoAdd.db w)
  ∧ AutoAdd.first_launch (fst (AutoAdd._run_loop idle_manager 0 turns w)) = None.
Proof.
  cbv zeta. split; [reflexivity|].
  apply (closed_gate_never_launches idle_manager NothingPending).
  - reflexivity.
  - repeat constructor.
Defined.

(** X14 on the enabled store of the supervisor scenario. *)
Lemma forced_wakeup_launches_next_pass_witness :
  Database.pending_phones (AutoAdd.db enabled_world) ≠ 0
  ∧ ∃ w', AutoAdd.loop_body idle_manager 60 90
            (snd (AutoAdd.wake_up true 50 enabled_world))
          = (Ok (AutoAdd.Launched 60), w').
Proof.
  assert (Database.pending_phones (AutoAdd.db enabled_world) ≠ 0) as H
    by (vm_compute; discriminate).
  split; [exact H|].
  exact (proj1 (forced_wakeup_launches_next_pass idle_manager 50 60 90 enabled_world
                  eq_refl eq_refl H)).
Defined.

(** X16 on the same scenario: the run of the idle manager is recorded. *)
Lemma returned_run_is_recorded_witness :
  Database.get_setting "auto_add_last_result" VNone
    (AutoAdd.db (snd (AutoAdd._execute_cycle idle_manager (VInt 777) ∅ 90 enabled_world)))
  = VRun (RunFailure "No user sessions available").
Proof.
  exact (proj1 (returned_run_is_recorded idle_manager (VInt 777) ∅ 90 enabled_world
                  (RunFailure "No user sessions available") _ _ eq_refl eq_refl)).
Defined.

(** X18 on the round-robin run. *)
Lemma run_counters_add_up_witness :
  ∃ r,
    fst (add_users_to_group cooperative (VInt group_id) 0 5 2 VNone round_robin_world)
    = Ok (RunSuccess r)
    ∧ counted 4 0 r.
Proof.
  assert (∃ r, fst (add_users_to_group cooperative (VInt group_id) 0 5 2 VNone
                      round_robin_world) = Ok (RunSuccess r)) as [r Hr].
  { eexists. vm_compute. reflexivity. }
  exists r. split; [exact Hr|].
  exact (run_counters_add_up cooperative (VInt group_id) 0 5 2 VNone round_robin_world r Hr).
Defined.

(** X19 on the round-robin run. *)
Lemma run_keeps_sessions_within_daily_cap_witness :
  NoDup (fst <$> sessions (snd round_robin_world))
  ∧ within_cap 2 (today cooperative) (fst round_robin_world)
      (fst (snd (add_users_to_group cooperative (VInt group_id) 0 5 2 VNone
                   round_robin_world))).
Proof.
  assert (NoDup (fst <$> sessions (snd round_robin_world))) as H.
  { refine (bool_decide_unpack _ _). vm_compute. exact I. }
  split; [exact H|].
  exact (run_keeps_sessions_within_daily_cap cooperative (VInt group_id) 0 5 2 VNone
           round_robin_world H eq_refl).
Defined.

(** X21: the account 7 holds Session_A and completes a second login. *)
Lemma known_identity_is_refused_witness :
  let w := (Database.empty,
            with_user_sessions
              (with_qr_sessions fresh
                 (<["Session_B" := QrSession waiting None None None false None]> ∅))
              (<[7 := "Session_A"]> ∅)) in
  let out := _save_valid_session cooperative "Session_B" (MemoryClient "Session_B") w in
  fst (snd out) = fst w
  ∧ sessions (snd (snd out)) = sessions (snd w)
  ∧ status <$> qr_sessions (snd (snd out)) !! "Session_B" = Some duplicate.
Proof.
  cbv zeta.
  pose proof (known_identity_is_refused cooperative "Session_B" (MemoryClient "Session_B")
                (User 7 None None) "Session_A"
                (Database.empty,
                 with_user_sessions
                   (with_qr_sessions fresh
                      (<["Session_B" := QrSession waiting None None None false None]> ∅))
                   (<[7 := "Session_A"]> ∅))
                eq_refl eq_refl) as H.
  destruct H as (_ & Hd & Hs & _ & _ & _ & Hq); [discriminate | reflexivity |].
  split; [exact Hd|]. split; [exact Hs|]. rewrite Hq. reflexivity.
Defined.

(** X22: the attempt Session_Q is never scanned. *)
Lemma timed_out_attempt_is_reported_expired_witness :
  let c := MemoryClient "Session_Q" in
  let w := (Database.empty,
            with_qr_sessions fresh
              (<["Session_Q" := QrSession waiting None (Some c) None false None]> ∅)) in
  fst (check_qr_status "Session_Q" (snd (_wait_for_scan never_scanned "Session_Q" c w)))
  = Ok ("expired", None).
Proof.
  cbv zeta.
  refine (proj1 (proj2 (proj2 (proj2 (proj2 (proj2
            (timed_out_attempt_is_reported_expired never_scanned "Session_Q"
               (MemoryClient "Session_Q") (Exn TimeoutError "")
               (QrSession waiting None (Some (MemoryClient "Session_Q")) None false None)
               (Database.empty,
                with_qr_sessions fresh
                  (<["Session_Q" := QrSession waiting None
                                      (Some (MemoryClient "Session_Q")) None false None]>
                     ∅))
               eq_refl eq_refl eq_refl eq_refl))))))).
Defined.

(** X23: a phone that is in no contact list, on the cooperative network. *)
Lemma temp_contact_removed_witness :
  ("+1001" ∉ (∅ : gset string))
  ∧ ("+1001" ∉ contacts_of
        (snd (snd (_process_phone_number cooperative S1 admin "+1001" chat group_id "S1"
                     (Some invite_link) ∅ round_robin_world))) S1).
Proof.
  assert ("+1001" ∉ (∅ : gset string)) as H by apply not_elem_of_empty.
  split; [exact H|].
  exact (temp_contact_removed cooperative S1 admin "+1001" chat chat group_id group_id 42
           "S1" (Some invite_link) ∅ round_robin_world H eq_refl eq_refl eq_refl eq_refl
           eq_refl).
Defined.

(** X24: the phone is among the contacts fetched for the session. *)
Lemma present_contact_untouched_witness :
  ("+1001" ∈ ({[ "+1001" ]} : gset string))
  ∧ contacts (snd (snd (_process_phone_number cooperative S1 admin "+1001" chat group_id
                          "S1" (Some invite_link) {[ "+1001" ]} round_robin_world)))
    = contacts (snd round_robin_world).
Proof.
  assert ("+1001" ∈ ({[ "+1001" ]} : gset string)) as H by (by apply elem_of_singleton).
  split; [exact H|].
  exact (present_contact_untouched cooperative S1 admin "+1001" chat group_id "S1"
           (Some invite_link) {[ "+1001" ]} round_robin_world H).
Defined.

(** X28: an attempt that was scanned, polled twice. *)
Lemma terminal_status_is_reported_once_witness :
  let w := (Database.with_sessions Database.empty
              [Database.SessionRow "Session_B" "active" 1 "hash"],
            with_qr_sessions fresh
              (<["Session_B" := QrSession scanned None None None false None]> ∅)) in
  fst (check_qr_status "Session_B" w) = Ok ("success", None)
  ∧ check_qr_status "Session_B" (snd (check_qr_status "Session_B" w))
    = (Ok ("success", None), snd (check_qr_status "Session_B" w)).
Proof.
  cbv zeta.
  pose proof (terminal_status_is_reported_once "Session_B"
                (QrSession scanned None None None false None)
                (Database.with_sessions Database.empty
                   [Database.SessionRow "Session_B" "active" 1 "hash"],
                 with_qr_sessions fresh
                   (<["Session_B" := QrSession scanned None None None false None]> ∅))
                eq_refl) as (H1 & _ & _ & _ & H2).
  split; [exact H1 | exact H2].
Defined.

(** X30: the account 7 holds Session_A and gives the password of a
    second login. *)
Lemma password_login_of_known_identity_witness :
  let c := MemoryClient "Session_B" in
  let w := (Database.empty,
            with_user_sessions
              (with_qr_sessions fresh
                 (<["Session_B" := QrSession password_required None (Some c) None false
                                     None]> ∅))
              (<[7 := "Session_A"]> ∅)) in
  let out := verify_2fa_password cooperative "Session_B" "secret" w in
  fst out = Ok ReplySuccess ∧ fst (snd out) = fst w.
Proof.
  cbv zeta.
  pose proof (password_login_of_known_identity cooperative "Session_B" "secret"
                (MemoryClient "Session_B")
                (QrSession password_required None (Some (MemoryClient "Session_B")) None
                   false None)
                (User 7 None None) "Session_A"
                (Database.empty,
                 with_user_sessions
                   (with_qr_sessions fresh
                      (<["Session_B" := QrSession password_required None
                                          (Some (MemoryClient "Session_B")) None false
                                          None]> ∅))
                   (<[7 := "Session_A"]> ∅))
                eq_refl eq_refl eq_refl eq_refl eq_refl eq_refl) as H.
  destruct H as (H1 & H2 & _); [discriminate | reflexivity |].
  split; [exact H1 | exact H2].
Defined.

End FurtherWitnesses.
